(** * ECB exchange-rate ETL: a shallow embedding of [src/ecb_etl.py]

    The development follows the module top-down: Python text helpers,
    calendar dates and [parse_ecb_date], the archive inspector
    [read_single_file_from_zip], the three format parsers, the loaders,
    the aggregator and the Markdown renderer.

    Modelling conventions.
    - Python [str] is [string]; the text helpers ([strip], [upper], [lower],
      [isspace]) are modelled on the ASCII range, where a character is a
      byte.  Text outside ASCII is outside the model.
    - An exception is a value of [exn]; a function that may raise returns
      [result A].
    - A [dict] read only through [get]/[in] is a [gmap]; the rows of
      [csv.DictReader], where insertion order and overwriting matter, are
      association lists with Python's in-place update.
    - A Python [float] is an IEEE 754 binary64 value, [spec_float] with
      precision 53 and maximal exponent 1024. *)

From Stdlib Require Import ZArith String Ascii List Lia.
From Stdlib Require Import Floats.SpecFloat.
From stdpp Require Import base option list sorting gmap strings.

Set Warnings "-register-all".

Local Open Scope Z_scope.

(** ** Exceptions and results *)

Inductive exn : Type :=
  | ValueError (msg : string)  (* [raise ValueError(msg)] in ecb_etl.py *)
  | DateValueError             (* ValueError of [datetime.strptime] *)
  | FsumValueError             (* ValueError of [math.fsum]: -inf + inf *)
  | FsumOverflowError          (* OverflowError of [math.fsum] *)
  | StatisticsError            (* [statistics.fmean] of no data *)
  | AttributeError             (* [None.strip()] *)
  | KeyError                   (* [ZipFile.read] of a name not in the archive *)
  | DecodeError.               (* the payload is rejected by a library decoder *)


Inductive result (A : Type) : Type :=
  | Ok (a : A)
  | Raise (e : exn).
Arguments Ok {A} a.
Arguments Raise {A} e.

(** Sequencing that propagates the first exception; [x ← r; k] is stdpp's
    notation for it. *)
#[global] Instance result_bind : MBind result := fun A B k r =>
  match r with
  | Ok a => k a
  | Raise e => Raise e
  end.
#[global] Instance result_ret : MRet result := fun A a => Ok a.

(** ** Python text helpers, on the ASCII range *)

Module PyStr.

Definition chars (s : string) : list ascii := list_ascii_of_string s.
Definition of_chars (l : list ascii) : string := string_of_list_ascii l.

Definition code (c : ascii) : Z := Z.of_N (N_of_ascii c).
Definition chr (z : Z) : ascii := ascii_of_N (Z.to_N z).

(** [str.isspace] for one ASCII character: TAB, LF, VT, FF, CR, the four
    separators FS, GS, RS, US, and the space. *)
Definition isspace (c : ascii) : bool :=
  let n := code c in
  ((9 <=? n) && (n <=? 13)) || ((28 <=? n) && (n <=? 31)) || (n =? 32).

Definition isdigit (c : ascii) : bool :=
  let n := code c in (48 <=? n) && (n <=? 57).

Definition isupper_ascii (c : ascii) : bool :=
  let n := code c in (65 <=? n) && (n <=? 90).

Definition islower_ascii (c : ascii) : bool :=
  let n := code c in (97 <=? n) && (n <=? 122).

Definition upper_char (c : ascii) : ascii :=
  if islower_ascii c then chr (code c - 32) else c.

Definition lower_char (c : ascii) : ascii :=
  if isupper_ascii c then chr (code c + 32) else c.

(** White space in the sense of C's [isspace], which [float] uses. *)
Definition isspace_c (c : ascii) : bool :=
  let n := code c in ((9 <=? n) && (n <=? 13)) || (n =? 32).

Fixpoint lstrip_by (p : ascii -> bool) (l : list ascii) : list ascii :=
  match l with
  | c :: l' => if p c then lstrip_by p l' else l
  | [] => []
  end.

Definition strip_by (p : ascii -> bool) (l : list ascii) : list ascii :=
  rev (lstrip_by p (rev (lstrip_by p l))).

Definition lstrip_chars : list ascii -> list ascii := lstrip_by isspace.
Definition strip_chars : list ascii -> list ascii := strip_by isspace.

(** [s.strip()] *)
Definition strip (s : string) : string := of_chars (strip_chars (chars s)).
(** [s.upper()] *)
Definition upper (s : string) : string := of_chars (map upper_char (chars s)).
(** [s.lower()] *)
Definition lower (s : string) : string := of_chars (map lower_char (chars s)).

Fixpoint starts_with (p l : list ascii) : bool :=
  match p, l with
  | [], _ => true
  | a :: p', b :: l' => if ascii_dec a b then starts_with p' l' else false
  | _ :: _, [] => false
  end.

(** [s.endswith(suffix)] *)
Definition endswith (s suffix : string) : bool :=
  starts_with (rev (chars suffix)) (rev (chars s)).

Definition digit_val (c : ascii) : option Z :=
  if isdigit c then Some (code c - 48) else None.

(** The value of a run of ASCII digits, most significant first. *)
Fixpoint digits_val (acc : Z) (l : list ascii) : option Z :=
  match l with
  | [] => Some acc
  | c :: l' =>
      match digit_val c with
      | Some d => digits_val (10 * acc + d) l'
      | None => None
      end
  end.

Definition digit_char (d : Z) : ascii := chr (48 + d).

(** The [n] low decimal digits of [z], most significant first. *)
Fixpoint fixed_digits (n : nat) (z : Z) : list ascii :=
  match n with
  | O => []
  | S n' => fixed_digits n' (z / 10) ++ [digit_char (z mod 10)]
  end.

Fixpoint nat_digits (fuel : nat) (z : Z) : list ascii :=
  match fuel with
  | O => []
  | S fuel' =>
      if z <? 10 then [digit_char z]
      else nat_digits fuel' (z / 10) ++ [digit_char (z mod 10)]
  end.

(** [str(z)] for [0 <= z]: no leading zero, ["0"] for zero. *)
Definition decimal (z : Z) : list ascii :=
  nat_digits (S (Z.to_nat (Z.log2 z))) z.

Definition hex_char (d : Z) : ascii :=
  if d <? 10 then chr (48 + d) else chr (87 + d).

(** [repr(s)] for ASCII text: single quotes, unless the text holds a
    single quote and no double quote; the quote, the backslash, TAB, LF
    and CR are escaped with a backslash, other control characters as
    [\xNN]. *)
Definition squote : ascii := "039".
Definition dquote : ascii := "034".
Definition backslash : ascii := "092".

Definition repr_quote (l : list ascii) : ascii :=
  if existsb (Ascii.eqb squote) l && negb (existsb (Ascii.eqb dquote) l)
  then dquote else squote.

Definition repr_char (q : ascii) (c : ascii) : list ascii :=
  let n := code c in
  if Ascii.eqb c q || Ascii.eqb c backslash then [backslash; c]
  else if n =? 9 then [backslash; "t"%char]
  else if n =? 10 then [backslash; "n"%char]
  else if n =? 13 then [backslash; "r"%char]
  else if (n <? 32) || (n =? 127)
    then [backslash; "x"%char; hex_char (n / 16); hex_char (n mod 16)]
  else [c].

Definition repr_chars (l : list ascii) : list ascii :=
  let q := repr_quote l in q :: flat_map (repr_char q) l ++ [q].

Definition repr (s : string) : string := of_chars (repr_chars (chars s)).

(** [", ".join(items)] *)
Fixpoint join_comma (items : list string) : string :=
  match items with
  | [] => ""
  | [x] => x
  | x :: rest => x +:+ ", " +:+ join_comma rest
  end.

(** [repr(names)] for a list of strings. *)
Definition repr_list (names : list string) : string :=
  "[" +:+ join_comma (map repr names) +:+ "]".

End PyStr.

(** ** Calendar dates: [datetime.date] *)

Record date : Type := Date { year : Z; month : Z; day : Z }.

#[global] Instance date_eq_dec : EqDecision date.
Proof. solve_decision. Defined.

Definition is_leap (y : Z) : bool :=
  (y mod 4 =? 0) && (negb (y mod 100 =? 0) || (y mod 400 =? 0)).

Definition days_in_month (y m : Z) : Z :=
  match m with
  | 1 | 3 | 5 | 7 | 8 | 10 | 12 => 31
  | 4 | 6 | 9 | 11 => 30
  | 2 => if is_leap y then 29 else 28
  | _ => 0
  end.

(** The check of the [date(year, month, day)] constructor: years 1..9999,
    months 1..12, a day that exists in the month. *)
Definition valid_date (y m d : Z) : bool :=
  (1 <=? y) && (y <=? 9999) && (1 <=? m) && (m <=? 12) &&
  (1 <=? d) && (d <=? days_in_month y m).

Definition make_date (y m d : Z) : option date :=
  if valid_date y m d then Some (Date y m d) else None.

(** [a <= b]: dates compare as the triples (year, month, day). *)
Definition date_leb (a b : date) : bool :=
  (year a <? year b) ||
  ((year a =? year b) &&
   ((month a <? month b) || ((month a =? month b) && (day a <=? day b)))).

(** [date.fromisoformat]: exactly ten characters [YYYY-MM-DD] with ASCII
    digits, then the constructor's check; [None] stands for ValueError.
    (The form documented for the function; releases of Python that accept
    further ISO 8601 spellings agree with it on every string of this
    form.) *)
Definition date_fromisoformat (s : string) : option date :=
  match PyStr.chars s with
  | [y1; y2; y3; y4; s1; m1; m2; s2; d1; d2] =>
      if ascii_dec s1 "-" then
        if ascii_dec s2 "-" then
          y ← PyStr.digits_val 0 [y1; y2; y3; y4];
          m ← PyStr.digits_val 0 [m1; m2];
          d ← PyStr.digits_val 0 [d1; d2];
          make_date y m d
        else None
      else None
  | _ => None
  end.

(** *** [datetime.strptime(s, "%d %B %Y")]

    [_strptime] compiles the format to the regular expression
    [(?P<d>3[0-1]|[1-2]\d|0[1-9]|[1-9]| [1-9])\s+(?P<B>...)\s+(?P<Y>\d\d\d\d)]
    matched case-insensitively at the start of the text; the text must be
    consumed entirely, and the three fields must form a date. *)
Module Strptime.
Import PyStr.

Definition month_names : list (string * Z) :=
  [ ("september", 9); ("february", 2); ("november", 11); ("december", 12);
    ("january", 1); ("october", 10); ("august", 8); ("march", 3);
    ("april", 4); ("june", 6); ("july", 7); ("may", 5) ]%string.

Definition in_range (lo hi : ascii) (c : ascii) : bool :=
  (code lo <=? code c) && (code c <=? code hi).

(** The alternatives of the [%d] group, in the order of the pattern: each
    gives the day and the rest of the text. *)
Definition day_alternatives (l : list ascii) : list (Z * list ascii) :=
  match l with
  | a :: b :: rest =>
      (if Ascii.eqb a "3" && in_range "0" "1" b
       then [(30 + (code b - 48), rest)] else []) ++
      (if in_range "1" "2" a && isdigit b
       then [(10 * (code a - 48) + (code b - 48), rest)] else []) ++
      (if Ascii.eqb a "0" && in_range "1" "9" b
       then [(code b - 48, rest)] else []) ++
      (if in_range "1" "9" a then [(code a - 48, b :: rest)] else []) ++
      (if Ascii.eqb a " " && in_range "1" "9" b
       then [(code b - 48, rest)] else [])
  | [a] => if in_range "1" "9" a then [(code a - 48, [])] else []
  | [] => []
  end.

(** [\s+]: at least one white-space character; the run is taken whole,
    since what follows in the pattern never starts with white space. *)
Definition spaces1 (l : list ascii) : option (list ascii) :=
  match l with
  | c :: l' => if isspace c then Some (lstrip_chars l') else None
  | [] => None
  end.

(** A literal of the pattern matched without regard to letter case: the
    rest of the text when [l] starts with [name]. *)
Fixpoint match_ci (name l : list ascii) : option (list ascii) :=
  match name, l with
  | [], _ => Some l
  | a :: name', b :: l' =>
      if Ascii.eqb (lower_char b) a then match_ci name' l' else None
  | _ :: _, [] => None
  end.

Fixpoint month_alternatives (names : list (string * Z)) (l : list ascii)
  : option (Z * list ascii) :=
  match names with
  | [] => None
  | (name, m) :: names' =>
      match match_ci (chars name) l with
      | Some rest => Some (m, rest)
      | None => month_alternatives names' l
      end
  end.

Definition year4 (l : list ascii) : option (Z * list ascii) :=
  match l with
  | a :: b :: c :: d :: rest =>
      y ← digits_val 0 [a; b; c; d]; Some (y, rest)
  | _ => None
  end.

(** What follows the [%d] group. *)
Definition after_day (l : list ascii) : option (Z * Z * list ascii) :=
  l1 ← spaces1 l;
  '(m, l2) ← month_alternatives month_names l1;
  l3 ← spaces1 l2;
  '(y, l4) ← year4 l3;
  Some (m, y, l4).

(** The first alternative of the day group after which the rest of the
    pattern matches. *)
Fixpoint first_match (alts : list (Z * list ascii))
  : option (Z * Z * Z * list ascii) :=
  match alts with
  | [] => None
  | (d, rest) :: alts' =>
      match after_day rest with
      | Some (m, y, tail) => Some (d, m, y, tail)
      | None => first_match alts'
      end
  end.

(** [datetime.strptime(s, "%d %B %Y").date()]; [None] stands for
    ValueError. *)
Definition strptime_dBY (s : string) : option date :=
  match first_match (day_alternatives (chars s)) with
  | Some (d, m, y, []) => make_date y m d
  | _ => None
  end.

End Strptime.

(** ** [parse_ecb_date] *)

Definition parse_ecb_date (value : string) : result date :=
  let value_stripped := PyStr.strip value in
  match date_fromisoformat value_stripped with
  | Some d => Ok d
  | None =>
      match Strptime.strptime_dBY value_stripped with
      | Some d => Ok d
      | None => Raise DateValueError
      end
  end.

(** ** Python floats: IEEE 754 binary64 *)

Module PyFloat.
Import PyStr.

Definition prec : Z := 53.
Definition emax : Z := 1024.

Abbreviation float := spec_float.

Definition zero : float := S754_zero false.
Definition inf : float := S754_infinity false.
Definition neg_inf : float := S754_infinity true.
Definition nan : float := S754_nan.

Definition add : float -> float -> float := SFadd prec emax.
Definition sub : float -> float -> float := SFsub prec emax.
Definition mul : float -> float -> float := SFmul prec emax.
Definition div : float -> float -> float := SFdiv prec emax.
Definition eqb : float -> float -> bool := SFeqb.
Definition ltb : float -> float -> bool := SFltb.
Definition abs : float -> float := SFabs.

(** [float(n)] for an integer [n]. *)
Definition of_Z (n : Z) : float := binary_normalize prec emax n 0 false.

Definition isnan (x : float) : bool :=
  match x with S754_nan => true | _ => false end.
Definition isinf (x : float) : bool :=
  match x with S754_infinity _ => true | _ => false end.
Definition isfinite (x : float) : bool :=
  match x with S754_zero _ | S754_finite _ _ _ => true | _ => false end.
Definition signbit (x : float) : bool :=
  match x with
  | S754_zero s | S754_infinity s | S754_finite s _ _ => s
  | S754_nan => false
  end.
(** [0.0 <= x], false for NaN. *)
Definition nonneg (x : float) : bool := SFleb zero x.

(** *** [float(text)]

    After white space (in the sense of C) is stripped: an optional sign, then [inf],
    [infinity] or [nan] in any letter case, or a decimal number
    [digits[.digits][e[sign]digits]] whose digit runs may hold single
    underscores between digits.  The value is the binary64 number
    nearest to the decimal one, ties to even; [None] stands for
    ValueError. *)

(** A digit run [digit (["_"] digit)*]: its value, the number of digits
    read, and the rest of the text.  [prev] tells whether the previous
    character was a digit, so that an underscore is accepted only between
    two digits. *)
Fixpoint digitpart (prev : bool) (acc : Z) (n : Z) (l : list ascii)
  : Z * Z * list ascii :=
  match l with
  | c :: l' =>
      match digit_val c with
      | Some d => digitpart true (10 * acc + d) (n + 1) l'
      | None =>
          if prev && Ascii.eqb c "_" then
            match l' with
            | c' :: _ =>
                if isdigit c' then digitpart false acc n l' else (acc, n, l)
            | [] => (acc, n, l)
            end
          else (acc, n, l)
      end
  | [] => (acc, n, l)
  end.

Definition sign_of (l : list ascii) : bool * list ascii :=
  match l with
  | c :: l' =>
      if Ascii.eqb c "-" then (true, l')
      else if Ascii.eqb c "+" then (false, l')
      else (false, l)
  | [] => (false, l)
  end.

(** [[sign] digitpart] of the exponent; [None] when there is no digit. *)
Definition exponent (l : list ascii) : option (Z * list ascii) :=
  let '(s, l1) := sign_of l in
  let '(v, n, l2) := digitpart false 0 0 l1 in
  if n =? 0 then None else Some (if s then - v else v, l2).

(** The binary64 number nearest to [m * 10^e], for [0 < m]. *)
Definition round_decimal (s : bool) (m : Z) (e : Z) : float :=
  if 0 <=? e then binary_normalize prec emax (if s then - (m * 10 ^ e) else m * 10 ^ e) 0 false
  else
    let '(q, e', l) := SFdiv_core_binary prec emax m 0 (10 ^ (- e)) 0 in
    binary_round_aux prec emax s q e' l.

Definition number (s : bool) (l : list ascii) : option float :=
  let '(ip, n_ip, l1) := digitpart false 0 0 l in
  let '(m, n_fp, l2) :=
    match l1 with
    | c :: l1' =>
        if Ascii.eqb c "." then
          let '(m, n, l2) := digitpart false ip 0 l1' in (m, n, l2)
        else (ip, 0, l1)
    | [] => (ip, 0, l1)
    end in
  if (n_ip + n_fp =? 0) then None
  else
    let with_exp (e : Z) (rest : list ascii) : option float :=
      match rest with
      | [] => Some (if m =? 0 then S754_zero s else round_decimal s m (e - n_fp))
      | _ :: _ => None
      end in
    match l2 with
    | c :: l2' =>
        if Ascii.eqb (lower_char c) "e" then
          match exponent l2' with
          | Some (e, l3) => with_exp e l3
          | None => None
          end
        else None
    | [] => with_exp 0 []
    end.

Definition float_of_string (text : string) : option float :=
  let '(s, l) := sign_of (strip_by isspace_c (chars text)) in
  let low := of_chars (map lower_char l) in
  if decide (low = "inf" \/ low = "infinity") then Some (S754_infinity s)
  else if decide (low = "nan") then Some S754_nan
  else number s l.

(** The float written [text] in the source; NaN when [text] is not a
    float literal. *)
Definition lit (text : string) : float :=
  default S754_nan (float_of_string text).

(** *** [math.fsum]

    The algorithm of CPython's [math_fsum]: the running sum is kept
    exactly as a list of partials; each new item is added to every
    partial by an error-free transformation. *)

(** One pass of an item [x] over the partials: the value carried out of
    the pass and the partials that remain below it. *)
Fixpoint fsum_pass (x : float) (ps : list float) : float * list float :=
  match ps with
  | [] => (x, [])
  | y :: ps' =>
      let '(x, y) := if ltb (abs x) (abs y) then (y, x) else (x, y) in
      let hi := add x y in
      let yr := sub hi x in
      let lo := sub y yr in
      let '(top, los) := fsum_pass hi ps' in
      (top, if eqb lo zero then los else lo :: los)
  end.

Record fsum_state : Type := FsumState {
  partials : list float;   (* increasing magnitude *)
  special_sum : float;
  inf_sum : float
}.

Definition fsum_item (st : fsum_state) (xsave : float) : result fsum_state :=
  let '(x, ps) := fsum_pass xsave (partials st) in
  if eqb x zero then Ok (FsumState ps (special_sum st) (inf_sum st))
  else if isfinite x then
    Ok (FsumState (ps ++ [x]) (special_sum st) (inf_sum st))
  else if isfinite xsave then Raise FsumOverflowError
  else
    Ok (FsumState []
          (add (special_sum st) xsave)
          (if isinf xsave then add (inf_sum st) xsave else inf_sum st)).

Fixpoint fsum_items (st : fsum_state) (data : list float) : result fsum_state :=
  match data with
  | [] => Ok st
  | x :: data' => st' ← fsum_item st x; fsum_items st' data'
  end.

(** Summing the partials from the top while the sum stays exact: the sum,
    the first non-zero error and the partials not yet consumed (top
    first). *)
Fixpoint fsum_exact (hi : float) (down : list float)
  : float * float * list float :=
  match down with
  | [] => (hi, zero, [])
  | y :: down' =>
      let x := hi in
      let hi := add x y in
      let yr := sub hi x in
      let lo := sub y yr in
      if eqb lo zero then fsum_exact hi down' else (hi, lo, down')
  end.

Definition fsum_finish (ps : list float) : float :=
  match rev ps with
  | [] => zero
  | top :: down =>
      let '(hi, lo, rest) := fsum_exact top down in
      match rest with
      | p :: _ =>
          if (ltb lo zero && ltb p zero) || (ltb zero lo && ltb zero p) then
            let y := mul lo (of_Z 2) in
            let x := add hi y in
            let yr := sub x hi in
            if eqb y yr then x else hi
          else hi
      | [] => hi
      end
  end.

Definition fsum (data : list float) : result float :=
  st ← fsum_items (FsumState [] zero zero) data;
  if eqb (special_sum st) zero then Ok (fsum_finish (partials st))
  else if isnan (inf_sum st) then Raise FsumValueError
  else Ok (special_sum st).

(** [statistics.fmean(data)] for a list: [fsum(data) / len(data)]. *)
Definition fmean (data : list float) : result float :=
  total ← fsum data;
  match data with
  | [] => Raise StatisticsError
  | _ :: _ => Ok (div total (of_Z (Z.of_nat (length data))))
  end.

(** *** [format(x, ".6f")]

    The decimal number with six fractional digits nearest to the exact
    value of [x], ties to even; [inf], [-inf] and [nan] for the values
    that are not finite. *)

(** The integer nearest to [m * 2^e * 10^6], ties to even. *)
Definition scaled_6 (m : Z) (e : Z) : Z :=
  if 0 <=? e then m * 2 ^ e * 10 ^ 6
  else
    let num := m * 10 ^ 6 in
    let den := 2 ^ (- e) in
    let q := num / den in
    let r := num mod den in
    match 2 * r ?= den with
    | Lt => q
    | Gt => q + 1
    | Eq => if Z.even q then q else q + 1
    end.

Definition fixed_6 (s : bool) (n : Z) : list ascii :=
  (if s then ["-"%char] else []) ++
  decimal (n / 10 ^ 6) ++ ["."%char] ++ fixed_digits 6 (n mod 10 ^ 6).

Definition format_6f (x : float) : string :=
  match x with
  | S754_nan => "nan"
  | S754_infinity s => if s then "-inf" else "inf"
  | S754_zero s => of_chars (fixed_6 s 0)
  | S754_finite s m e => of_chars (fixed_6 s (scaled_6 (Z.pos m) e))
  end.

End PyFloat.

(** ** The archive inspector: [read_single_file_from_zip]

    [ZipFile(io.BytesIO(zip_bytes))] is modelled by the directory of the
    archive: its entries in listing order, each a name and a content.
    [namelist()] gives the names in that order; [read(name)] gives the
    content of the last entry of that name. *)

Section Archive.
Context {Content : Type}.

Definition zipfile : Type := list (string * Content).

Definition namelist (zf : zipfile) : list string := map fst zf.

Fixpoint zip_read (zf : zipfile) (name : string) : option Content :=
  match zf with
  | [] => None
  | (n, c) :: zf' =>
      match zip_read zf' name with
      | Some c' => Some c'
      | None => if decide (n = name) then Some c else None
      end
  end.

Definition preferred : list string :=
  [ "eurofxref-daily.xml"; "eurofxref-hist.xml";
    "eurofxref.csv"; "eurofxref-hist.csv" ].

(** [n.lower().endswith((".xml", ".csv"))] *)
Definition is_data_file (n : string) : bool :=
  PyStr.endswith (PyStr.lower n) ".xml" || PyStr.endswith (PyStr.lower n) ".csv".

(** The name the inspector settles on, before the entry is read. *)
Definition choose_name (names : list string) : result string :=
  match names with
  | [] => Raise (ValueError "ZIP contains no files.")
  | _ :: _ =>
      match find (fun p => bool_decide (p ∈ names)) preferred with
      | Some chosen => Ok chosen
      | None =>
          match filter (fun n => is_data_file n = true) names with
          | [] =>
              Raise (ValueError ("No supported data file found in ZIP. Entries: "
                                 +:+ PyStr.repr_list names))
          | chosen :: _ => Ok chosen
          end
      end
  end.

Definition read_single_file_from_zip (zf : zipfile) : result (string * Content) :=
  chosen ← choose_name (namelist zf);
  match zip_read zf chosen with
  | Some content => Ok (chosen, content)
  | None => Raise KeyError
  end.

End Archive.
Arguments zipfile Content : clear implicits.

(** ** Snapshots *)

Record RatesSnapshot : Type := Snapshot {
  as_of : date;
  rates : gmap string PyFloat.float
}.

(** [snapshots.sort(key=lambda s: s.as_of)]: the stable sort by date. *)
Fixpoint insert_by_as_of (s : RatesSnapshot) (sorted : list RatesSnapshot)
  : list RatesSnapshot :=
  match sorted with
  | [] => [s]
  | t :: sorted' =>
      if date_leb (as_of s) (as_of t) then s :: t :: sorted'
      else t :: insert_by_as_of s sorted'
  end.

Definition sort_by_as_of (snapshots : list RatesSnapshot) : list RatesSnapshot :=
  foldr insert_by_as_of [] snapshots.

(** ** The XML dialect: [_parse_ecb_xml]

    The argument is the tree that [ET.fromstring] builds from the text. *)

Inductive Element : Type :=
  | Elem (tag : string) (attrib : gmap string string) (children : list Element).

Definition attrib (e : Element) : gmap string string :=
  match e with Elem _ a _ => a end.
Definition children (e : Element) : list Element :=
  match e with Elem _ _ cs => cs end.

(** The elements strictly below [e], in document order. *)
Fixpoint descendants (e : Element) : list Element :=
  match e with
  | Elem _ _ cs => flat_map (fun c => c :: descendants c) cs
  end.

(** [root.findall(".//*[@time]")] *)
Definition findall_time (root : Element) : list Element :=
  filter (fun e => is_Some (attrib e !! "time")) (descendants root).

(** [time_node.findall("./*[@currency][@rate]")] *)
Definition findall_rate (time_node : Element) : list Element :=
  filter (fun e => is_Some (attrib e !! "currency") ∧ is_Some (attrib e !! "rate"))
         (children time_node).

(** The inner loop over the rate nodes. *)
Fixpoint xml_rates (rate_nodes : list Element) (rates : gmap string PyFloat.float)
  : gmap string PyFloat.float :=
  match rate_nodes with
  | [] => rates
  | rate_node :: rest =>
      match attrib rate_node !! "currency", attrib rate_node !! "rate" with
      | Some currency, Some rate_str =>
          match PyFloat.float_of_string rate_str with
          | Some rate_value => xml_rates rest (<[currency := rate_value]> rates)
          | None => xml_rates rest rates
          end
      | _, _ => xml_rates rest rates
      end
  end.

(** The outer loop over the time nodes. *)
Fixpoint xml_snapshots (time_nodes : list Element) (snapshots : list RatesSnapshot)
  : result (list RatesSnapshot) :=
  match time_nodes with
  | [] => Ok snapshots
  | time_node :: rest =>
      match attrib time_node !! "time" with
      | None => xml_snapshots rest snapshots
      | Some time_str =>
          as_of ← parse_ecb_date time_str;
          let rates := xml_rates (findall_rate time_node) ∅ in
          xml_snapshots rest (snapshots ++ [Snapshot as_of rates])
      end
  end.

Definition _parse_ecb_xml (root : Element) : result (list RatesSnapshot) :=
  snapshots ← xml_snapshots (findall_time root) [];
  Ok (sort_by_as_of snapshots).

(** ** The tabular dialects

    The argument of both parsers is the sequence of records that
    [csv.reader] yields for the decoded text; [csv.DictReader] turns it into
    rows. *)

(** A Python dict with string keys, in insertion order; [d[k] = v] keeps the
    place of a key that is already there. *)
Fixpoint dict_set {V : Type} (k : string) (v : V) (d : list (string * V))
  : list (string * V) :=
  match d with
  | [] => [(k, v)]
  | (k', v') :: d' =>
      if decide (k' = k) then (k, v) :: d' else (k', v') :: dict_set k v d'
  end.

Fixpoint dict_get {V : Type} (k : string) (d : list (string * V)) : option V :=
  match d with
  | [] => None
  | (k', v') :: d' => if decide (k' = k) then Some v' else dict_get k d'
  end.

(** A row of [csv.DictReader]: the cells under the field names ([None] is
    the [restval] of a short row) and, for a long row, the surplus fields
    that the reader stores under the key [None]. *)
Record csv_row : Type := CsvRow {
  cells : list (string * option string);
  surplus : option (list string)
}.

(** [dict(zip(fieldnames, row))] *)
Fixpoint dict_zip (fieldnames row : list string) (d : list (string * option string))
  : list (string * option string) :=
  match fieldnames, row with
  | k :: fieldnames', v :: row' => dict_zip fieldnames' row' (dict_set k (Some v) d)
  | _, _ => d
  end.

(** [DictReader.__next__] for one record that is not blank. *)
Definition dict_row (fieldnames row : list string) : csv_row :=
  let d := dict_zip fieldnames row [] in
  let lf := length fieldnames in
  let lr := length row in
  if (lf <? lr)%nat then CsvRow d (Some (drop lf row))
  else CsvRow (foldl (fun d key => dict_set key None d) d (drop lr fieldnames)) None.

(** [list(csv.DictReader(...))]: the first record gives the field names,
    blank records are passed over. *)
Definition DictReader (records : list (list string)) : list csv_row :=
  match records with
  | [] => []
  | fieldnames :: data =>
      map (dict_row fieldnames) (filter (fun row => row ≠ []) data)
  end.

(** [row.get(key)], where a missing key and a [None] cell both give [None]. *)
Definition row_get (row : csv_row) (key : string) : option string :=
  mjoin (dict_get key (cells row)).

(** Python truthiness of [str | None]. *)
Definition truthy (v : option string) : bool :=
  match v with
  | Some s => negb (bool_decide (s = ""))
  | None => false
  end.

(** The loop over [row.items()] that fills [rates]; the key [None] of a long
    row comes last and has no [strip]. *)
Fixpoint csv_cells (items : list (string * option string))
  (rates : gmap string PyFloat.float) : gmap string PyFloat.float :=
  match items with
  | [] => rates
  | (raw_ccy, value) :: rest =>
      let ccy := PyStr.upper (PyStr.strip raw_ccy) in
      match value with
      | None => csv_cells rest rates
      | Some value =>
          if bool_decide (ccy = "DATE") || bool_decide (PyStr.strip value = "")
          then csv_cells rest rates
          else
            match PyFloat.float_of_string value with
            | Some x => csv_cells rest (<[ccy := x]> rates)
            | None => csv_cells rest rates
            end
      end
  end.

Definition csv_rates (row : csv_row) : result (gmap string PyFloat.float) :=
  let rates := csv_cells (cells row) ∅ in
  match surplus row with
  | Some _ => Raise AttributeError
  | None => Ok rates
  end.

Definition _parse_ecb_daily_csv (records : list (list string)) : result RatesSnapshot :=
  match DictReader records with
  | [] => Raise (ValueError "Daily CSV has no rows.")
  | row :: _ =>
      let date_str := row_get row "Date" in
      let date_str := if truthy date_str then date_str else row_get row "DATE" in
      match date_str with
      | Some date_text =>
          if truthy date_str then
            as_of ← parse_ecb_date date_text;
            rates ← csv_rates row;
            Ok (Snapshot as_of rates)
          else Raise (ValueError "Daily CSV missing 'Date' column.")
      | None => Raise (ValueError "Daily CSV missing 'Date' column.")
      end
  end.

(** The loop of [_parse_ecb_hist_csv] over the rows. *)
Fixpoint hist_snapshots (rows : list csv_row) (snapshots : list RatesSnapshot)
  : result (list RatesSnapshot) :=
  match rows with
  | [] => Ok snapshots
  | row :: rest =>
      let date_str :=
        if truthy (row_get row "Date") then row_get row "Date"
        else row_get row "DATE" in
      match date_str with
      | Some date_text =>
          if truthy date_str then
            as_of ← parse_ecb_date date_text;
            rates ← csv_rates row;
            hist_snapshots rest (snapshots ++ [Snapshot as_of rates])
          else hist_snapshots rest snapshots
      | None => hist_snapshots rest snapshots
      end
  end.

Definition _parse_ecb_hist_csv (records : list (list string))
  : result (list RatesSnapshot) :=
  snapshots ← hist_snapshots (DictReader records) [];
  Ok (sort_by_as_of snapshots).

(** ** The loaders

    [download_zip] is the network collaborator; the loaders are modelled
    from the archive it delivers.  The content of an entry is modelled by
    what the two library decoders make of its bytes. *)

Record payload : Type := Payload {
  (* [ET.fromstring(payload.decode("utf-8"))]; [None] when either raises *)
  xml_tree : option Element;
  (* the records [csv.reader] yields for [payload.decode("utf-8-sig")];
     [None] when decoding or the reader raises *)
  csv_records : option (list (list string))
}.

(** The body of [load_daily_snapshot] after the entry is chosen. *)
Definition load_daily_entry (filename : string) (content : payload)
  : result RatesSnapshot :=
  if PyStr.endswith (PyStr.lower filename) ".xml" then
    match xml_tree content with
    | None => Raise DecodeError
    | Some root =>
        snapshots ← _parse_ecb_xml root;
        match last snapshots with
        | None => Raise (ValueError "No daily rates found in ECB daily XML.")
        | Some latest => Ok latest
        end
    end
  else if PyStr.endswith (PyStr.lower filename) ".csv" then
    match csv_records content with
    | None => Raise DecodeError
    | Some records => _parse_ecb_daily_csv records
    end
  else Raise (ValueError ("Unsupported daily file format in ZIP: " +:+ filename)).

Definition load_daily_snapshot (daily_zip : zipfile payload) : result RatesSnapshot :=
  '(filename, content) ← read_single_file_from_zip daily_zip;
  load_daily_entry filename content.

(** The body of [load_historical_snapshots] after the entry is chosen. *)
Definition load_historical_entry (filename : string) (content : payload)
  : result (list RatesSnapshot) :=
  if PyStr.endswith (PyStr.lower filename) ".xml" then
    match xml_tree content with
    | None => Raise DecodeError
    | Some root =>
        snapshots ← _parse_ecb_xml root;
        match snapshots with
        | [] => Raise (ValueError "No historical rates found in ECB historical XML.")
        | _ :: _ => Ok snapshots
        end
    end
  else if PyStr.endswith (PyStr.lower filename) ".csv" then
    match csv_records content with
    | None => Raise DecodeError
    | Some records =>
        snapshots ← _parse_ecb_hist_csv records;
        match snapshots with
        | [] => Raise (ValueError "No historical rates found in ECB historical CSV.")
        | _ :: _ => Ok snapshots
        end
    end
  else Raise (ValueError ("Unsupported historical file format in ZIP: " +:+ filename)).

Definition load_historical_snapshots (hist_zip : zipfile payload)
  : result (list RatesSnapshot) :=
  '(filename, content) ← read_single_file_from_zip hist_zip;
  load_historical_entry filename content.

(** ** The aggregator *)

Definition select_currencies (rates : gmap string PyFloat.float)
  (currencies : list string) : gmap string PyFloat.float :=
  foldl (fun selected ccy =>
           match rates !! ccy with
           | Some x => <[ccy := x]> selected
           | None => selected
           end) ∅ currencies.

(** [{ccy: [] for ccy in currencies}] *)
Definition empty_buckets (currencies : list string)
  : list (string * list PyFloat.float) :=
  foldl (fun d ccy => dict_set ccy [] d) [] currencies.

(** One pass of the inner loop, for one snapshot. *)
Definition collect (snap : RatesSnapshot) (buckets : list (string * list PyFloat.float))
  : list (string * list PyFloat.float) :=
  map (fun '(ccy, values) =>
         match rates snap !! ccy with
         | Some value => (ccy, values ++ [value])
         | None => (ccy, values)
         end) buckets.

(** The last loop: the mean of every bucket that is not empty. *)
Fixpoint bucket_means (buckets : list (string * list PyFloat.float))
  (means : gmap string PyFloat.float) : result (gmap string PyFloat.float) :=
  match buckets with
  | [] => Ok means
  | (ccy, values) :: rest =>
      match values with
      | [] => bucket_means rest means
      | _ :: _ =>
          mean ← PyFloat.fmean values;
          bucket_means rest (<[ccy := mean]> means)
      end
  end.

Definition compute_historical_means (historical : list RatesSnapshot)
  (currencies : list string) : result (gmap string PyFloat.float) :=
  let buckets := foldl (fun b snap => collect snap b) (empty_buckets currencies) historical in
  bucket_means buckets ∅.

(** ** The renderer *)

Definition newline : string := String "010" "".

(** [date.isoformat()] *)
Definition isoformat (d : date) : string :=
  PyStr.of_chars (PyStr.fixed_digits 4 (year d)) +:+ "-" +:+
  PyStr.of_chars (PyStr.fixed_digits 2 (month d)) +:+ "-" +:+
  PyStr.of_chars (PyStr.fixed_digits 2 (day d)).

(** The cell of a value that may be missing. *)
Definition cell (v : option PyFloat.float) : string :=
  match v with
  | Some x => PyFloat.format_6f x
  | None => "N/A"
  end.

Definition table_row (daily : RatesSnapshot) (means : gmap string PyFloat.float)
  (ccy : string) : string :=
  "| " +:+ ccy +:+ " | " +:+ cell (rates daily !! ccy) +:+ " | " +:+
  cell (means !! ccy) +:+ " |".

(** The list [lines] when the function joins it. *)
Definition render_lines (daily : RatesSnapshot) (means : gmap string PyFloat.float)
  (currencies : list string) : list string :=
  [ "# ECB Exchange Rates (EUR base)" +:+ newline;
    "**Daily rates date:** " +:+ isoformat (as_of daily) +:+ newline;
    "| Currency Code | Rate | Mean Historical Rate |";
    "|---|---:|---:|" ] ++
  map (table_row daily means) currencies ++
  [ "" ].

(** ["\n".join(lines)] *)
Fixpoint join_lines (lines : list string) : string :=
  match lines with
  | [] => ""
  | [x] => x
  | x :: rest => x +:+ newline +:+ join_lines rest
  end.

Definition render_markdown_table (daily : RatesSnapshot)
  (means : gmap string PyFloat.float) (currencies : list string) : string :=
  join_lines (render_lines daily means currencies).

(** ** Vocabulary of the statements *)

(** The text [s] occurs in the text [t]. *)
Definition occurs_in (s t : string) : Prop :=
  ∃ before after, t = before +:+ s +:+ after.

(** The exception, if any. *)
Definition raised {A : Type} (r : result A) : option exn :=
  match r with
  | Ok _ => None
  | Raise e => Some e
  end.

Definition is_Ok {A : Type} (r : result A) : Prop := ∃ a, r = Ok a.

Definition date_le (a b : date) : Prop := date_leb a b = true.

(** The snapshots are in ascending order of [as_of]. *)
Definition ascending (l : list RatesSnapshot) : Prop :=
  StronglySorted (fun s t => date_le (as_of s) (as_of t)) l.

(** The date text that both tabular parsers take from a row: the cell
    under "Date" when it is not empty, else the cell under "DATE" when
    that is not empty. *)
Definition date_text (row : csv_row) : option string :=
  let date_str :=
    if truthy (row_get row "Date") then row_get row "Date" else row_get row "DATE" in
  if truthy date_str then date_str else None.

(** Two cells of a row read alike: the same column with the same text, or
    with no text ([None], the [restval] of a short row) against the empty
    text. *)
Definition alike (a b : string * option string) : Prop :=
  a.1 = b.1 ∧ (a.2 = b.2 ∨ (a.2 = None ∧ b.2 = Some "")).

(** The snapshot of one XML time element whose date can be read. *)
Definition xml_snapshot_of (time_node : Element) : option RatesSnapshot :=
  match attrib time_node !! "time" with
  | Some time_str =>
      match parse_ecb_date time_str with
      | Ok d => Some (Snapshot d (xml_rates (findall_rate time_node) ∅))
      | Raise _ => None
      end
  | None => None
  end.

(** The XML parser as the specification words it: an element whose time
    value cannot be read is passed over, the others give the snapshots,
    sorted by date. *)
Definition xml_skipping_bad_dates (root : Element) : list RatesSnapshot :=
  sort_by_as_of (omap xml_snapshot_of (findall_time root)).

(** The snapshot of one tabular row whose date can be read. *)
Definition row_snapshot_of (row : csv_row) : option RatesSnapshot :=
  match date_text row with
  | Some text =>
      match parse_ecb_date text with
      | Ok d => Some (Snapshot d (csv_cells (cells row) ∅))
      | Raise _ => None
      end
  | None => None
  end.

(** The multi-row parser as the specification words it: a row whose date
    is missing or cannot be read is passed over. *)
Definition hist_skipping_bad_dates (records : list (list string)) : list RatesSnapshot :=
  sort_by_as_of (omap row_snapshot_of (DictReader records)).


(** A rate in the sense of the specification: finite and not negative. *)
Definition finite_nonneg (x : PyFloat.float) : bool :=
  PyFloat.isfinite x && PyFloat.nonneg x.


(** The values present for a code across the snapshots of a series, in
    the order of the series. *)
Definition values_for (historical : list RatesSnapshot) (ccy : string)
  : list PyFloat.float :=
  omap (fun snap => rates snap !! ccy) historical.

(** A numeral with exactly six digits after the decimal point: an optional
    minus sign, at least one digit, the point, six digits. *)
Definition six_decimals (s : string) : Prop :=
  ∃ sign int_part frac_part,
    PyStr.chars s = sign ++ int_part ++ "."%char :: frac_part ∧
    (sign = [] ∨ sign = ["-"%char]) ∧
    int_part ≠ [] ∧
    Forall (fun c => PyStr.isdigit c = true) int_part ∧
    Forall (fun c => PyStr.isdigit c = true) frac_part ∧
    length frac_part = 6%nat.


(** The English name of a month. *)
Definition month_name (m : Z) : string :=
  match m with
  | 1 => "January" | 2 => "February" | 3 => "March" | 4 => "April"
  | 5 => "May" | 6 => "June" | 7 => "July" | 8 => "August"
  | 9 => "September" | 10 => "October" | 11 => "November" | 12 => "December"
  | _ => ""
  end.


(** ** Sample inputs *)

Module Samples.
Import PyFloat.

(** An archive listing the preferred daily XML name last. *)
Definition mixed_zip : zipfile nat :=
  [ ("rates.CSV", 1%nat); ("eurofxref-hist.xml", 2%nat);
    ("eurofxref-daily.xml", 3%nat) ].

(** An archive without any preferred name. *)
Definition plain_zip : zipfile nat :=
  [ ("README.txt", 1%nat); ("rates.Xml", 2%nat); ("other.csv", 3%nat) ].

(** An archive without any data file. *)
Definition text_zip : zipfile nat :=
  [ ("README.txt", 1%nat); ("notes/", 2%nat) ].

Definition rate_node (currency rate : string) : Element :=
  Elem "Cube" {[ "currency" := currency; "rate" := rate ]} [].

Definition time_node (time : string) (rate_nodes : list Element) : Element :=
  Elem "Cube" {[ "time" := time ]} rate_nodes.

Definition envelope (time_nodes : list Element) : Element :=
  Elem "Envelope" ∅ [ Elem "Cube" ∅ time_nodes ].

(** Two days, the later one first; one rate is not a number. *)
Definition two_days_xml : Element :=
  envelope
    [ time_node "2024-01-02" [ rate_node "USD" "1.1"; rate_node "JPY" "n/a" ];
      time_node "2024-01-01" [ rate_node "USD" "1.0" ] ].

(** The first time attribute is not a date. *)
Definition bad_time_xml : Element :=
  envelope
    [ time_node "yesterday" [ rate_node "USD" "1.1" ];
      time_node "2024-01-01" [ rate_node "USD" "1.0" ] ].


Definition daily_records : list (list string) :=
  [ [ "Date"; "USD"; " jpy "; "Date " ];
    [ "2 January 2024"; "1.1"; "160.5"; "ignored" ] ].

(** The header has a Date column, the cell under it is empty. *)
Definition empty_date_records : list (list string) :=
  [ [ "Date"; "USD" ]; [ ""; "1.1" ] ].

(** No Date column at all. *)
Definition no_date_records : list (list string) :=
  [ [ "Day"; "USD" ]; [ "2024-01-02"; "1.1" ] ].

(** Three rows: a good one, one with an empty date, one with a bad date. *)
Definition hist_records : list (list string) :=
  [ [ "Date"; "USD"; "DATE" ];
    [ "2024-01-02"; "1.1"; "x" ];
    [ ""; "1.2"; "" ];
    [ "2024-01-01"; "oops"; "y" ] ].

Definition bad_date_records : list (list string) :=
  [ [ "Date"; "USD" ];
    [ "2024-01-02"; "1.1" ];
    [ "01/01/2024"; "1.0" ] ].


(** The series of the specification's example. *)
Definition example_series : list RatesSnapshot :=
  [ Snapshot (Date 2024 1 1) {[ "USD" := lit "1.0" ]};
    Snapshot (Date 2024 1 2) {[ "USD" := lit "3.0" ]};
    Snapshot (Date 2024 1 3) {[ "JPY" := lit "5.0" ]} ].

(** Two days with the same huge, finite rate. *)
Definition huge_series : list RatesSnapshot :=
  [ Snapshot (Date 2024 1 1) {[ "USD" := lit "1e308" ]};
    Snapshot (Date 2024 1 2) {[ "USD" := lit "1e308" ]} ].

(** Two days with infinite rates of opposite signs. *)
Definition infinite_series : list RatesSnapshot :=
  [ Snapshot (Date 2024 1 1) {[ "USD" := inf ]};
    Snapshot (Date 2024 1 2) {[ "USD" := neg_inf ]} ].

(** The daily snapshot of the specification's example. *)
Definition example_daily : RatesSnapshot :=
  Snapshot (Date 2024 1 1) {[ "USD" := lit "1.086543" ]}.

(** A daily snapshot with an infinite rate and one that is not a number. *)
Definition infinite_daily : RatesSnapshot :=
  Snapshot (Date 2024 1 1) {[ "USD" := inf; "JPY" := nan ]}.

Definition xml_payload (root : Element) : payload := Payload (Some root) None.
Definition csv_payload (records : list (list string)) : payload :=
  Payload None (Some records).

End Samples.

(** ** The entry point: [main]

    [main] is modelled from the two archives that [download_zip] delivers
    and up to the text handed to [write_text]; a failed download and a
    failed write are outside the model. *)

Definition TARGET_CURRENCIES : list string := [ "USD"; "SEK"; "GBP"; "JPY" ].

(** [RatesSnapshot(as_of=snap.as_of,
                   rates=select_currencies(snap.rates, TARGET_CURRENCIES))] *)
Definition select_snapshot (snap : RatesSnapshot) : RatesSnapshot :=
  Snapshot (as_of snap) (select_currencies (rates snap) TARGET_CURRENCIES).

(** The [try] block of [main] up to the rendered text [md]. *)
Definition build_report (daily_zip hist_zip : zipfile payload) : result string :=
  daily ← load_daily_snapshot daily_zip;
  historical ← load_historical_snapshots hist_zip;
  let daily_selected := select_snapshot daily in
  let historical_selected := map select_snapshot historical in
  means ← compute_historical_means historical_selected TARGET_CURRENCIES;
  Ok (render_markdown_table daily_selected means TARGET_CURRENCIES).

(** [main]: the exit status and the text written to [exchange_rates.md],
    if any. *)
Definition main (daily_zip hist_zip : zipfile payload) : Z * option string :=
  match build_report daily_zip hist_zip with
  | Ok md => (0, Some md)
  | Raise _ => (1, None)
  end.

(** A cell gives a rate for the code [k]: its column normalises to [k],
    which is not "DATE", and its text is not blank and is a number. *)
Definition cell_writes (k : string) (item : string * option string)
  : option PyFloat.float :=
  match item.2 with
  | Some text =>
      if bool_decide (PyStr.upper (PyStr.strip item.1) = k)
         && negb (bool_decide (k = "DATE"))
         && negb (bool_decide (PyStr.strip text = ""))
      then PyFloat.float_of_string text
      else None
  | None => None
  end.

(** A rate node gives a rate for the code [k]. *)
Definition node_writes (k : string) (rate_node : Element) : option PyFloat.float :=
  match attrib rate_node !! "currency", attrib rate_node !! "rate" with
  | Some currency, Some text =>
      if bool_decide (currency = k) then PyFloat.float_of_string text else None
  | _, _ => None
  end.

(** ** Sample feeds *)

Module Feeds.
Import PyFloat.

(** A daily archive in the XML dialect, with a currency outside the
    target set. *)
Definition daily_zip : zipfile payload :=
  [ ("eurofxref-daily.xml",
     Samples.xml_payload
       (Samples.envelope
          [ Samples.time_node "2024-01-03"
              [ Samples.rate_node "USD" "1.0919"; Samples.rate_node "JPY" "156.16";
                Samples.rate_node "CHF" "0.9304" ] ])) ].

(** A historical archive in the tabular dialect, newest row first. *)
Definition hist_zip : zipfile payload :=
  [ ("eurofxref-hist.csv",
     Samples.csv_payload
       [ [ "Date"; "USD"; "JPY"; "CHF"; "" ];
         [ "2024-01-03"; "1.0919"; "156.16"; "0.9304"; "" ];
         [ "2024-01-02"; "1.0956"; "N/A"; "0.9300"; "" ] ]) ].

(** An archive whose only data file has an upper-case extension and is
    listed after a text file. *)
Definition odd_name_zip : zipfile payload :=
  [ ("README.txt", Payload None None);
    ("RATES.CSV", Samples.csv_payload Samples.daily_records) ].

(** Two entries of the same name: the second one is read. *)
Definition twice_zip : zipfile nat :=
  [ ("eurofxref.csv", 1%nat); ("eurofxref.csv", 2%nat) ].

(** A data row with one more field than the header. *)
Definition long_row_records : list (list string) :=
  [ [ "Date"; "USD" ]; [ "2024-01-02"; "1.1"; "surplus" ] ].

(** Two columns that both normalise to "USD", and a second data row. *)
Definition duplicate_records : list (list string) :=
  [ [ "Date"; "usd"; " USD " ];
    [ "2024-01-02"; "1.1"; "1.2" ];
    [ "2024-01-03"; "1.3"; "1.4" ] ].

End Feeds.

(** * Properties *)

(** ** Lists and texts *)

Lemma find_first {A : Type} (f : A → bool) (before : list A) (x : A) (after : list A) :
  (∀ q, q ∈ before → f q = false) → f x = true →
  find f (before ++ x :: after) = Some x.
Proof.
  induction before as [|b before IH]; simpl; intros Hb Hx.
  - by rewrite Hx.
  - rewrite (Hb b) by left. apply IH; [|done]. intros q Hq. apply Hb. by right.
Qed.

Lemma find_absent {A : Type} (f : A → bool) (l : list A) :
  (∀ q, q ∈ l → f q = false) → find f l = None.
Proof.
  induction l as [|b l IH]; simpl; intros Hb; [done|].
  rewrite (Hb b) by left. apply IH. intros q Hq. apply Hb. by right.
Qed.

Lemma filter_none {A : Type} (P : A → Prop) `{∀ x, Decision (P x)} (l : list A) :
  (∀ q, q ∈ l → ¬ P q) → filter P l = [].
Proof.
  induction l as [|b l IH]; intros Hb; [done|].
  rewrite filter_cons_False by (apply Hb; left). apply IH.
  intros q Hq. apply Hb. by right.
Qed.

Lemma filter_first {A : Type} (P : A → Prop) `{∀ x, Decision (P x)}
    (before : list A) (x : A) (after : list A) :
  (∀ q, q ∈ before → ¬ P q) → P x →
  filter P (before ++ x :: after) = x :: filter P after.
Proof.
  intros Hb Hx. rewrite filter_app, filter_cons_True by done.
  by rewrite (filter_none P before Hb).
Qed.

Lemma append_cons (x : ascii) (a b : string) : String x a +:+ b = String x (a +:+ b).
Proof. reflexivity. Qed.

Lemma append_assoc (a b c : string) : (a +:+ b) +:+ c = a +:+ b +:+ c.
Proof. induction a as [|x a IH]; [done|]. by rewrite !append_cons, IH. Qed.

Lemma append_nil_r (a : string) : a +:+ "" = a.
Proof. induction a as [|x a IH]; [done|]. by rewrite append_cons, IH. Qed.

Lemma chars_append (a b : string) : PyStr.chars (a +:+ b) = PyStr.chars a ++ PyStr.chars b.
Proof.
  induction a as [|x a IH]; [done|].
  rewrite append_cons. unfold PyStr.chars in *. simpl. by rewrite IH.
Qed.

Lemma chars_of_chars (l : list ascii) : PyStr.chars (PyStr.of_chars l) = l.
Proof. apply list_ascii_of_string_of_list_ascii. Qed.

Lemma of_chars_chars (s : string) : PyStr.of_chars (PyStr.chars s) = s.
Proof. apply string_of_list_ascii_of_string. Qed.

Lemma occurs_in_refl (s : string) : occurs_in s s.
Proof. exists "", "". by rewrite append_nil_r. Qed.

Lemma occurs_in_app_l (s t u : string) : occurs_in s t → occurs_in s (u +:+ t).
Proof.
  intros (b & a & ->). exists (u +:+ b), a. by rewrite append_assoc.
Qed.

Lemma occurs_in_app_r (s t u : string) : occurs_in s t → occurs_in s (t +:+ u).
Proof.
  intros (b & a & ->). exists b, (a +:+ u). by rewrite !append_assoc.
Qed.

Lemma occurs_in_join_comma (x : string) (items : list string) :
  x ∈ items → occurs_in x (PyStr.join_comma items).
Proof.
  induction items as [|y items IH]; [by intros ?%elem_of_nil|].
  intros [->|Hx]%elem_of_cons.
  - destruct items; simpl; [apply occurs_in_refl|].
    apply occurs_in_app_r, occurs_in_refl.
  - destruct items as [|z items]; [by apply elem_of_nil in Hx|].
    change (occurs_in x (y +:+ ", " +:+ PyStr.join_comma (z :: items))).
    by apply occurs_in_app_l, occurs_in_app_l, IH.
Qed.

(** ** The archive inspector *)

Section ArchiveFacts.
Context {Content : Type}.
Implicit Types zf : zipfile Content.

Lemma zip_read_Some zf name :
  name ∈ namelist zf → ∃ content, zip_read zf name = Some content ∧ (name, content) ∈ zf.
Proof.
  induction zf as [|[n c] zf IH]; simpl; [by intros ?%elem_of_nil|].
  intros Hin. destruct (zip_read zf name) as [c'|] eqn:Hr.
  - destruct (decide (name ∈ namelist zf)) as [Hin'|Hin'].
    + destruct (IH Hin') as (c'' & Hc & Hel). exists c'. split; [done|].
      right. by simplify_eq.
    + exfalso. clear IH Hin. induction zf as [|[n' d] zf IH]; simpl in *; [done|].
      apply not_elem_of_cons in Hin' as [Hne Hin'].
      destruct (zip_read zf name); [by apply IH|].
      by destruct (decide (n' = name)).
  - apply elem_of_cons in Hin as [->|Hin].
    + rewrite decide_True by done. eexists; split; [done|]. by left.
    + destruct (IH Hin) as (? & ? & _). congruence.
Qed.

Lemma preferred_are_data_files p : p ∈ preferred → is_data_file p = true.
Proof.
  unfold preferred. rewrite !elem_of_cons, elem_of_nil.
  intros [->|[->|[->|[->|[]]]]]; reflexivity.
Qed.

Lemma choose_name_preferred (names before : list string) p after :
  preferred = before ++ p :: after → p ∈ names →
  (∀ q, q ∈ before → q ∉ names) →
  choose_name names = Ok p.
Proof.
  intros Hpref Hp Hbefore. unfold choose_name.
  destruct names as [|n names]; [by apply elem_of_nil in Hp|].
  rewrite Hpref, (find_first _ before p after); [done| |].
  - intros q Hq. apply bool_decide_eq_false. by apply Hbefore.
  - by apply bool_decide_eq_true.
Qed.

Lemma choose_name_fallback (names before : list string) n after :
  (∀ p, p ∈ preferred → p ∉ names) →
  names = before ++ n :: after → is_data_file n = true →
  (∀ q, q ∈ before → is_data_file q = false) →
  choose_name names = Ok n.
Proof.
  intros Hnone Hnames Hn Hbefore. unfold choose_name.
  destruct names as [|n0 names]; [by destruct before|].
  rewrite find_absent.
  2:{ intros q Hq. apply bool_decide_eq_false. by apply Hnone. }
  rewrite Hnames, filter_first; [done| |done].
  intros q Hq. rewrite (Hbefore q Hq). done.
Qed.

Lemma choose_name_unsupported (names : list string) :
  names ≠ [] → (∀ n, n ∈ names → is_data_file n = false) →
  choose_name names =
    Raise (ValueError ("No supported data file found in ZIP. Entries: "
                       +:+ PyStr.repr_list names)).
Proof.
  intros Hne Hall. unfold choose_name. destruct names as [|n0 names]; [done|].
  rewrite find_absent.
  2:{ intros q Hq. apply bool_decide_eq_false. intros Hin.
      pose proof (preferred_are_data_files q Hq) as Hd.
      rewrite (Hall q Hin) in Hd. done. }
  rewrite filter_none; [done|].
  intros q Hq. rewrite (Hall q Hq). done.
Qed.

Lemma choose_name_perm (names names' : list string) :
  names ≡ₚ names' → (∃ p, p ∈ preferred ∧ p ∈ names) →
  choose_name names' = choose_name names.
Proof.
  intros Hperm (p & Hp & Hin). unfold choose_name.
  assert (find (λ p, bool_decide (p ∈ names')) preferred
          = find (λ p, bool_decide (p ∈ names)) preferred) as ->.
  { generalize preferred. intros l. induction l as [|q l IH]; simpl; [done|].
    rewrite IH. rewrite (bool_decide_ext (q ∈ names') (q ∈ names)); [done|].
    by rewrite Hperm. }
  destruct (find _ preferred) as [c|] eqn:Hfind.
  - destruct names, names'; try done.
    all: try (by apply Permutation_nil_cons in Hperm).
    all: symmetry in Hperm; by apply Permutation_nil_cons in Hperm.
  - exfalso. apply find_none with (x := p) in Hfind.
    + by apply bool_decide_eq_false in Hfind.
    + by apply list_elem_of_In.
Qed.

End ArchiveFacts.

(** C3. For an archive with at least one entry the inspector chooses by the
    fixed policy: the preference list is the daily XML name, the historical
    XML name, the daily CSV name, the historical CSV name, in this order;
    the first preferred name that is present among the entries is chosen
    and its content returned, whatever the listing order of the archive;
    when no preferred name is present, the first entry in listing order
    whose lower-cased name ends in [.xml] or [.csv] is chosen. *)
Theorem C3_selection_policy {Content : Type} (zf : zipfile Content) :
  zf ≠ [] →
  preferred = [ "eurofxref-daily.xml"; "eurofxref-hist.xml";
                "eurofxref.csv"; "eurofxref-hist.csv" ] ∧
  (∀ before p after,
      preferred = before ++ p :: after →
      p ∈ namelist zf → (∀ q, q ∈ before → q ∉ namelist zf) →
      ∃ content, read_single_file_from_zip zf = Ok (p, content) ∧ (p, content) ∈ zf) ∧
  (∀ zf' : zipfile Content,
      namelist zf' ≡ₚ namelist zf → (∃ p, p ∈ preferred ∧ p ∈ namelist zf) →
      ∀ name content, read_single_file_from_zip zf = Ok (name, content) →
      ∃ content', read_single_file_from_zip zf' = Ok (name, content')) ∧
  ((∀ p, p ∈ preferred → p ∉ namelist zf) →
      ∀ before n after,
        namelist zf = before ++ n :: after →
        is_data_file n = true → (∀ q, q ∈ before → is_data_file q = false) →
        ∃ content, read_single_file_from_zip zf = Ok (n, content) ∧ (n, content) ∈ zf).
Proof.
  intros _. split; [reflexivity|]. split; [|split].
  - intros before p after Hpref Hp Hbefore. unfold read_single_file_from_zip.
    rewrite (choose_name_preferred _ before p after) by done. simpl.
    destruct (zip_read_Some zf p Hp) as (content & -> & Hin). by exists content.
  - intros zf' Hperm Hex name content. unfold read_single_file_from_zip.
    rewrite (choose_name_perm (namelist zf) (namelist zf')) by done.
    destruct (choose_name (namelist zf)) as [chosen|e]; simpl; [|done].
    destruct (zip_read zf chosen) as [c|] eqn:Hread; [|done].
    intros [= <- <-].
    assert (chosen ∈ namelist zf') as Hin.
    { rewrite Hperm. clear -Hread. induction zf as [|[n d] zf IH]; simpl in *; [done|].
      destruct (zip_read zf chosen); [right; by apply IH|].
      destruct (decide (n = chosen)) as [->|]; [by left|done]. }
    destruct (zip_read_Some zf' chosen Hin) as (c' & -> & _). by exists c'.
  - intros Hnone before n after Hnames Hn Hbefore. unfold read_single_file_from_zip.
    rewrite (choose_name_fallback _ before n after) by done. simpl.
    assert (n ∈ namelist zf) as Hin.
    { rewrite Hnames. apply elem_of_app. right. by left. }
    destruct (zip_read_Some zf n Hin) as (content & -> & Hel). by exists content.
Qed.

(** The preferred daily XML name wins although it is listed last. *)
Lemma C3_selection_policy_witness :
  ∃ content,
    read_single_file_from_zip Samples.mixed_zip = Ok ("eurofxref-daily.xml", content) ∧
    ("eurofxref-daily.xml", content) ∈ Samples.mixed_zip.
Proof.
  assert (Samples.mixed_zip ≠ []) as Hne by discriminate.
  destruct (C3_selection_policy Samples.mixed_zip Hne) as (_ & Hpref & _).
  apply (Hpref [] "eurofxref-daily.xml"
           ["eurofxref-hist.xml"; "eurofxref.csv"; "eurofxref-hist.csv"]).
  - reflexivity.
  - unfold Samples.mixed_zip. simpl. do 2 right. left.
  - intros q Hq. by apply elem_of_nil in Hq.
Defined.

(** C4. An archive with no entry fails with the error "ZIP contains no
    files."; an archive that has entries, none of which has a lower-cased
    name ending in [.xml] or [.csv] (so that no preferred name is present
    either), fails with the error "No supported data file found in ZIP",
    whose message holds the [repr] of the list of names and so names every
    entry. *)
Theorem C4_archive_errors {Content : Type} :
  read_single_file_from_zip ([] : zipfile Content)
    = Raise (ValueError "ZIP contains no files.") ∧
  ∀ zf : zipfile Content,
    zf ≠ [] → (∀ n, n ∈ namelist zf → is_data_file n = false) →
    (∀ p, p ∈ preferred → p ∉ namelist zf) ∧
    ∃ msg,
      read_single_file_from_zip zf = Raise (ValueError msg) ∧
      msg = "No supported data file found in ZIP. Entries: "
            +:+ PyStr.repr_list (namelist zf) ∧
      ∀ n, n ∈ namelist zf → occurs_in (PyStr.repr n) msg.
Proof.
  split; [reflexivity|]. intros zf Hne Hall. split.
  { intros p Hp Hin. pose proof (preferred_are_data_files p Hp) as Hd.
    rewrite (Hall p Hin) in Hd. done. }
  eexists. split; [|split; [reflexivity|]].
  - unfold read_single_file_from_zip. rewrite choose_name_unsupported; [done| |done].
    destruct zf; [done|discriminate].
  - intros n Hn. apply occurs_in_app_l. unfold PyStr.repr_list.
    apply occurs_in_app_l, occurs_in_app_r, occurs_in_join_comma.
    apply list_elem_of_fmap. by exists n.
Qed.

Lemma C4_archive_errors_witness :
  ∃ msg,
    read_single_file_from_zip Samples.text_zip = Raise (ValueError msg) ∧
    msg = "No supported data file found in ZIP. Entries: ['README.txt', 'notes/']".
Proof.
  assert (Samples.text_zip ≠ []) as Hne by discriminate.
  assert (∀ n, n ∈ namelist Samples.text_zip → is_data_file n = false) as Hall.
  { intros n. unfold Samples.text_zip. simpl. rewrite !elem_of_cons, elem_of_nil.
    intros [->|[->|[]]]; reflexivity. }
  destruct (proj2 (@C4_archive_errors nat) Samples.text_zip Hne Hall)
    as (_ & msg & Hread & Hmsg & _).
  exists msg. split; [exact Hread|]. rewrite Hmsg. reflexivity.
Defined.

(** ** Text helpers *)

Lemma code_chr (z : Z) : 0 ≤ z < 256 → PyStr.code (PyStr.chr z) = z.
Proof.
  intros Hz. unfold PyStr.code, PyStr.chr.
  rewrite N_ascii_embedding by lia. lia.
Qed.


Lemma chr_code (c : ascii) : PyStr.chr (PyStr.code c) = c.
Proof.
  unfold PyStr.code, PyStr.chr. rewrite N2Z.id. apply ascii_N_embedding.
Qed.

Lemma isdigit_digit_char (k : Z) : 0 ≤ k < 10 → PyStr.isdigit (PyStr.digit_char k) = true.
Proof.
  intros Hk. unfold PyStr.isdigit, PyStr.digit_char. rewrite code_chr by lia.
  apply andb_true_intro. split; apply Z.leb_le; lia.
Qed.

Lemma digit_val_digit_char (k : Z) :
  0 ≤ k < 10 → PyStr.digit_val (PyStr.digit_char k) = Some k.
Proof.
  intros Hk. unfold PyStr.digit_val. rewrite isdigit_digit_char by done.
  unfold PyStr.digit_char. rewrite code_chr by lia. f_equal. lia.
Qed.

Lemma isdigit_not_isspace (c : ascii) : PyStr.isdigit c = true → PyStr.isspace c = false.
Proof.
  unfold PyStr.isdigit, PyStr.isspace. generalize (PyStr.code c). intros n.
  rewrite andb_true_iff, !Z.leb_le.
  rewrite !orb_false_iff, !andb_false_iff, !Z.leb_gt, Z.eqb_neq. lia.
Qed.

Lemma fixed_digits_length (n : nat) (z : Z) : length (PyStr.fixed_digits n z) = n.
Proof.
  revert z. induction n as [|n IH]; intros z; simpl; [done|].
  rewrite length_app, IH. simpl. lia.
Qed.

Lemma fixed_digits_isdigit (n : nat) (z : Z) :
  Forall (fun c => PyStr.isdigit c = true) (PyStr.fixed_digits n z).
Proof.
  revert z. induction n as [|n IH]; intros z; simpl; [constructor|].
  apply Forall_app. split; [apply IH|]. constructor; [|constructor].
  apply isdigit_digit_char. apply Z.mod_pos_bound. lia.
Qed.

Lemma digits_val_app (acc : Z) (l1 l2 : list ascii) :
  PyStr.digits_val acc (l1 ++ l2)
  = a ← PyStr.digits_val acc l1; PyStr.digits_val a l2.
Proof.
  revert acc. induction l1 as [|c l1 IH]; intros acc; simpl; [done|].
  destruct (PyStr.digit_val c); [apply IH|done].
Qed.

(** Reading back the [n] digits written by [fixed_digits]. *)
Lemma digits_val_fixed_digits (n : nat) (z acc : Z) :
  PyStr.digits_val acc (PyStr.fixed_digits n z)
  = Some (acc * 10 ^ Z.of_nat n + z mod 10 ^ Z.of_nat n).
Proof.
  revert z acc. induction n as [|n IH]; intros z acc.
  - simpl. f_equal. rewrite Z.mod_1_r. lia.
  - cbn [PyStr.fixed_digits]. rewrite digits_val_app, IH. simpl.
    rewrite digit_val_digit_char by (apply Z.mod_pos_bound; lia). f_equal.
    rewrite Nat2Z.inj_succ, Z.pow_succ_r by lia.
    rewrite (Z.rem_mul_r z 10 (10 ^ Z.of_nat n)) by lia. lia.
Qed.

Section Strip.
Variable p : ascii → bool.

Lemma lstrip_by_blank (ws l : list ascii) :
  Forall (fun c => p c = true) ws → PyStr.lstrip_by p (ws ++ l) = PyStr.lstrip_by p l.
Proof.
  induction 1 as [|c ws Hc _ IH]; simpl; [done|]. by rewrite Hc.
Qed.





(** A text that neither starts nor ends with a blank is its own strip. *)
Lemma strip_by_id (a b : ascii) (l : list ascii) :
  p a = false → p b = false →
  PyStr.strip_by p (a :: l ++ [b]) = a :: l ++ [b].
Proof.
  intros Ha Hb. unfold PyStr.strip_by.
  assert (PyStr.lstrip_by p (a :: l ++ [b]) = a :: l ++ [b]) as ->.
  { simpl. by rewrite Ha. }
  change (a :: l ++ [b]) with ((a :: l) ++ [b]).
  rewrite rev_app_distr.
  assert (PyStr.lstrip_by p (rev [b] ++ rev (a :: l)) = rev [b] ++ rev (a :: l)) as ->.
  { simpl. by rewrite Hb. }
  by rewrite <- rev_app_distr, rev_involutive.
Qed.
End Strip.

(** ** The date parser *)


Lemma valid_date_bounds (y m d : Z) :
  valid_date y m d = true → 1 ≤ y ≤ 9999 ∧ 1 ≤ m ≤ 12 ∧ 1 ≤ d ≤ 31.
Proof.
  unfold valid_date. rewrite !andb_true_iff, !Z.leb_le.
  intros [[[[[??]?]?]?] Hd].
  assert (days_in_month y m ≤ 31).
  { unfold days_in_month.
    destruct m as [|[[[[|[]|]|[|[]|]|]|[[|[]|]|[|[]|]|]|]|[[[|[]|]|[|[]|]|]|[[|[]|]|[|[]|]|]|]|]|];
      try lia; destruct (is_leap y); lia. }
  lia.
Qed.

Lemma fixed_digits_2 (z : Z) :
  PyStr.fixed_digits 2 z = [PyStr.digit_char (z / 10 mod 10); PyStr.digit_char (z mod 10)].
Proof. reflexivity. Qed.

Lemma fixed_digits_4 (z : Z) :
  PyStr.fixed_digits 4 z
  = [ PyStr.digit_char (z / 10 / 10 / 10 mod 10); PyStr.digit_char (z / 10 / 10 mod 10);
      PyStr.digit_char (z / 10 mod 10); PyStr.digit_char (z mod 10) ].
Proof. reflexivity. Qed.

Lemma digit_char_not_space (k : Z) :
  PyStr.isspace (PyStr.digit_char (k mod 10)) = false.
Proof.
  apply isdigit_not_isspace, isdigit_digit_char, Z.mod_pos_bound. lia.
Qed.

Lemma isoformat_chars (d : date) :
  PyStr.chars (isoformat d)
  = PyStr.fixed_digits 4 (year d) ++ "-"%char :: PyStr.fixed_digits 2 (month d)
    ++ "-"%char :: PyStr.fixed_digits 2 (day d).
Proof.
  unfold isoformat. rewrite !chars_append, !chars_of_chars. reflexivity.
Qed.

(** [fromisoformat] reads back what [isoformat] writes. *)
Lemma fromisoformat_isoformat (y m d : Z) :
  valid_date y m d = true →
  PyStr.strip (isoformat (Date y m d)) = isoformat (Date y m d) ∧
  date_fromisoformat (isoformat (Date y m d)) = Some (Date y m d).
Proof.
  intros Hv. pose proof (valid_date_bounds _ _ _ Hv) as (Hy & Hm & Hd). split.
  - unfold PyStr.strip. rewrite isoformat_chars. simpl year; simpl month; simpl day.
    rewrite fixed_digits_4, (fixed_digits_2 d). simpl app.
    rewrite <- (of_chars_chars (isoformat _)), isoformat_chars.
    simpl year; simpl month; simpl day.
    rewrite fixed_digits_4, (fixed_digits_2 d). simpl app. f_equal.
    match goal with
    | |- PyStr.strip_chars (?a :: ?b :: ?c :: ?e :: ?f :: ?g :: ?h :: ?i :: ?j :: [?k]) = _ =>
        apply (strip_by_id PyStr.isspace a k [b; c; e; f; g; h; i; j])
    end; apply digit_char_not_space.
  - unfold date_fromisoformat. rewrite isoformat_chars.
    simpl year; simpl month; simpl day.
    rewrite fixed_digits_4, !fixed_digits_2. simpl app. cbv iota beta.
    destruct (ascii_dec "-" "-") as [_|Hne]; [|done].
    rewrite <- fixed_digits_4, <- !fixed_digits_2.
    rewrite !digits_val_fixed_digits. simpl mbind. cbn [mbind option_bind].
    replace (0 * 10 ^ Z.of_nat 4 + y mod 10 ^ Z.of_nat 4) with y.
    2:{ change (10 ^ Z.of_nat 4) with 10000. rewrite Z.mod_small; lia. }
    replace (0 * 10 ^ Z.of_nat 2 + m mod 10 ^ Z.of_nat 2) with m.
    2:{ change (10 ^ Z.of_nat 2) with 100. rewrite Z.mod_small; lia. }
    replace (0 * 10 ^ Z.of_nat 2 + d mod 10 ^ Z.of_nat 2) with d.
    2:{ change (10 ^ Z.of_nat 2) with 100. rewrite Z.mod_small; lia. }
    unfold make_date. by rewrite Hv.
Qed.




(** The day group on a two-digit day. *)
Lemma first_match_two_digits (d : Z) (rest : list ascii) (m y : Z) (tail : list ascii) :
  1 ≤ d ≤ 31 →
  Strptime.after_day rest = Some (m, y, tail) →
  Strptime.first_match (Strptime.day_alternatives (PyStr.fixed_digits 2 d ++ rest))
  = Some (d, m, y, tail).
Proof.
  intros Hd Hafter.
  assert (d = 1 ∨ d = 2 ∨ d = 3 ∨ d = 4 ∨ d = 5 ∨ d = 6 ∨ d = 7 ∨ d = 8 ∨ d = 9 ∨
          d = 10 ∨ d = 11 ∨ d = 12 ∨ d = 13 ∨ d = 14 ∨ d = 15 ∨ d = 16 ∨ d = 17 ∨
          d = 18 ∨ d = 19 ∨ d = 20 ∨ d = 21 ∨ d = 22 ∨ d = 23 ∨ d = 24 ∨ d = 25 ∨
          d = 26 ∨ d = 27 ∨ d = 28 ∨ d = 29 ∨ d = 30 ∨ d = 31) as Hcases by lia.
  repeat (destruct Hcases as [->|Hcases]); [..|subst d];
    match goal with
    | |- context [PyStr.fixed_digits 2 ?z] =>
        let digits := eval vm_compute in (PyStr.fixed_digits 2 z) in
        change (PyStr.fixed_digits 2 z) with digits
    end;
    simpl; rewrite Hafter; reflexivity.
Qed.







(** ** Sorting by date *)

Lemma date_leb_iff (a b : date) :
  date_leb a b = true ↔
  year a < year b ∨
  (year a = year b ∧ (month a < month b ∨ (month a = month b ∧ day a ≤ day b))).
Proof.
  unfold date_leb.
  rewrite !orb_true_iff, !andb_true_iff, !orb_true_iff, !andb_true_iff.
  rewrite !Z.ltb_lt, !Z.eqb_eq, Z.leb_le. tauto.
Qed.

Lemma date_le_refl (a : date) : date_le a a.
Proof. apply date_leb_iff. lia. Qed.

Lemma date_le_trans (a b c : date) : date_le a b → date_le b c → date_le a c.
Proof. unfold date_le. rewrite !date_leb_iff. lia. Qed.

Lemma date_le_total (a b : date) : date_le a b ∨ date_le b a.
Proof. unfold date_le. rewrite !date_leb_iff. lia. Qed.

Lemma date_leb_false (a b : date) : date_leb a b = false → date_le b a.
Proof.
  intros H. destruct (date_le_total a b) as [Hab|Hba]; [|done].
  unfold date_le in Hab. congruence.
Qed.

Lemma insert_by_as_of_perm (s : RatesSnapshot) (l : list RatesSnapshot) :
  insert_by_as_of s l ≡ₚ s :: l.
Proof.
  induction l as [|t l IH]; simpl; [done|].
  destruct (date_leb (as_of s) (as_of t)); [done|].
  rewrite IH. apply Permutation_swap.
Qed.

Lemma sort_by_as_of_perm (l : list RatesSnapshot) : sort_by_as_of l ≡ₚ l.
Proof.
  induction l as [|s l IH]; simpl; [done|].
  by rewrite insert_by_as_of_perm, IH.
Qed.

Lemma insert_by_as_of_ascending (s : RatesSnapshot) (l : list RatesSnapshot) :
  ascending l → ascending (insert_by_as_of s l).
Proof.
  unfold ascending. induction l as [|t l IH]; simpl; intros Hl.
  - repeat constructor.
  - apply StronglySorted_inv in Hl as [Hl Ht].
    destruct (date_leb (as_of s) (as_of t)) eqn:Hst.
    + constructor; [by constructor|]. constructor; [done|].
      eapply Forall_impl; [exact Ht|]. intros u Hu. simpl in Hu.
      by apply (date_le_trans _ (as_of t)).
    + constructor; [by apply IH|].
      apply Forall_forall. intros u Hu.
      rewrite insert_by_as_of_perm in Hu. apply elem_of_cons in Hu as [->|Hu].
      * by apply date_leb_false.
      * rewrite Forall_forall in Ht. by apply Ht.
Qed.

Lemma sort_by_as_of_ascending (l : list RatesSnapshot) : ascending (sort_by_as_of l).
Proof.
  induction l as [|s l IH]; simpl; [constructor|].
  by apply insert_by_as_of_ascending.
Qed.

(** The last snapshot of an ascending list is a latest one. *)
Lemma ascending_last (l : list RatesSnapshot) (latest : RatesSnapshot) :
  ascending l → last l = Some latest →
  latest ∈ l ∧ ∀ s, s ∈ l → date_le (as_of s) (as_of latest).
Proof.
  intros Hl Hlast. apply last_Some in Hlast as [l' ->]. split.
  - apply elem_of_app. right. by left.
  - intros s [Hs|Hs%list_elem_of_singleton]%elem_of_app.
    + apply (StronglySorted_app_1_elem_of
               (fun s t => date_le (as_of s) (as_of t)) l' [latest]);
        [exact Hl|done|by left].
    + subst. apply date_le_refl.
Qed.

(** The sort is stable: snapshots of the same date keep their order. *)
Lemma insert_by_as_of_filter (d : date) (s : RatesSnapshot) (l : list RatesSnapshot) :
  filter (fun t => as_of t = d) (insert_by_as_of s l)
  = filter (fun t => as_of t = d) (s :: l).
Proof.
  induction l as [|t l IH]; simpl; [done|].
  destruct (date_leb (as_of s) (as_of t)) eqn:Hst; [done|].
  rewrite (filter_cons _ t), IH, !filter_cons.
  destruct (decide (as_of t = d)) as [Ht|Ht], (decide (as_of s = d)) as [Hs|Hs];
    try done.
  exfalso. rewrite Ht, Hs in Hst.
  pose proof (date_le_refl d) as Hr. unfold date_le in Hr. congruence.
Qed.

Lemma sort_by_as_of_stable (d : date) (l : list RatesSnapshot) :
  filter (fun t => as_of t = d) (sort_by_as_of l) = filter (fun t => as_of t = d) l.
Proof.
  induction l as [|s l IH]; [done|].
  simpl sort_by_as_of. rewrite insert_by_as_of_filter, !filter_cons, IH. done.
Qed.

(** ** The loaders *)

Lemma _parse_ecb_xml_ascending (root : Element) (snapshots : list RatesSnapshot) :
  _parse_ecb_xml root = Ok snapshots → ascending snapshots.
Proof.
  unfold _parse_ecb_xml.
  destruct (xml_snapshots (findall_time root) []) as [l|e]; simpl; [|done].
  intros [= <-]. apply sort_by_as_of_ascending.
Qed.

(** C7. Once the entry of the daily archive is chosen: when its lower-cased
    name ends in [.xml], the loader parses it with the XML parser and
    returns the last snapshot of the sorted result, which is a snapshot of
    the greatest date, and raises "No daily rates found" when there is no
    snapshot (an error of the parser is passed on); when the name ends in
    [.csv], the result is that of the single-row parser; any other name
    raises "Unsupported daily file format".  [load_daily_snapshot] is this
    applied to the entry that the archive inspector selects. *)
Theorem C7_load_daily (filename : string) (content : payload) :
  (PyStr.endswith (PyStr.lower filename) ".xml" = true →
     ∀ root, xml_tree content = Some root →
       match _parse_ecb_xml root with
       | Raise e => load_daily_entry filename content = Raise e
       | Ok [] =>
           load_daily_entry filename content
           = Raise (ValueError "No daily rates found in ECB daily XML.")
       | Ok (s :: l) =>
           ∃ latest,
             load_daily_entry filename content = Ok latest ∧
             last (s :: l) = Some latest ∧
             latest ∈ s :: l ∧
             ∀ t, t ∈ s :: l → date_le (as_of t) (as_of latest)
       end) ∧
  (PyStr.endswith (PyStr.lower filename) ".xml" = false →
   PyStr.endswith (PyStr.lower filename) ".csv" = true →
     ∀ records, csv_records content = Some records →
       load_daily_entry filename content = _parse_ecb_daily_csv records) ∧
  (PyStr.endswith (PyStr.lower filename) ".xml" = false →
   PyStr.endswith (PyStr.lower filename) ".csv" = false →
     load_daily_entry filename content
     = Raise (ValueError ("Unsupported daily file format in ZIP: " +:+ filename))) ∧
  (∀ daily_zip : zipfile payload,
     read_single_file_from_zip daily_zip = Ok (filename, content) →
     load_daily_snapshot daily_zip = load_daily_entry filename content).
Proof.
  split; [|split; [|split]].
  - intros Hxml root Hroot. unfold load_daily_entry. rewrite Hxml, Hroot.
    destruct (_parse_ecb_xml root) as [snapshots|e] eqn:Hparse; simpl; [|done].
    destruct snapshots as [|s l]; [done|].
    destruct (last (s :: l)) as [latest|] eqn:Hlast.
    + exists latest. split; [done|]. split; [done|].
      apply ascending_last; [|done]. by apply (_parse_ecb_xml_ascending root).
    + by apply last_None in Hlast.
  - intros Hxml Hcsv records Hrecords. unfold load_daily_entry.
    by rewrite Hxml, Hcsv, Hrecords.
  - intros Hxml Hcsv. unfold load_daily_entry. by rewrite Hxml, Hcsv.
  - intros daily_zip Hread. unfold load_daily_snapshot. by rewrite Hread.
Qed.

(** The XML entry of two days gives the snapshot of the second day, which
    the file lists first; a CSV entry goes to the single-row parser; a text
    entry is refused. *)
Lemma C7_load_daily_witness :
  (∃ latest,
     load_daily_entry "eurofxref-daily.xml" (Samples.xml_payload Samples.two_days_xml)
       = Ok latest ∧
     as_of latest = Date 2024 1 2) ∧
  load_daily_entry "eurofxref.csv" (Samples.csv_payload Samples.daily_records)
    = _parse_ecb_daily_csv Samples.daily_records ∧
  load_daily_entry "notes.txt" (Samples.csv_payload Samples.daily_records)
    = Raise (ValueError "Unsupported daily file format in ZIP: notes.txt").
Proof.
  split; [|split].
  - pose proof (proj1 (C7_load_daily "eurofxref-daily.xml"
                         (Samples.xml_payload Samples.two_days_xml))
                  eq_refl Samples.two_days_xml eq_refl) as H.
    vm_compute _parse_ecb_xml in H.
    destruct H as (latest & Hload & Hlast & _).
    exists latest. split; [exact Hload|].
    injection Hlast as <-. reflexivity.
  - exact (proj1 (proj2 (C7_load_daily "eurofxref.csv"
                           (Samples.csv_payload Samples.daily_records)))
             eq_refl eq_refl Samples.daily_records eq_refl).
  - exact (proj1 (proj2 (proj2 (C7_load_daily "notes.txt"
                                  (Samples.csv_payload Samples.daily_records))))
             eq_refl eq_refl).
Defined.

(** ** Rows of the tabular dialects *)

Lemma dict_get_set_eq {V : Type} (k : string) (v : V) (d : list (string * V)) :
  dict_get k (dict_set k v d) = Some v.
Proof.
  induction d as [|[k' v'] d IH]; simpl.
  - by rewrite decide_True.
  - destruct (decide (k' = k)) as [->|Hne]; simpl.
    + by rewrite decide_True.
    + by rewrite decide_False.
Qed.

Lemma dict_get_set_ne {V : Type} (k k0 : string) (v : V) (d : list (string * V)) :
  k0 ≠ k → dict_get k (dict_set k0 v d) = dict_get k d.
Proof.
  intros Hne. induction d as [|[k' v'] d IH]; simpl.
  - by rewrite decide_False.
  - destruct (decide (k' = k0)) as [->|Hne']; simpl.
    + by rewrite !decide_False.
    + destruct (decide (k' = k)); [done|exact IH].
Qed.

Lemma dict_get_elem_of {V : Type} (k : string) (v : V) (d : list (string * V)) :
  dict_get k d = Some v → (k, v) ∈ d.
Proof.
  induction d as [|[k' v'] d IH]; simpl; [done|].
  destruct (decide (k' = k)) as [->|Hne].
  - intros [= ->]. by left.
  - intros H. right. by apply IH.
Qed.

(** The keys of the dict built by [zip] are the field names that have a
    value. *)
Lemma dict_zip_keys (k : string) (fieldnames row : list string)
    (d : list (string * option string)) :
  is_Some (dict_get k (dict_zip fieldnames row d))
  ↔ is_Some (dict_get k d) ∨ k ∈ take (length row) fieldnames.
Proof.
  revert row d. induction fieldnames as [|f fieldnames IH]; intros row d; simpl.
  - rewrite take_nil, elem_of_nil. destruct row; tauto.
  - destruct row as [|v row]; simpl.
    + rewrite elem_of_nil. tauto.
    + rewrite IH, elem_of_cons. destruct (decide (f = k)) as [->|Hne].
      * rewrite dict_get_set_eq. split; [auto|]. intros _. left. by eexists.
      * rewrite dict_get_set_ne by done. split; [tauto|].
        intros [?|[?|?]]; [tauto|congruence|tauto].
Qed.

Lemma dict_restval_keys (k : string) (keys : list string)
    (d : list (string * option string)) :
  is_Some (dict_get k (foldl (fun d key => dict_set key None d) d keys))
  ↔ is_Some (dict_get k d) ∨ k ∈ keys.
Proof.
  revert d. induction keys as [|f keys IH]; intros d; simpl.
  - rewrite elem_of_nil. tauto.
  - rewrite IH, elem_of_cons. destruct (decide (f = k)) as [->|Hne].
    + rewrite dict_get_set_eq. split; [auto|]. intros _. left. by eexists.
    + rewrite dict_get_set_ne by done. split; [tauto|].
      intros [?|[?|?]]; [tauto|congruence|tauto].
Qed.

(** A row has a cell, possibly [None], for exactly the names of the
    header. *)
Lemma dict_row_keys (k : string) (fieldnames row : list string) :
  is_Some (dict_get k (cells (dict_row fieldnames row))) ↔ k ∈ fieldnames.
Proof.
  unfold dict_row.
  destruct (length fieldnames <? length row)%nat eqn:Hlt; simpl.
  - apply Nat.ltb_lt in Hlt. rewrite dict_zip_keys. simpl.
    rewrite take_ge by lia. split; [|auto]. intros [[? [=]]|?]; done.
  - apply Nat.ltb_ge in Hlt. rewrite dict_restval_keys, dict_zip_keys. simpl.
    rewrite <- (take_drop (length row) fieldnames) at 3. rewrite elem_of_app.
    split; [|tauto]. intros [[[? [=]]|?]|?]; tauto.
Qed.

(** ** The cells of a row *)



(** Where an entry of the mapping built from a row comes from. *)
Lemma csv_cells_lookup (items : list (string * option string))
    (rates0 : gmap string PyFloat.float) (k : string) (v : PyFloat.float) :
  csv_cells items rates0 !! k = Some v →
  rates0 !! k = Some v ∨
  ∃ raw text, (raw, Some text) ∈ items ∧
              k = PyStr.upper (PyStr.strip raw) ∧ k ≠ "DATE" ∧
              PyStr.strip text ≠ "" ∧
              PyFloat.float_of_string text = Some v.
Proof.
  revert rates0. induction items as [|[raw value] items IH]; intros rates0; simpl.
  - by left.
  - assert (∀ r, csv_cells items r !! k = Some v →
                 r !! k = Some v ∨
                 ∃ raw0 text, (raw0, Some text) ∈ (raw, value) :: items ∧
                   k = PyStr.upper (PyStr.strip raw0) ∧ k ≠ "DATE" ∧
                   PyStr.strip text ≠ "" ∧ PyFloat.float_of_string text = Some v) as IH'.
    { intros r Hr. destruct (IH r Hr) as [?|(raw0 & text & Hin & ?)]; [by left|].
      right. exists raw0, text. split; [by right|done]. }
    destruct value as [text|]; [|apply IH'].
    destruct (bool_decide (PyStr.upper (PyStr.strip raw) = "DATE")) eqn:Hdate;
      simpl; [apply IH'|].
    destruct (bool_decide (PyStr.strip text = "")) eqn:Hblank; simpl; [apply IH'|].
    destruct (PyFloat.float_of_string text) as [x|] eqn:Hfloat; [|apply IH'].
    intros Hk. destruct (IH' _ Hk) as [Hins|?]; [|by right].
    apply bool_decide_eq_false in Hdate. apply bool_decide_eq_false in Hblank.
    destruct (decide (PyStr.upper (PyStr.strip raw) = k)) as [<-|Hne].
    + rewrite lookup_insert_eq in Hins. injection Hins as ->.
      right. exists raw, text. split; [by left|done].
    + rewrite lookup_insert_ne in Hins by done. by left.
Qed.

(** The columns that normalise to "DATE" play no part. *)
Lemma csv_cells_without_date_columns (items : list (string * option string))
    (rates0 : gmap string PyFloat.float) :
  csv_cells items rates0
  = csv_cells (filter (fun item => PyStr.upper (PyStr.strip item.1) ≠ "DATE") items) rates0.
Proof.
  revert rates0. induction items as [|[raw value] items IH]; intros rates0; [done|].
  rewrite filter_cons. simpl.
  destruct (decide (PyStr.upper (PyStr.strip raw) ≠ "DATE")) as [Hne|Heq].
  - simpl. destruct value as [text|]; [|apply IH].
    repeat case_match; apply IH.
  - apply dec_stable in Heq. rewrite Heq. simpl.
    destruct value as [text|]; apply IH.
Qed.

Lemma csv_cells_no_date_key (items : list (string * option string)) :
  csv_cells items ∅ !! "DATE" = None.
Proof.
  destruct (csv_cells items ∅ !! "DATE") as [v|] eqn:Hv; [|done].
  apply csv_cells_lookup in Hv as [Hv|(? & ? & _ & _ & Hne & _)]; [|done].
  by rewrite lookup_empty in Hv.
Qed.

(** ** The tabular parsers *)

Lemma parse_ecb_date_raise (v : string) (e : exn) :
  parse_ecb_date v = Raise e → e = DateValueError.
Proof.
  unfold parse_ecb_date. repeat case_match; try done. by intros [= <-].
Qed.

Lemma truthy_Some (text : string) : truthy (Some text) = true → text ≠ "".
Proof.
  unfold truthy. intros H%negb_true_iff. by apply bool_decide_eq_false in H.
Qed.

Lemma date_text_truthy (row : csv_row) (text : string) :
  date_text row = Some text → text ≠ "".
Proof.
  unfold date_text.
  destruct (truthy (row_get row "Date")) eqn:H1.
  - rewrite H1. intros H. rewrite H in H1. by apply truthy_Some.
  - destruct (truthy (row_get row "DATE")) eqn:H2; [|done].
    intros H. rewrite H in H2. by apply truthy_Some.
Qed.

(** The single-row parser, by the date text of the first row. *)
Lemma _parse_ecb_daily_csv_unfold (records : list (list string)) :
  _parse_ecb_daily_csv records =
    match DictReader records with
    | [] => Raise (ValueError "Daily CSV has no rows.")
    | row :: _ =>
        match date_text row with
        | None => Raise (ValueError "Daily CSV missing 'Date' column.")
        | Some text =>
            as_of ← parse_ecb_date text;
            rates ← csv_rates row;
            Ok (Snapshot as_of rates)
        end
    end.
Proof.
  unfold _parse_ecb_daily_csv, date_text.
  destruct (DictReader records) as [|row rest]; [done|].
  destruct (truthy (row_get row "Date")) eqn:H1.
  - rewrite H1. destruct (row_get row "Date"); [done|discriminate H1].
  - destruct (row_get row "DATE") as [text|] eqn:H2; [|done].
    by destruct (truthy (Some text)).
Qed.

(** One turn of the loop of the multi-row parser, by the date text. *)
Lemma hist_snapshots_cons (row : csv_row) (rest : list csv_row)
    (snapshots : list RatesSnapshot) :
  hist_snapshots (row :: rest) snapshots =
    match date_text row with
    | None => hist_snapshots rest snapshots
    | Some text =>
        as_of ← parse_ecb_date text;
        rates ← csv_rates row;
        hist_snapshots rest (snapshots ++ [Snapshot as_of rates])
    end.
Proof.
  cbn [hist_snapshots]. unfold date_text.
  destruct (truthy (row_get row "Date")) eqn:H1.
  - rewrite H1. destruct (row_get row "Date"); [done|discriminate H1].
  - destruct (row_get row "DATE") as [text|] eqn:H2; [|done].
    by destruct (truthy (Some text)).
Qed.

(** A parse that succeeds has taken no shortcut: its snapshots are those of
    all the rows that have a date text. *)
Lemma hist_snapshots_Ok (rows : list csv_row) (acc snapshots : list RatesSnapshot) :
  hist_snapshots rows acc = Ok snapshots →
  snapshots = acc ++ omap row_snapshot_of rows.
Proof.
  revert acc. induction rows as [|row rows IH]; intros acc.
  - simpl. intros [= <-]. by rewrite app_nil_r.
  - rewrite hist_snapshots_cons. cbn [omap list_omap]. unfold row_snapshot_of at 1.
    destruct (date_text row) as [text|]; [|apply IH].
    destruct (parse_ecb_date text) as [d|e]; [|done]. cbn [mbind result_bind].
    unfold csv_rates. destruct (surplus row); [done|]. cbn [mbind result_bind].
    intros H%IH. by rewrite <- app_assoc in H.
Qed.

(** When no row is longer than the header and every date text can be read,
    the loop succeeds. *)
Lemma hist_snapshots_all_read (rows : list csv_row) (acc : list RatesSnapshot) :
  (∀ row, row ∈ rows → surplus row = None) →
  (∀ row text, row ∈ rows → date_text row = Some text → is_Ok (parse_ecb_date text)) →
  hist_snapshots rows acc = Ok (acc ++ omap row_snapshot_of rows).
Proof.
  revert acc. induction rows as [|row rows IH]; intros acc Hsur Hdates.
  - simpl. by rewrite app_nil_r.
  - rewrite hist_snapshots_cons. cbn [omap list_omap]. unfold row_snapshot_of at 1.
    assert (∀ acc, hist_snapshots rows acc = Ok (acc ++ omap row_snapshot_of rows)) as Hrest.
    { intros acc'. apply IH.
      - intros r Hr. apply Hsur. by right.
      - intros r t Hr. apply Hdates. by right. }
    destruct (date_text row) as [text|] eqn:Htext; [|apply Hrest].
    destruct (Hdates row text) as [d Hd]; [by left|done|]. rewrite Hd.
    cbn [mbind result_bind]. unfold csv_rates. rewrite (Hsur row) by left.
    cbn [mbind result_bind]. rewrite Hrest. by rewrite <- app_assoc.
Qed.

(** C9. In the single-row parser, a first data row whose cell under "Date"
    is the empty text, with no non-empty cell under "DATE", raises the
    error "Daily CSV missing 'Date' column." -- the very error raised when
    the header has no "Date" column at all -- although the header does
    have the column. *)
Theorem C9_empty_date_cell :
  (∀ records row rest,
      DictReader records = row :: rest →
      row_get row "Date" = Some "" →
      truthy (row_get row "DATE") = false →
      _parse_ecb_daily_csv records
      = Raise (ValueError "Daily CSV missing 'Date' column.")) ∧
  (∀ records row rest,
      DictReader records = row :: rest →
      dict_get "Date" (cells row) = None →
      truthy (row_get row "DATE") = false →
      _parse_ecb_daily_csv records
      = Raise (ValueError "Daily CSV missing 'Date' column.")) ∧
  (∀ fieldnames fields,
      is_Some (dict_get "Date" (cells (dict_row fieldnames fields)))
      ↔ "Date" ∈ fieldnames).
Proof.
  split; [|split].
  - intros records row rest Hrows Hdate HDATE.
    rewrite _parse_ecb_daily_csv_unfold, Hrows. unfold date_text.
    rewrite Hdate. simpl. by rewrite HDATE.
  - intros records row rest Hrows Hdate HDATE.
    rewrite _parse_ecb_daily_csv_unfold, Hrows. unfold date_text, row_get at 1 2.
    rewrite Hdate. simpl. by rewrite HDATE.
  - intros fieldnames fields. apply dict_row_keys.
Qed.

(** The header ["Date"; "USD"] with the row [""; "1.1"] fails like the
    header ["Day"; "USD"]. *)
Lemma C9_empty_date_cell_witness :
  "Date" ∈ [ "Date"; "USD" ] ∧
  _parse_ecb_daily_csv Samples.empty_date_records
    = Raise (ValueError "Daily CSV missing 'Date' column.") ∧
  _parse_ecb_daily_csv Samples.no_date_records
    = Raise (ValueError "Daily CSV missing 'Date' column.").
Proof.
  split; [|split].
  - apply (proj2 (proj2 C9_empty_date_cell) ["Date"; "USD"] [""; "1.1"]).
    by eexists.
  - apply (proj1 C9_empty_date_cell Samples.empty_date_records
             (dict_row ["Date"; "USD"] [""; "1.1"]) []); reflexivity.
  - apply (proj1 (proj2 C9_empty_date_cell) Samples.no_date_records
             (dict_row ["Day"; "USD"] ["2024-01-02"; "1.1"]) []); reflexivity.
Defined.

Lemma _parse_ecb_daily_csv_Ok (records : list (list string)) (snap : RatesSnapshot) :
  _parse_ecb_daily_csv records = Ok snap →
  ∃ row rest text,
    DictReader records = row :: rest ∧ date_text row = Some text ∧
    parse_ecb_date text = Ok (as_of snap) ∧ surplus row = None ∧
    rates snap = csv_cells (cells row) ∅.
Proof.
  rewrite _parse_ecb_daily_csv_unfold.
  destruct (DictReader records) as [|row rest]; [done|].
  destruct (date_text row) as [text|] eqn:Htext; [|done].
  destruct (parse_ecb_date text) as [d|e] eqn:Hd; cbn [mbind result_bind]; [|done].
  unfold csv_rates. destruct (surplus row) eqn:Hsur; cbn [mbind result_bind]; [done|].
  intros [= <-]. by exists row, rest, text.
Qed.

Lemma _parse_ecb_hist_csv_Ok (records : list (list string)) (snapshots : list RatesSnapshot) :
  _parse_ecb_hist_csv records = Ok snapshots →
  snapshots = hist_skipping_bad_dates records.
Proof.
  unfold _parse_ecb_hist_csv, hist_skipping_bad_dates.
  destruct (hist_snapshots (DictReader records) []) as [l|e] eqn:Hl; [|done].
  cbn [mbind result_bind]. intros [= <-]. by apply hist_snapshots_Ok in Hl as ->.
Qed.

Lemma hist_skipping_elem_of (records : list (list string)) (s : RatesSnapshot) :
  s ∈ hist_skipping_bad_dates records →
  ∃ row, row ∈ DictReader records ∧ row_snapshot_of row = Some s.
Proof.
  unfold hist_skipping_bad_dates. rewrite sort_by_as_of_perm.
  intros (row & Hrow & Hs)%list_elem_of_omap. by exists row.
Qed.

Lemma row_snapshot_of_Some (row : csv_row) (s : RatesSnapshot) :
  row_snapshot_of row = Some s →
  ∃ text, date_text row = Some text ∧ parse_ecb_date text = Ok (as_of s) ∧
          rates s = csv_cells (cells row) ∅.
Proof.
  unfold row_snapshot_of. destruct (date_text row) as [text|] eqn:Htext; [|done].
  destruct (parse_ecb_date text) as [d|e] eqn:Hd; [|done].
  intros [= <-]. by exists text.
Qed.

(** C10. In both tabular parsers a column whose name, stripped and
    upper-cased, is "DATE" gives no rate: the mapping built from a row is
    the one built from the row without these columns, and no snapshot that
    the single-row or the multi-row parser returns has the key "DATE". *)
Theorem C10_no_date_key :
  (∀ items rates0,
      csv_cells items rates0
      = csv_cells (filter (fun item => PyStr.upper (PyStr.strip item.1) ≠ "DATE") items)
                  rates0) ∧
  (∀ records snap,
      _parse_ecb_daily_csv records = Ok snap → rates snap !! "DATE" = None) ∧
  (∀ records snapshots s,
      _parse_ecb_hist_csv records = Ok snapshots → s ∈ snapshots →
      rates s !! "DATE" = None).
Proof.
  split; [|split].
  - apply csv_cells_without_date_columns.
  - intros records snap Hparse.
    apply _parse_ecb_daily_csv_Ok in Hparse as (row & rest & text & _ & _ & _ & _ & Hrates).
    rewrite Hrates. apply csv_cells_no_date_key.
  - intros records snapshots s Hparse Hs.
    apply _parse_ecb_hist_csv_Ok in Hparse as ->.
    apply hist_skipping_elem_of in Hs as (row & _ & Hrow).
    apply row_snapshot_of_Some in Hrow as (text & _ & _ & Hrates).
    rewrite Hrates. apply csv_cells_no_date_key.
Qed.

(** A header with the columns "Date" and "Date ", and one with "Date" and
    "DATE": the parsers succeed and the key "DATE" is absent. *)
Lemma C10_no_date_key_witness :
  (∃ snap, _parse_ecb_daily_csv Samples.daily_records = Ok snap ∧
           rates snap !! "DATE" = None ∧ is_Some (rates snap !! "JPY")) ∧
  (∃ s1 s2, _parse_ecb_hist_csv Samples.hist_records = Ok [s1; s2] ∧
            rates s1 !! "DATE" = None ∧ rates s2 !! "DATE" = None).
Proof.
  split.
  - destruct (_parse_ecb_daily_csv Samples.daily_records) as [snap|e] eqn:Hparse;
      [|by vm_compute in Hparse].
    exists snap. split; [done|]. split.
    + by apply (proj1 (proj2 C10_no_date_key) Samples.daily_records).
    + vm_compute in Hparse. injection Hparse as <-. by eexists.
  - destruct (_parse_ecb_hist_csv Samples.hist_records) as [[|s1 [|s2 [|s3 l]]]|e] eqn:Hparse;
      try by vm_compute in Hparse.
    exists s1, s2. split; [done|].
    split; apply (proj2 (proj2 C10_no_date_key) Samples.hist_records [s1; s2]);
      [done|by left|done|by right; left].
Defined.

(** ** The XML parser *)



(** A parse that succeeds has read the date of every time node. *)
Lemma xml_snapshots_Ok (time_nodes : list Element) (acc snapshots : list RatesSnapshot) :
  xml_snapshots time_nodes acc = Ok snapshots →
  snapshots = acc ++ omap xml_snapshot_of time_nodes.
Proof.
  revert acc. induction time_nodes as [|node time_nodes IH]; intros acc.
  - simpl. intros [= <-]. by rewrite app_nil_r.
  - cbn [xml_snapshots omap list_omap]. unfold xml_snapshot_of at 1.
    destruct (attrib node !! "time") as [t|]; [|apply IH].
    destruct (parse_ecb_date t) as [d|e]; cbn [mbind result_bind]; [|done].
    intros H%IH. by rewrite <- app_assoc in H.
Qed.

Lemma xml_snapshots_all_read (time_nodes : list Element) (acc : list RatesSnapshot) :
  (∀ node t, node ∈ time_nodes → attrib node !! "time" = Some t →
             is_Ok (parse_ecb_date t)) →
  xml_snapshots time_nodes acc = Ok (acc ++ omap xml_snapshot_of time_nodes).
Proof.
  revert acc. induction time_nodes as [|node time_nodes IH]; intros acc Hdates.
  - simpl. by rewrite app_nil_r.
  - assert (∀ acc, xml_snapshots time_nodes acc
                   = Ok (acc ++ omap xml_snapshot_of time_nodes)) as Hrest.
    { intros acc'. apply IH. intros n t Hn. apply Hdates. by right. }
    cbn [xml_snapshots omap list_omap]. unfold xml_snapshot_of at 1.
    destruct (attrib node !! "time") as [t|] eqn:Ht; [|apply Hrest].
    destruct (Hdates node t) as [d Hd]; [by left|done|]. rewrite Hd.
    cbn [mbind result_bind]. rewrite Hrest. by rewrite <- app_assoc.
Qed.

(** One time value that cannot be read fails the whole loop. *)
Lemma xml_snapshots_bad_date (time_nodes : list Element) (acc : list RatesSnapshot)
    (node : Element) (t : string) (e : exn) :
  node ∈ time_nodes → attrib node !! "time" = Some t → parse_ecb_date t = Raise e →
  xml_snapshots time_nodes acc = Raise DateValueError.
Proof.
  intros Hin Ht He. revert acc.
  induction time_nodes as [|n time_nodes IH]; intros acc; [by apply elem_of_nil in Hin|].
  cbn [xml_snapshots]. apply elem_of_cons in Hin as [<-|Hin].
  - rewrite Ht, He. by rewrite (parse_ecb_date_raise t e He).
  - destruct (attrib n !! "time") as [t'|]; [|by apply IH].
    destruct (parse_ecb_date t') as [d|e'] eqn:He'; cbn [mbind result_bind].
    + by apply IH.
    + by rewrite (parse_ecb_date_raise t' e' He').
Qed.

Lemma hist_snapshots_bad_date (rows : list csv_row) (acc : list RatesSnapshot)
    (row : csv_row) (text : string) (e : exn) :
  (∀ r, r ∈ rows → surplus r = None) →
  row ∈ rows → date_text row = Some text → parse_ecb_date text = Raise e →
  hist_snapshots rows acc = Raise DateValueError.
Proof.
  intros Hsur Hin Ht He. revert acc.
  induction rows as [|r rows IH]; intros acc; [by apply elem_of_nil in Hin|].
  rewrite hist_snapshots_cons.
  apply elem_of_cons in Hin as [<-|Hin].
  - rewrite Ht, He. by rewrite (parse_ecb_date_raise text e He).
  - assert (∀ acc, hist_snapshots rows acc = Raise DateValueError) as Hrest.
    { intros acc'. apply IH; [|done]. intros r' Hr'. apply Hsur. by right. }
    destruct (date_text r) as [t'|]; [|apply Hrest].
    destruct (parse_ecb_date t') as [d|e'] eqn:He'; cbn [mbind result_bind].
    + unfold csv_rates. rewrite (Hsur r) by left. cbn [mbind result_bind]. apply Hrest.
    + by rewrite (parse_ecb_date_raise t' e' He').
Qed.

Lemma xml_snapshot_of_Some (time_node : Element) (s : RatesSnapshot) :
  xml_snapshot_of time_node = Some s →
  ∃ t, attrib time_node !! "time" = Some t ∧ parse_ecb_date t = Ok (as_of s) ∧
       rates s = xml_rates (findall_rate time_node) ∅.
Proof.
  unfold xml_snapshot_of. destruct (attrib time_node !! "time") as [t|] eqn:Ht; [|done].
  destruct (parse_ecb_date t) as [d|e] eqn:Hd; [|done].
  intros [= <-]. by exists t.
Qed.

Lemma _parse_ecb_xml_Ok (root : Element) (snapshots : list RatesSnapshot) :
  _parse_ecb_xml root = Ok snapshots → snapshots = xml_skipping_bad_dates root.
Proof.
  unfold _parse_ecb_xml, xml_skipping_bad_dates.
  destruct (xml_snapshots (findall_time root) []) as [l|e] eqn:Hl; [|done].
  cbn [mbind result_bind]. intros [= <-]. by apply xml_snapshots_Ok in Hl as ->.
Qed.

(** C1 as stated does not hold: an XML element whose time value is not a
    date, and a tabular row whose date cell is not a date, fail the whole
    parse with the error of the date parser, where the claim has the entry
    passed over and the remaining one returned. *)
Lemma C1_counterexample :
  (_parse_ecb_xml Samples.bad_time_xml = Raise DateValueError ∧
   length (xml_skipping_bad_dates Samples.bad_time_xml) = 1%nat ∧
   _parse_ecb_xml Samples.bad_time_xml
   ≠ Ok (xml_skipping_bad_dates Samples.bad_time_xml)) ∧
  (_parse_ecb_hist_csv Samples.bad_date_records = Raise DateValueError ∧
   length (hist_skipping_bad_dates Samples.bad_date_records) = 1%nat ∧
   _parse_ecb_hist_csv Samples.bad_date_records
   ≠ Ok (hist_skipping_bad_dates Samples.bad_date_records)).
Proof.
  assert (_parse_ecb_xml Samples.bad_time_xml = Raise DateValueError) as Hxml
    by (vm_compute; reflexivity).
  assert (_parse_ecb_hist_csv Samples.bad_date_records = Raise DateValueError) as Hcsv
    by (vm_compute; reflexivity).
  split; (split; [done|split]).
  - vm_compute. reflexivity.
  - by rewrite Hxml.
  - vm_compute. reflexivity.
  - by rewrite Hcsv.
Qed.

(** C1, amended.  A rate whose text is not a number is passed over, and so
    is a tabular row without a date text; but a date text that is present
    and cannot be read fails the whole parse with the error of the date
    parser.  So, for XML: when every time value can be read the parser
    returns the sorted snapshots of all time elements, and one time value
    that cannot be read makes it raise.  For the multi-row tabular parser,
    on rows no longer than the header: when every date text that is
    present can be read, it returns the sorted snapshots of the rows that
    have a date text, and one date text that cannot be read makes it
    raise. *)
Theorem C1_bad_dates_fail :
  (∀ root,
      (∀ node t, node ∈ findall_time root → attrib node !! "time" = Some t →
                 is_Ok (parse_ecb_date t)) →
      _parse_ecb_xml root = Ok (xml_skipping_bad_dates root)) ∧
  (∀ root node t e,
      node ∈ findall_time root → attrib node !! "time" = Some t →
      parse_ecb_date t = Raise e →
      _parse_ecb_xml root = Raise DateValueError) ∧
  (∀ rate_node rest rates0 text,
      attrib rate_node !! "rate" = Some text →
      PyFloat.float_of_string text = None →
      xml_rates (rate_node :: rest) rates0 = xml_rates rest rates0) ∧
  (∀ records,
      (∀ row, row ∈ DictReader records → surplus row = None) →
      (∀ row text, row ∈ DictReader records → date_text row = Some text →
                   is_Ok (parse_ecb_date text)) →
      _parse_ecb_hist_csv records = Ok (hist_skipping_bad_dates records)) ∧
  (∀ records row text e,
      (∀ r, r ∈ DictReader records → surplus r = None) →
      row ∈ DictReader records → date_text row = Some text →
      parse_ecb_date text = Raise e →
      _parse_ecb_hist_csv records = Raise DateValueError) ∧
  (∀ row rest snapshots,
      date_text row = None →
      hist_snapshots (row :: rest) snapshots = hist_snapshots rest snapshots) ∧
  (∀ raw text rest rates0,
      PyFloat.float_of_string text = None →
      csv_cells ((raw, Some text) :: rest) rates0 = csv_cells rest rates0).
Proof.
  repeat apply conj.
  - intros root Hdates. unfold _parse_ecb_xml, xml_skipping_bad_dates.
    by rewrite xml_snapshots_all_read.
  - intros root node t e Hin Ht He. unfold _parse_ecb_xml.
    by rewrite (xml_snapshots_bad_date _ _ node t e).
  - intros rate_node rest rates0 text Hr Hx. cbn [xml_rates]. rewrite Hr, Hx.
    by destruct (attrib rate_node !! "currency").
  - intros records Hsur Hdates. unfold _parse_ecb_hist_csv, hist_skipping_bad_dates.
    by rewrite hist_snapshots_all_read.
  - intros records row text e Hsur Hin Ht He. unfold _parse_ecb_hist_csv.
    by rewrite (hist_snapshots_bad_date _ _ row text e).
  - intros row rest snapshots Ht. by rewrite hist_snapshots_cons, Ht.
  - intros raw text rest rates0 Hx. cbn [csv_cells]. rewrite Hx.
    by repeat case_match.
Qed.

(** The XML file of two days with one rate that is not a number is parsed
    whole, and the rate is left out; the tabular file with an empty date in
    its second row gives the two other rows. *)
Lemma C1_bad_dates_fail_witness :
  _parse_ecb_xml Samples.two_days_xml
    = Ok (xml_skipping_bad_dates Samples.two_days_xml) ∧
  _parse_ecb_hist_csv Samples.hist_records
    = Ok (hist_skipping_bad_dates Samples.hist_records) ∧
  _parse_ecb_xml Samples.bad_time_xml = Raise DateValueError.
Proof.
  split; [|split].
  - apply (proj1 C1_bad_dates_fail Samples.two_days_xml).
    intros node t Hin Ht. vm_compute findall_time in Hin.
    apply elem_of_cons in Hin as [->|Hin]; [|apply elem_of_cons in Hin as [->|Hin]].
    + vm_compute in Ht. injection Ht as <-. by eexists.
    + vm_compute in Ht. injection Ht as <-. by eexists.
    + by apply elem_of_nil in Hin.
  - apply (proj1 (proj2 (proj2 (proj2 C1_bad_dates_fail))) Samples.hist_records).
    + intros row Hin. vm_compute DictReader in Hin.
      repeat (apply elem_of_cons in Hin as [->|Hin]; [reflexivity|]).
      by apply elem_of_nil in Hin.
    + intros row text Hin Ht. vm_compute DictReader in Hin.
      repeat (apply elem_of_cons in Hin as [->|Hin];
              [vm_compute in Ht; try discriminate Ht; injection Ht as <-; by eexists|]).
      by apply elem_of_nil in Hin.
  - apply (proj1 (proj2 C1_bad_dates_fail) Samples.bad_time_xml
             (Samples.time_node "yesterday" [Samples.rate_node "USD" "1.1"])
             "yesterday" DateValueError).
    + vm_compute findall_time. left.
    + reflexivity.
    + reflexivity.
Defined.




(** ** The aggregator *)

Lemma dict_set_keys {V : Type} (k k0 : string) (v : V) (d : list (string * V)) :
  k ∈ (dict_set k0 v d).*1 ↔ k = k0 ∨ k ∈ d.*1.
Proof.
  induction d as [|[k' v'] d IH]; simpl.
  - rewrite elem_of_cons, elem_of_nil. tauto.
  - destruct (decide (k' = k0)) as [->|Hne]; simpl.
    + rewrite !elem_of_cons. tauto.
    + rewrite !elem_of_cons, IH. tauto.
Qed.

Lemma dict_set_values {V : Type} (P : V → Prop) (k0 : string) (v : V)
    (d : list (string * V)) :
  P v → Forall (fun item => P item.2) d → Forall (fun item => P item.2) (dict_set k0 v d).
Proof.
  intros Hv. induction 1 as [|[k' v'] d Hx Hd IH]; simpl.
  - by repeat constructor.
  - destruct (decide (k' = k0)); constructor; done.
Qed.

(** The buckets before the first snapshot: one empty bucket for each
    requested code. *)
Lemma empty_buckets_spec (currencies : list string) :
  (∀ c, c ∈ (empty_buckets currencies).*1 ↔ c ∈ currencies) ∧
  Forall (fun item => item.2 = []) (empty_buckets currencies).
Proof.
  unfold empty_buckets.
  assert (∀ d : list (string * list PyFloat.float),
             Forall (fun item => item.2 = []) d →
             (∀ c, c ∈ (foldl (fun d ccy => dict_set ccy [] d) d currencies).*1
                   ↔ c ∈ d.*1 ∨ c ∈ currencies) ∧
             Forall (fun item => item.2 = [])
                    (foldl (fun d ccy => dict_set ccy [] d) d currencies)) as H.
  { induction currencies as [|c0 currencies IH]; intros d Hd; simpl.
    - split; [|done]. intros c. rewrite elem_of_nil. tauto.
    - destruct (IH (dict_set c0 [] d)) as [Hkeys Hvals].
      { by apply (dict_set_values (fun vals => vals = [])). }
      split; [|done]. intros c. rewrite Hkeys, dict_set_keys, elem_of_cons. tauto. }
  destruct (H []) as [Hkeys Hvals]; [constructor|].
  split; [|done]. intros c. rewrite Hkeys. simpl. rewrite elem_of_nil. tauto.
Qed.

Lemma values_for_cons (snap : RatesSnapshot) (historical : list RatesSnapshot)
    (ccy : string) :
  values_for (snap :: historical) ccy
  = option_list (rates snap !! ccy) ++ values_for historical ccy.
Proof. unfold values_for. simpl. by destruct (rates snap !! ccy). Qed.

(** The buckets after the loop over the series. *)
Lemma collect_all (historical : list RatesSnapshot)
    (buckets : list (string * list PyFloat.float)) :
  foldl (fun b snap => collect snap b) buckets historical
  = map (fun item => (item.1, item.2 ++ values_for historical item.1)) buckets.
Proof.
  revert buckets. induction historical as [|snap historical IH]; intros buckets.
  - cbn [foldl]. rewrite <- (map_id buckets) at 1. apply map_ext.
    intros [c vals]. simpl. by rewrite app_nil_r.
  - cbn [foldl]. rewrite IH. unfold collect. rewrite map_map. apply map_ext.
    intros [c vals]. cbn [fst snd]. rewrite values_for_cons.
    destruct (rates snap !! c); cbn [fst snd option_list]; [|done].
    by rewrite <- app_assoc.
Qed.

Lemma buckets_of_series (historical : list RatesSnapshot) (currencies : list string) :
  foldl (fun b snap => collect snap b) (empty_buckets currencies) historical
  = map (fun c => (c, values_for historical c)) (empty_buckets currencies).*1.
Proof.
  rewrite collect_all. destruct (empty_buckets_spec currencies) as [_ Hvals].
  induction Hvals as [|[c vals] buckets Hc _ IH]; simpl; [done|].
  simpl in Hc. subst vals. by rewrite IH.
Qed.

(** The means of buckets that are given by their codes. *)
Lemma bucket_means_Ok (F : string → list PyFloat.float) (keys : list string)
    (means0 : gmap string PyFloat.float) :
  (∀ c, c ∈ keys → F c ≠ [] → is_Ok (PyFloat.fmean (F c))) →
  ∃ means,
    bucket_means (map (fun c => (c, F c)) keys) means0 = Ok means ∧
    ∀ c, means !! c =
           if decide (c ∈ keys ∧ F c ≠ [])
           then match PyFloat.fmean (F c) with Ok x => Some x | Raise _ => None end
           else means0 !! c.
Proof.
  revert means0. induction keys as [|k keys IH]; intros means0 Hok.
  - exists means0. split; [done|]. intros c.
    rewrite decide_False; [done|]. intros [?%elem_of_nil _]. done.
  - assert (∀ c, c ∈ keys → F c ≠ [] → is_Ok (PyFloat.fmean (F c))) as Hok'.
    { intros c Hc. apply Hok. by right. }
    cbn [map bucket_means]. destruct (F k) as [|x vals] eqn:HF.
    + destruct (IH means0 Hok') as (means & Hm & Hlook). exists means.
      split; [done|]. intros c. rewrite Hlook.
      destruct (decide (c = k)) as [->|Hne].
      * rewrite !decide_False; [done| |]; rewrite HF; tauto.
      * destruct (decide (c ∈ keys ∧ F c ≠ [])) as [[? ?]|Hn].
        -- rewrite decide_True; [done|]. split; [by right|done].
        -- rewrite decide_False; [done|]. rewrite elem_of_cons. tauto.
    + destruct (Hok k) as [mean Hmean]; [by left|by rewrite HF|].
      rewrite HF in Hmean. rewrite Hmean. cbn [mbind result_bind].
      destruct (IH (<[k:=mean]> means0) Hok') as (means & Hm & Hlook).
      exists means. split; [done|]. intros c. rewrite Hlook.
      destruct (decide (c ∈ keys ∧ F c ≠ [])) as [[? ?]|Hn].
      * rewrite decide_True; [done|]. split; [by right|done].
      * destruct (decide (c = k)) as [->|Hne].
        -- rewrite lookup_insert_eq. rewrite decide_True.
           ++ by rewrite HF, Hmean.
           ++ split; [by left|by rewrite HF].
        -- rewrite lookup_insert_ne by done. rewrite decide_False; [done|].
           rewrite elem_of_cons. tauto.
Qed.

Lemma bucket_means_Raise (F : string → list PyFloat.float) (keys : list string)
    (means0 : gmap string PyFloat.float) (c : string) (e : exn) :
  c ∈ keys → F c ≠ [] → PyFloat.fmean (F c) = Raise e →
  ∃ e', bucket_means (map (fun c => (c, F c)) keys) means0 = Raise e'.
Proof.
  intros Hc Hne He. revert means0.
  induction keys as [|k keys IH]; intros means0; [by apply elem_of_nil in Hc|].
  cbn [map bucket_means]. destruct (decide (k = c)) as [->|Hkc].
  - destruct (F c) as [|x vals] eqn:HF; [done|]. rewrite He. by eexists.
  - apply elem_of_cons in Hc as [->|Hc]; [done|].
    destruct (F k) as [|x vals]; [by apply IH|].
    destruct (PyFloat.fmean (x :: vals)) as [mean|e0]; cbn [mbind result_bind].
    + by apply IH.
    + by eexists.
Qed.

(** C6 as stated does not hold on every series: [statistics.fmean] raises
    OverflowError when the running sum of the values overflows, and
    ValueError when the values hold both infinities; then
    [compute_historical_means] raises too and returns no mapping.  Two days
    with the rate 1e308 (finite, not negative, mean 1e308) are enough. *)
Lemma C6_counterexample :
  values_for Samples.huge_series "USD" = [PyFloat.lit "1e308"; PyFloat.lit "1e308"] ∧
  finite_nonneg (PyFloat.lit "1e308") = true ∧
  compute_historical_means Samples.huge_series ["USD"] = Raise FsumOverflowError ∧
  compute_historical_means Samples.infinite_series ["USD"] = Raise FsumValueError ∧
  ¬ (∀ historical currencies,
        ∃ means, compute_historical_means historical currencies = Ok means).
Proof.
  assert (compute_historical_means Samples.huge_series ["USD"]
          = Raise FsumOverflowError) as Hhuge by (vm_compute; reflexivity).
  repeat apply conj; [reflexivity|reflexivity|exact Hhuge|vm_compute; reflexivity|].
  intros Hall. destruct (Hall Samples.huge_series ["USD"]) as [means Hmeans].
  rewrite Hhuge in Hmeans. discriminate Hmeans.
Qed.

(** C6, amended.  Whenever [statistics.fmean] is defined on the values
    collected for every requested code that has values, the result maps
    each requested code that has at least one value across the series to
    the mean ([fmean]) of these values, and holds no other key: a code
    without any value is absent.  When [fmean] raises for some requested
    code, the function raises instead of returning a mapping.  On the
    series of the example with the codes USD and JPY the result is exactly
    {USD: 2.0, JPY: 5.0}, also when GBP is requested as well. *)
Theorem C6_means :
  (∀ historical currencies,
      (∀ c, c ∈ currencies → values_for historical c ≠ [] →
            is_Ok (PyFloat.fmean (values_for historical c))) →
      ∃ means,
        compute_historical_means historical currencies = Ok means ∧
        ∀ c x, means !! c = Some x ↔
               c ∈ currencies ∧ values_for historical c ≠ [] ∧
               PyFloat.fmean (values_for historical c) = Ok x) ∧
  (∀ historical currencies c e,
      c ∈ currencies → values_for historical c ≠ [] →
      PyFloat.fmean (values_for historical c) = Raise e →
      ∃ e', compute_historical_means historical currencies = Raise e') ∧
  compute_historical_means Samples.example_series ["USD"; "JPY"]
    = Ok {[ "USD" := PyFloat.lit "2.0"; "JPY" := PyFloat.lit "5.0" ]} ∧
  compute_historical_means Samples.example_series ["USD"; "JPY"; "GBP"]
    = Ok {[ "USD" := PyFloat.lit "2.0"; "JPY" := PyFloat.lit "5.0" ]} ∧
  values_for Samples.example_series "USD" = [PyFloat.lit "1.0"; PyFloat.lit "3.0"] ∧
  values_for Samples.example_series "JPY" = [PyFloat.lit "5.0"] ∧
  values_for Samples.example_series "GBP" = [].
Proof.
  split; [|split; [|repeat apply conj; vm_compute; reflexivity]].
  - intros historical currencies Hok. unfold compute_historical_means.
    rewrite buckets_of_series.
    destruct (empty_buckets_spec currencies) as [Hkeys _].
    destruct (bucket_means_Ok (values_for historical) (empty_buckets currencies).*1 ∅)
      as (means & Hmeans & Hlook).
    { intros c Hc. apply Hok. by apply Hkeys. }
    exists means. split; [done|]. intros c x. rewrite Hlook.
    destruct (decide (c ∈ (empty_buckets currencies).*1 ∧ values_for historical c ≠ []))
      as [[Hc Hne]|Hn].
    + apply Hkeys in Hc.
      destruct (PyFloat.fmean (values_for historical c)) as [y|e] eqn:Hy.
      * split; [by intros [= ->]|]. by intros (_ & _ & [= ->]).
      * split; [done|]. by intros (_ & _ & ?).
    + rewrite lookup_empty. split; [done|]. intros (Hc & Hne & _).
      exfalso. apply Hn. split; [by apply Hkeys|done].
  - intros historical currencies c e Hc Hne He. unfold compute_historical_means.
    rewrite buckets_of_series.
    apply (bucket_means_Raise (values_for historical) _ ∅ c e); [|done|done].
    by apply (proj1 (empty_buckets_spec currencies)).
Qed.

(** On the series of the example [fmean] is defined for both codes, and
    the theorem gives the two means. *)
Lemma C6_means_witness :
  ∃ means,
    compute_historical_means Samples.example_series ["USD"; "JPY"; "GBP"] = Ok means ∧
    means !! "USD" = Some (PyFloat.lit "2.0") ∧
    means !! "JPY" = Some (PyFloat.lit "5.0") ∧
    means !! "GBP" = None.
Proof.
  destruct (proj1 C6_means Samples.example_series ["USD"; "JPY"; "GBP"])
    as (means & Hmeans & Hlook).
  { intros c Hc Hne.
    apply elem_of_cons in Hc as [->|Hc]; [by exists (PyFloat.lit "2.0")|].
    apply elem_of_cons in Hc as [->|Hc]; [by exists (PyFloat.lit "5.0")|].
    apply elem_of_cons in Hc as [->|Hc]; [by contradict Hne|].
    by apply elem_of_nil in Hc. }
  exists means. split; [exact Hmeans|]. split; [|split].
  - apply Hlook. split; [by left|]. split; [discriminate|reflexivity].
  - apply Hlook. split; [by right; left|]. split; [discriminate|reflexivity].
  - destruct (means !! "GBP") as [x|] eqn:Hx; [|done].
    apply Hlook in Hx as (_ & Hne & _). by contradict Hne.
Defined.

(** ** The renderer *)

Lemma nat_digits_isdigit (fuel : nat) (z : Z) :
  0 ≤ z →
  Forall (fun c => PyStr.isdigit c = true) (PyStr.nat_digits (S fuel) z) ∧
  PyStr.nat_digits (S fuel) z ≠ [].
Proof.
  revert z. induction fuel as [|fuel IH]; intros z Hz.
  - cbn [PyStr.nat_digits]. destruct (z <? 10) eqn:Hlt.
    + apply Z.ltb_lt in Hlt. split; [|done].
      constructor; [|constructor]. apply isdigit_digit_char. lia.
    + split; [|done]. constructor; [|constructor].
      apply isdigit_digit_char, Z.mod_pos_bound. lia.
  - change (PyStr.nat_digits (S (S fuel)) z)
      with (if z <? 10 then [PyStr.digit_char z]
            else PyStr.nat_digits (S fuel) (z / 10) ++ [PyStr.digit_char (z mod 10)]).
    destruct (z <? 10) eqn:Hlt.
    + apply Z.ltb_lt in Hlt. split; [|done].
      constructor; [|constructor]. apply isdigit_digit_char. lia.
    + destruct (IH (z / 10)) as [Hd Hne]; [apply Z.div_pos; lia|].
      split.
      * apply Forall_app. split; [done|]. constructor; [|constructor].
        apply isdigit_digit_char, Z.mod_pos_bound. lia.
      * intros H. apply app_eq_nil in H as [_ H]. discriminate H.
Qed.

Lemma scaled_6_nonneg (m : positive) (e : Z) : 0 ≤ PyFloat.scaled_6 (Z.pos m) e.
Proof.
  unfold PyFloat.scaled_6. destruct (0 <=? e) eqn:He.
  - apply Z.leb_le in He. apply Z.mul_nonneg_nonneg; [|lia].
    apply Z.mul_nonneg_nonneg; [lia|]. apply Z.pow_nonneg. lia.
  - assert (0 < 2 ^ (- e)) as Hden.
    { apply Z.pow_pos_nonneg; [lia|]. apply Z.leb_gt in He. lia. }
    assert (0 ≤ Z.pos m * 10 ^ 6 / 2 ^ (- e)) as Hq.
    { apply Z.div_pos; [lia|done]. }
    destruct (2 * ((Z.pos m * 10 ^ 6) mod 2 ^ (- e)) ?= 2 ^ (- e)); [|lia|lia].
    destruct (Z.even _); lia.
Qed.

Lemma fixed_6_six_decimals (s : bool) (n : Z) :
  0 ≤ n → six_decimals (PyStr.of_chars (PyFloat.fixed_6 s n)).
Proof.
  intros Hn. unfold six_decimals, PyFloat.fixed_6.
  exists (if s then ["-"%char] else []), (PyStr.decimal (n / 10 ^ 6)),
         (PyStr.fixed_digits 6 (n mod 10 ^ 6)).
  destruct (nat_digits_isdigit (Z.to_nat (Z.log2 (n / 10 ^ 6))) (n / 10 ^ 6))
    as [Hd Hne]; [apply Z.div_pos; lia|].
  split; [by rewrite chars_of_chars|].
  split; [destruct s; auto|]. split; [exact Hne|]. split; [exact Hd|].
  split; [apply fixed_digits_isdigit|apply fixed_digits_length].
Qed.

(** A finite value is written with exactly six digits after the point. *)
Lemma format_6f_finite (x : PyFloat.float) :
  PyFloat.isfinite x = true → six_decimals (PyFloat.format_6f x).
Proof.
  destruct x as [s|s| |s m e]; try done; intros _; simpl.
  - by apply fixed_6_six_decimals.
  - apply fixed_6_six_decimals, scaled_6_nonneg.
Qed.

Lemma six_decimals_has_point (s : string) :
  six_decimals s → "."%char ∈ PyStr.chars s.
Proof.
  intros (sign & ip & fp & -> & _). rewrite !elem_of_app. right. right. by left.
Qed.

(** No value at all is written "N/A". *)
Lemma format_6f_not_NA (x : PyFloat.float) : PyFloat.format_6f x ≠ "N/A".
Proof.
  destruct (PyFloat.isfinite x) eqn:Hfin.
  - intros Heq. apply format_6f_finite, six_decimals_has_point in Hfin.
    rewrite Heq in Hfin. vm_compute in Hfin.
    repeat (apply elem_of_cons in Hfin as [Hfin|Hfin]; [discriminate Hfin|]).
    by apply elem_of_nil in Hfin.
  - destruct x as [s|[]| |s m e]; done.
Qed.

(** C8 as stated does not hold for every present value: an infinite rate
    and one that is not a number are written [inf] and [nan], without any
    digit after a decimal point. *)
Lemma C8_counterexample :
  rates Samples.infinite_daily !! "USD" = Some PyFloat.inf ∧
  rates Samples.infinite_daily !! "JPY" = Some PyFloat.nan ∧
  render_lines Samples.infinite_daily ∅ ["USD"; "JPY"] !! 4%nat
    = Some "| USD | inf | N/A |" ∧
  render_lines Samples.infinite_daily ∅ ["USD"; "JPY"] !! 5%nat
    = Some "| JPY | nan | N/A |" ∧
  ¬ six_decimals (cell (rates Samples.infinite_daily !! "USD")) ∧
  ¬ six_decimals (cell (rates Samples.infinite_daily !! "JPY")).
Proof.
  repeat apply conj; try reflexivity.
  - intros H%six_decimals_has_point. vm_compute in H.
    repeat (apply elem_of_cons in H as [H|H]; [discriminate H|]).
    by apply elem_of_nil in H.
  - intros H%six_decimals_has_point. vm_compute in H.
    repeat (apply elem_of_cons in H as [H|H]; [discriminate H|]).
    by apply elem_of_nil in H.
Qed.

(** C8, amended.  The rendered text is the lines joined by line feeds: the
    title, the line with the date of the daily snapshot in ISO form (which
    [fromisoformat] reads back), the two lines of the table head, one row
    for each code in the order given by the caller, and an empty last
    line.  The row of a code is [| code | rate | mean |]; a cell reads
    "N/A" exactly when the code is missing from the daily rates, or from
    the means; a value that is present and finite is written with exactly
    six digits after the decimal point, while an infinite value or a NaN is
    written [inf], [-inf] or [nan].  The daily snapshot of 2024-01-01 with
    USD at 1.086543 and no mean gives the row "| USD | 1.086543 | N/A |". *)
Theorem C8_render :
  (∀ daily means currencies,
      render_markdown_table daily means currencies
        = join_lines (render_lines daily means currencies) ∧
      length (render_lines daily means currencies) = (5 + length currencies)%nat ∧
      render_lines daily means currencies !! 0%nat
        = Some ("# ECB Exchange Rates (EUR base)" +:+ newline) ∧
      render_lines daily means currencies !! 1%nat
        = Some ("**Daily rates date:** " +:+ isoformat (as_of daily) +:+ newline) ∧
      render_lines daily means currencies !! 2%nat
        = Some "| Currency Code | Rate | Mean Historical Rate |" ∧
      render_lines daily means currencies !! 3%nat = Some "|---|---:|---:|" ∧
      (∀ i ccy, currencies !! i = Some ccy →
         render_lines daily means currencies !! (4 + i)%nat
         = Some ("| " +:+ ccy +:+ " | " +:+ cell (rates daily !! ccy) +:+ " | " +:+
                 cell (means !! ccy) +:+ " |")) ∧
      render_lines daily means currencies !! (4 + length currencies)%nat = Some "") ∧
  (∀ v, cell v = "N/A" ↔ v = None) ∧
  (∀ x, PyFloat.isfinite x = true → six_decimals (cell (Some x))) ∧
  (∀ x, PyFloat.isfinite x = false →
        cell (Some x) = "inf" ∨ cell (Some x) = "-inf" ∨ cell (Some x) = "nan") ∧
  (∀ y m d, valid_date y m d = true →
        date_fromisoformat (isoformat (Date y m d)) = Some (Date y m d)) ∧
  render_lines Samples.example_daily ∅ ["USD"]
    = [ "# ECB Exchange Rates (EUR base)" +:+ newline;
        "**Daily rates date:** 2024-01-01" +:+ newline;
        "| Currency Code | Rate | Mean Historical Rate |";
        "|---|---:|---:|";
        "| USD | 1.086543 | N/A |";
        "" ].
Proof.
  split; [|split; [|split; [|split; [|split]]]].
  - intros daily means currencies.
    split; [reflexivity|]. split; [|do 4 (split; [reflexivity|]); split].
    + unfold render_lines. rewrite !length_app, length_map. simpl. lia.
    + intros i ccy Hi. unfold render_lines.
      rewrite lookup_app_r by (simpl; lia).
      replace (4 + i - length _)%nat with i by (simpl; lia).
      rewrite lookup_app_l.
      * by rewrite list_lookup_fmap, Hi.
      * rewrite length_map. by apply lookup_lt_Some in Hi.
    + unfold render_lines. rewrite lookup_app_r by (simpl; lia).
      rewrite lookup_app_r by (rewrite length_map; simpl; lia).
      rewrite length_map. simpl.
      by replace (length currencies - 0 - length currencies)%nat with 0%nat by lia.
  - intros v. split.
    + destruct v as [x|]; simpl; [|done]. intros H. by apply format_6f_not_NA in H.
    + by intros ->.
  - intros x Hx. by apply format_6f_finite.
  - intros [s|[]| |s m e] Hx; try discriminate Hx; simpl; auto.
  - intros y m d Hv. exact (proj2 (fromisoformat_isoformat y m d Hv)).
  - reflexivity.
Qed.

(** The row of USD for the daily snapshot of the example, and six digits
    for its rate. *)
Lemma C8_render_witness :
  render_lines Samples.example_daily ∅ ["USD"] !! 4%nat
    = Some "| USD | 1.086543 | N/A |" ∧
  six_decimals (cell (Some (PyFloat.lit "1.086543"))).
Proof.
  destruct C8_render as (Hlines & _ & Hsix & _). split.
  - destruct (Hlines Samples.example_daily ∅ ["USD"]) as (_ & _ & _ & _ & _ & _ & Hrow & _).
    exact (Hrow 0%nat "USD" eq_refl).
  - apply Hsix. reflexivity.
Defined.

(** * Further properties of the code *)

(** ** [read_single_file_from_zip] *)

Lemma choose_name_Ok (names : list string) (chosen : string) :
  choose_name names = Ok chosen → chosen ∈ names ∧ is_data_file chosen = true.
Proof.
  unfold choose_name. destruct names as [|n names]; [done|].
  destruct (find _ preferred) as [p|] eqn:Hfind.
  - intros [= <-]. apply find_some in Hfind as [Hin Hp].
    split; [by apply bool_decide_eq_true in Hp|].
    by apply preferred_are_data_files, list_elem_of_In.
  - destruct (filter _ (n :: names)) as [|c l] eqn:Hfilter; [done|].
    intros [= <-].
    assert (c ∈ filter (λ n0, is_data_file n0 = true) (n :: names)) as Hc
      by (rewrite Hfilter; left).
    apply list_elem_of_filter in Hc as [Hd Hin]. done.
Qed.

Lemma choose_name_Raise (names : list string) (e : exn) :
  choose_name names = Raise e →
  (names = [] ∧ e = ValueError "ZIP contains no files.") ∨
  (names ≠ [] ∧ (∀ n, n ∈ names → is_data_file n = false) ∧
   e = ValueError ("No supported data file found in ZIP. Entries: "
                   +:+ PyStr.repr_list names)).
Proof.
  unfold choose_name. destruct names as [|n names]; [intros [= <-]; by left|].
  destruct (find _ preferred) as [p|]; [done|].
  destruct (filter _ (n :: names)) as [|c l] eqn:Hfilter; [|done].
  intros [= <-]. right. split; [done|]. split; [|done].
  intros m Hm. destruct (is_data_file m) eqn:Hd; [|done].
  exfalso. eapply (filter_nil_not_elem_of _ _ m Hfilter); done.
Qed.

(** X1. Whenever the archive inspector returns an entry, its name is one of
    the listed names, ends in [.xml] or [.csv] when lower-cased, and the
    content is the one of the last entry of that name in the listing. *)
Theorem X1_inspector_result {Content : Type} (zf : zipfile Content)
    (name : string) (content : Content) :
  read_single_file_from_zip zf = Ok (name, content) →
  name ∈ namelist zf ∧
  (PyStr.endswith (PyStr.lower name) ".xml" = true ∨
   PyStr.endswith (PyStr.lower name) ".csv" = true) ∧
  (name, content) ∈ zf ∧
  ∃ before after,
    zf = before ++ (name, content) :: after ∧ name ∉ namelist after.
Proof.
  unfold read_single_file_from_zip.
  destruct (choose_name (namelist zf)) as [chosen|e] eqn:Hchoose; [|done].
  cbn [mbind result_bind].
  destruct (zip_read zf chosen) as [c|] eqn:Hread; [|done]. intros [= <- <-].
  apply choose_name_Ok in Hchoose as [Hin Hdata].
  split; [done|]. split.
  { unfold is_data_file in Hdata. by apply orb_true_iff in Hdata. }
  assert (∃ before after, zf = before ++ (chosen, c) :: after ∧ chosen ∉ namelist after)
    as Hsplit.
  { clear Hin Hdata. induction zf as [|[n d] zf IH]; [done|].
    simpl in Hread. destruct (zip_read zf chosen) as [c'|] eqn:Hrest.
    - injection Hread as ->. destruct (IH eq_refl) as (before & after & -> & Hnot).
      by exists ((n, d) :: before), after.
    - destruct (decide (n = chosen)) as [->|]; [|done]. injection Hread as ->.
      exists [], zf. split; [done|]. intros Hin.
      destruct (zip_read_Some zf chosen Hin) as (? & ? & _). congruence. }
  split; [|done]. destruct Hsplit as (before & after & -> & _).
  apply elem_of_app. right. by left.
Qed.

Lemma X1_inspector_result_witness :
  "eurofxref.csv" ∈ namelist Feeds.twice_zip ∧
  (PyStr.endswith (PyStr.lower "eurofxref.csv") ".xml" = true ∨
   PyStr.endswith (PyStr.lower "eurofxref.csv") ".csv" = true) ∧
  ("eurofxref.csv", 2%nat) ∈ Feeds.twice_zip ∧
  ∃ before after,
    Feeds.twice_zip = before ++ ("eurofxref.csv", 2%nat) :: after ∧
    "eurofxref.csv" ∉ namelist after.
Proof.
  apply (X1_inspector_result Feeds.twice_zip "eurofxref.csv" 2%nat). reflexivity.
Defined.



(** ** [select_currencies] *)

Lemma select_currencies_fold (rates0 selected : gmap string PyFloat.float)
    (currencies : list string) (c : string) :
  foldl (fun selected ccy =>
           match rates0 !! ccy with
           | Some x => <[ccy := x]> selected
           | None => selected
           end) selected currencies !! c
  = match (if decide (c ∈ currencies) then rates0 !! c else None) with
    | Some x => Some x
    | None => selected !! c
    end.
Proof.
  revert selected. induction currencies as [|k currencies IH]; intros selected.
  - cbn [foldl]. by destruct (decide (c ∈ [])) as [?%elem_of_nil|].
  - cbn [foldl]. rewrite IH. destruct (decide (c ∈ currencies)) as [Hin|Hnin].
    + rewrite decide_True by (by right). destruct (rates0 !! c) eqn:Hc; [done|].
      destruct (rates0 !! k) eqn:Hk; [|done].
      rewrite lookup_insert_ne; [done|]. intros ->. congruence.
    + destruct (decide (c = k)) as [->|Hne].
      * rewrite decide_True by (by left). destruct (rates0 !! k); [|done].
        by rewrite lookup_insert_eq.
      * rewrite decide_False by (rewrite elem_of_cons; tauto).
        destruct (rates0 !! k); [|done]. by rewrite lookup_insert_ne.
Qed.

(** X3. [select_currencies] keeps exactly the entries whose key is a
    requested code and is present in the rates, with the value unchanged; a
    requested code that the rates do not hold is left out without error.
    So the result is a sub-mapping of the rates, selecting again with the
    same codes changes nothing, and neither the order of the codes nor a
    repeated code matters. *)
Theorem X3_select_currencies (rates0 : gmap string PyFloat.float)
    (currencies : list string) :
  (∀ c, select_currencies rates0 currencies !! c
        = if decide (c ∈ currencies) then rates0 !! c else None) ∧
  select_currencies rates0 currencies ⊆ rates0 ∧
  select_currencies (select_currencies rates0 currencies) currencies
    = select_currencies rates0 currencies ∧
  (∀ currencies', (∀ c, c ∈ currencies ↔ c ∈ currencies') →
     select_currencies rates0 currencies' = select_currencies rates0 currencies).
Proof.
  assert (∀ r cs c, select_currencies r cs !! c
                    = if decide (c ∈ cs) then r !! c else None) as Hlook.
  { intros r cs c. unfold select_currencies. rewrite select_currencies_fold.
    rewrite lookup_empty. by destruct (decide (c ∈ cs)), (r !! c). }
  split; [apply Hlook|]. split; [|split].
  - apply map_subseteq_spec. intros c x. rewrite Hlook.
    by destruct (decide (c ∈ currencies)).
  - apply map_eq. intros c. rewrite !Hlook. by destruct (decide (c ∈ currencies)).
  - intros currencies' Hsame. apply map_eq. intros c. rewrite !Hlook.
    destruct (decide (c ∈ currencies)) as [Hc|Hc], (decide (c ∈ currencies')) as [Hc'|Hc'];
      try done; exfalso; [apply Hc', Hsame|apply Hc, Hsame]; done.
Qed.

(** The example of the specification: GBP is dropped without error. *)
Lemma X3_select_currencies_witness :
  select_currencies {[ "USD" := PyFloat.lit "1.1"; "JPY" := PyFloat.lit "160.0" ]}
                    [ "GBP"; "USD"; "USD" ]
  = select_currencies {[ "USD" := PyFloat.lit "1.1"; "JPY" := PyFloat.lit "160.0" ]}
                      [ "USD"; "GBP" ].
Proof.
  apply (proj2 (proj2 (proj2 (X3_select_currencies
           {[ "USD" := PyFloat.lit "1.1"; "JPY" := PyFloat.lit "160.0" ]}
           [ "USD"; "GBP" ])))).
  intros c. rewrite !elem_of_cons, !elem_of_nil. tauto.
Defined.

(** ** Order and errors of the multi-snapshot parsers *)

Lemma xml_snapshots_Raise (time_nodes : list Element) (acc : list RatesSnapshot)
    (e : exn) :
  xml_snapshots time_nodes acc = Raise e →
  e = DateValueError ∧
  ∃ node t, node ∈ time_nodes ∧ attrib node !! "time" = Some t ∧
            parse_ecb_date t = Raise DateValueError.
Proof.
  revert acc. induction time_nodes as [|n time_nodes IH]; intros acc; [done|].
  cbn [xml_snapshots].
  assert (∀ acc, xml_snapshots time_nodes acc = Raise e →
                 e = DateValueError ∧
                 ∃ node t, node ∈ n :: time_nodes ∧ attrib node !! "time" = Some t ∧
                           parse_ecb_date t = Raise DateValueError) as IH'.
  { intros acc' H. destruct (IH acc' H) as (-> & node & t & Hin & Ht & Hp).
    split; [done|]. exists node, t. split; [by right|done]. }
  destruct (attrib n !! "time") as [t|] eqn:Ht; [|apply IH'].
  destruct (parse_ecb_date t) as [d|e'] eqn:Hp; cbn [mbind result_bind]; [apply IH'|].
  intros [= <-]. pose proof (parse_ecb_date_raise t e' Hp) as ->.
  split; [done|]. exists n, t. split; [by left|done].
Qed.

Lemma omap_all_Some_length {A B : Type} (f : A → option B) (l : list A) :
  (∀ x, x ∈ l → is_Some (f x)) → length (omap f l) = length l.
Proof.
  induction l as [|x l IH]; intros Hall; [done|]. cbn [omap list_omap].
  destruct (Hall x) as [y Hy]; [by left|]. rewrite Hy. simpl. f_equal.
  apply IH. intros z Hz. apply Hall. by right.
Qed.

Lemma xml_snapshots_Ok_all_read (time_nodes : list Element)
    (acc snapshots : list RatesSnapshot) :
  xml_snapshots time_nodes acc = Ok snapshots →
  ∀ node, node ∈ time_nodes → is_Some (attrib node !! "time") →
          is_Some (xml_snapshot_of node).
Proof.
  revert acc. induction time_nodes as [|n time_nodes IH]; intros acc Hok node Hin Htime.
  { by apply elem_of_nil in Hin. }
  cbn [xml_snapshots] in Hok. unfold xml_snapshot_of.
  apply elem_of_cons in Hin as [->|Hin].
  - destruct Htime as [t Ht]. rewrite Ht in Hok |- *.
    destruct (parse_ecb_date t); [by eexists|done].
  - destruct (attrib n !! "time") as [t|]; [|by apply (IH acc Hok)].
    destruct (parse_ecb_date t) as [d|]; cbn [mbind result_bind] in Hok; [|done].
    by apply (IH _ Hok).
Qed.

(** X4. When the XML parser returns, its snapshots are in ascending order
    of date, there is exactly one for each element below the root that has
    a time attribute, and snapshots of the same date keep the order of the
    document.  When it raises, the exception is the ValueError of the date
    parser for the time value of one of these elements. *)
Theorem X4_xml_sorted (root : Element) :
  (∀ snapshots, _parse_ecb_xml root = Ok snapshots →
     ascending snapshots ∧
     snapshots ≡ₚ omap xml_snapshot_of (findall_time root) ∧
     length snapshots = length (findall_time root) ∧
     ∀ d, filter (fun s => as_of s = d) snapshots
          = filter (fun s => as_of s = d) (omap xml_snapshot_of (findall_time root))) ∧
  (∀ e, _parse_ecb_xml root = Raise e →
     e = DateValueError ∧
     ∃ node t, node ∈ findall_time root ∧ attrib node !! "time" = Some t ∧
               parse_ecb_date t = Raise DateValueError).
Proof.
  split.
  - intros snapshots Hparse. pose proof Hparse as Hok.
    apply _parse_ecb_xml_Ok in Hparse as ->. unfold xml_skipping_bad_dates.
    split; [apply sort_by_as_of_ascending|]. split; [apply sort_by_as_of_perm|].
    split; [|intros d; apply sort_by_as_of_stable].
    rewrite sort_by_as_of_perm. apply omap_all_Some_length.
    intros node Hnode. unfold _parse_ecb_xml in Hok.
    destruct (xml_snapshots (findall_time root) []) as [l|] eqn:Hl; [|done].
    apply (xml_snapshots_Ok_all_read _ _ _ Hl node Hnode).
    unfold findall_time in Hnode. by apply list_elem_of_filter in Hnode as [? _].
  - intros e. unfold _parse_ecb_xml.
    destruct (xml_snapshots (findall_time root) []) as [l|e'] eqn:Hl; [done|].
    cbn [mbind result_bind]. intros [= <-]. by apply xml_snapshots_Raise in Hl.
Qed.

(** The file that lists the later day first is returned with the earlier
    day first. *)
Lemma X4_xml_sorted_witness :
  ∃ s1 s2,
    _parse_ecb_xml Samples.two_days_xml = Ok [s1; s2] ∧
    as_of s1 = Date 2024 1 1 ∧ as_of s2 = Date 2024 1 2 ∧ ascending [s1; s2].
Proof.
  destruct (_parse_ecb_xml Samples.two_days_xml) as [[|s1 [|s2 [|s3 l]]]|e] eqn:Hparse;
    try by vm_compute in Hparse.
  exists s1, s2. split; [done|].
  destruct (proj1 (X4_xml_sorted Samples.two_days_xml) [s1; s2] Hparse) as (Hasc & _).
  vm_compute in Hparse. injection Hparse as <- <-. done.
Defined.

Lemma hist_snapshots_Raise (rows : list csv_row) (acc : list RatesSnapshot) (e : exn) :
  hist_snapshots rows acc = Raise e →
  ∃ row t, row ∈ rows ∧ date_text row = Some t ∧
    ((e = DateValueError ∧ parse_ecb_date t = Raise DateValueError) ∨
     (e = AttributeError ∧ is_Ok (parse_ecb_date t) ∧ is_Some (surplus row))).
Proof.
  revert acc. induction rows as [|r rows IH]; intros acc; [done|].
  rewrite hist_snapshots_cons.
  assert (∀ acc, hist_snapshots rows acc = Raise e →
            ∃ row t, row ∈ r :: rows ∧ date_text row = Some t ∧
              ((e = DateValueError ∧ parse_ecb_date t = Raise DateValueError) ∨
               (e = AttributeError ∧ is_Ok (parse_ecb_date t) ∧ is_Some (surplus row))))
    as IH'.
  { intros acc' H. destruct (IH acc' H) as (row & t & Hin & Ht & Hcases).
    exists row, t. split; [by right|done]. }
  destruct (date_text r) as [t|] eqn:Ht; [|apply IH'].
  destruct (parse_ecb_date t) as [d|e'] eqn:Hp; cbn [mbind result_bind].
  - unfold csv_rates. destruct (surplus r) as [extra|] eqn:Hsur; cbn [mbind result_bind].
    + intros [= <-]. exists r, t. split; [by left|]. split; [done|]. right.
      rewrite Hp. split; [done|]. split; by eexists.
    + apply IH'.
  - intros [= <-]. pose proof (parse_ecb_date_raise t e' Hp) as ->.
    exists r, t. split; [by left|]. split; [done|]. left. by rewrite <- Hp.
Qed.



(** ** The single-row parser and the rows *)



Lemma dict_row_surplus (fieldnames fields : list string) :
  is_Some (surplus (dict_row fieldnames fields))
  ↔ (length fieldnames < length fields)%nat.
Proof.
  unfold dict_row. destruct (length fieldnames <? length fields)%nat eqn:Hlt; simpl.
  - apply Nat.ltb_lt in Hlt. split; [done|]. intros _. by eexists.
  - apply Nat.ltb_ge in Hlt. split; [by intros [? [=]]|lia].
Qed.

(** X7. A data row with more fields than the header never gives a
    snapshot.  In the single-row parser such a first row raises
    AttributeError once its date has been read (the other outcomes are the
    missing-date error and the ValueError of the date parser).  In the
    multi-row parser a row of this kind that has a date text makes the
    whole parse fail, while one without a date text is passed over like any
    other row without a date. *)
Theorem X7_long_rows (header : list string) :
  (∀ data first others,
      filter (fun row => row ≠ []) data = first :: others →
      (length header < length first)%nat →
      _parse_ecb_daily_csv (header :: data) =
        match date_text (dict_row header first) with
        | None => Raise (ValueError "Daily CSV missing 'Date' column.")
        | Some t =>
            match parse_ecb_date t with
            | Ok _ => Raise AttributeError
            | Raise _ => Raise DateValueError
            end
        end) ∧
  (∀ data fields,
      fields ∈ data → (length header < length fields)%nat →
      is_Some (date_text (dict_row header fields)) →
      ¬ is_Ok (_parse_ecb_hist_csv (header :: data))) ∧
  (∀ fields rest snapshots,
      date_text (dict_row header fields) = None →
      hist_snapshots (dict_row header fields :: rest) snapshots
      = hist_snapshots rest snapshots).
Proof.
  split; [|split].
  - intros data first others Hdata Hlong.
    rewrite _parse_ecb_daily_csv_unfold. unfold DictReader. rewrite Hdata.
    cbn [map]. destruct (date_text (dict_row header first)) as [t|]; [|done].
    destruct (parse_ecb_date t) as [d|e] eqn:Hp; cbn [mbind result_bind].
    + unfold csv_rates. apply dict_row_surplus in Hlong as [extra ->]. done.
    + by rewrite (parse_ecb_date_raise t e Hp).
  - intros data fields Hin Hlong [t Ht] [snapshots Hok].
    assert (fields ≠ []) as Hne by (intros ->; simpl in Hlong; lia).
    assert (dict_row header fields ∈ DictReader (header :: data)) as Hrow.
    { unfold DictReader. apply list_elem_of_fmap. exists fields. split; [done|].
      by apply list_elem_of_filter. }
    apply _parse_ecb_hist_csv_Ok in Hok as Hsnap.
    unfold _parse_ecb_hist_csv in Hok.
    destruct (hist_snapshots (DictReader (header :: data)) []) as [l|] eqn:Hl; [|done].
    clear Hok Hsnap. revert Hrow Hl. generalize (DictReader (header :: data)).
    generalize (@nil RatesSnapshot). intros acc rows. revert acc l.
    induction rows as [|r rows IH]; intros acc l Hrow Hl; [by apply elem_of_nil in Hrow|].
    rewrite hist_snapshots_cons in Hl. apply elem_of_cons in Hrow as [<-|Hrow].
    + rewrite Ht in Hl. destruct (parse_ecb_date t); cbn [mbind result_bind] in Hl; [|done].
      unfold csv_rates in Hl. apply dict_row_surplus in Hlong as [extra Hsur].
      rewrite Hsur in Hl. done.
    + destruct (date_text r); [|by apply (IH acc l Hrow Hl)].
      destruct (parse_ecb_date s); cbn [mbind result_bind] in Hl; [|done].
      unfold csv_rates in Hl. destruct (surplus r); cbn [mbind result_bind] in Hl; [done|].
      by apply (IH _ l Hrow Hl).
  - intros fields rest snapshots Ht. by rewrite hist_snapshots_cons, Ht.
Qed.

Lemma X7_long_rows_witness :
  _parse_ecb_daily_csv Feeds.long_row_records = Raise AttributeError ∧
  ¬ is_Ok (_parse_ecb_hist_csv Feeds.long_row_records).
Proof.
  split.
  - apply (proj1 (X7_long_rows [ "Date"; "USD" ])
             [ [ "2024-01-02"; "1.1"; "surplus" ] ]
             [ "2024-01-02"; "1.1"; "surplus" ] []); [reflexivity|simpl; lia].
  - apply (proj1 (proj2 (X7_long_rows [ "Date"; "USD" ]))
             [ [ "2024-01-02"; "1.1"; "surplus" ] ]
             [ "2024-01-02"; "1.1"; "surplus" ]); [by left|simpl; lia|by eexists].
Defined.

(** ** Columns and rate nodes of the same code *)

Lemma last_cons_option {A : Type} (o : option A) (l : list A) :
  last (match o with Some y => y :: l | None => l end)
  = match last l with Some z => Some z | None => o end.
Proof.
  destruct o as [y|]; [|by destruct (last l)].
  destruct l as [|z l]; [done|].
  change (last (y :: z :: l)) with (last (z :: l)).
  by destruct (last (z :: l)) eqn:Hlast; [|apply last_None in Hlast].
Qed.

Lemma csv_cells_step (k raw : string) (value : option string)
    (items : list (string * option string)) (rates0 : gmap string PyFloat.float) :
  ∃ rates1,
    csv_cells ((raw, value) :: items) rates0 = csv_cells items rates1 ∧
    rates1 !! k = match cell_writes k (raw, value) with
                  | Some x => Some x
                  | None => rates0 !! k
                  end.
Proof.
  cbn [csv_cells]. unfold cell_writes. cbn [fst snd].
  destruct value as [text|]; [|by exists rates0].
  destruct (bool_decide (PyStr.upper (PyStr.strip raw) = "DATE")) eqn:Hdate.
  { exists rates0. split; [done|]. apply bool_decide_eq_true in Hdate.
    destruct (bool_decide (PyStr.upper (PyStr.strip raw) = k)) eqn:Hk; [|done].
    apply bool_decide_eq_true in Hk. rewrite <- Hk, Hdate. done. }
  apply bool_decide_eq_false in Hdate. rewrite orb_false_l.
  destruct (bool_decide (PyStr.strip text = "")) eqn:Hblank.
  { exists rates0. split; [done|]. by rewrite andb_false_r. }
  rewrite andb_true_r.
  destruct (PyFloat.float_of_string text) as [x|] eqn:Hx.
  - exists (<[PyStr.upper (PyStr.strip raw) := x]> rates0). split; [done|].
    destruct (bool_decide (PyStr.upper (PyStr.strip raw) = k)) eqn:Hk.
    + apply bool_decide_eq_true in Hk. subst k.
      rewrite bool_decide_eq_false_2 by done. cbn [negb andb].
      by rewrite lookup_insert_eq.
    + apply bool_decide_eq_false in Hk. cbn [andb]. by rewrite lookup_insert_ne.
  - exists rates0. split; [done|]. by destruct (_ && _).
Qed.

Lemma csv_cells_writes (k : string) (items : list (string * option string))
    (rates0 : gmap string PyFloat.float) :
  csv_cells items rates0 !! k
  = match last (omap (cell_writes k) items) with
    | Some x => Some x
    | None => rates0 !! k
    end.
Proof.
  revert rates0. induction items as [|[raw value] items IH]; intros rates0; [done|].
  destruct (csv_cells_step k raw value items rates0) as (rates1 & -> & Hk).
  rewrite IH, Hk. cbn [omap list_omap]. rewrite last_cons_option.
  by destruct (last _), (cell_writes k (raw, value)).
Qed.

Lemma xml_rates_step (k : string) (node : Element) (rate_nodes : list Element)
    (rates0 : gmap string PyFloat.float) :
  ∃ rates1,
    xml_rates (node :: rate_nodes) rates0 = xml_rates rate_nodes rates1 ∧
    rates1 !! k = match node_writes k node with
                  | Some x => Some x
                  | None => rates0 !! k
                  end.
Proof.
  cbn [xml_rates]. unfold node_writes.
  destruct (attrib node !! "currency") as [currency|]; [|by exists rates0].
  destruct (attrib node !! "rate") as [text|]; [|by exists rates0].
  destruct (PyFloat.float_of_string text) as [x|] eqn:Hx.
  - exists (<[currency := x]> rates0). split; [done|].
    destruct (bool_decide (currency = k)) eqn:Hk.
    + apply bool_decide_eq_true in Hk. subst k. by rewrite lookup_insert_eq.
    + apply bool_decide_eq_false in Hk. by rewrite lookup_insert_ne.
  - exists rates0. split; [done|]. by destruct (bool_decide (currency = k)).
Qed.

Lemma xml_rates_writes (k : string) (rate_nodes : list Element)
    (rates0 : gmap string PyFloat.float) :
  xml_rates rate_nodes rates0 !! k
  = match last (omap (node_writes k) rate_nodes) with
    | Some x => Some x
    | None => rates0 !! k
    end.
Proof.
  revert rates0. induction rate_nodes as [|node rate_nodes IH]; intros rates0; [done|].
  destruct (xml_rates_step k node rate_nodes rates0) as (rates1 & -> & Hk).
  rewrite IH, Hk. cbn [omap list_omap]. rewrite last_cons_option.
  by destruct (last _), (node_writes k node).
Qed.

(** X8. In a tabular snapshot the rate of a code is the number in the last
    column, in header order, whose stripped and upper-cased name is the
    code and whose cell is neither missing, blank nor unreadable as a
    number: a later column of the same code overwrites an earlier one, a
    cell without a number changes nothing, and a code without any such
    column is absent (it is not given the rate zero).  The same holds for
    the rate nodes of an XML time element, by their currency attribute as
    written. *)
Theorem X8_last_entry_wins :
  (∀ records snap k,
      _parse_ecb_daily_csv records = Ok snap →
      ∃ row rest, DictReader records = row :: rest ∧
                  rates snap !! k = last (omap (cell_writes k) (cells row))) ∧
  (∀ row s k,
      row_snapshot_of row = Some s →
      rates s !! k = last (omap (cell_writes k) (cells row))) ∧
  (∀ time_node s k,
      xml_snapshot_of time_node = Some s →
      rates s !! k = last (omap (node_writes k) (findall_rate time_node))).
Proof.
  split; [|split].
  - intros records snap k Hparse.
    apply _parse_ecb_daily_csv_Ok in Hparse as (row & rest & t & Hrows & _ & _ & _ & Hrates).
    exists row, rest. split; [done|]. rewrite Hrates, csv_cells_writes, lookup_empty.
    by destruct (last _).
  - intros row s k Hs. apply row_snapshot_of_Some in Hs as (t & _ & _ & Hrates).
    rewrite Hrates, csv_cells_writes, lookup_empty. by destruct (last _).
  - intros time_node s k Hs. apply xml_snapshot_of_Some in Hs as (t & _ & _ & Hrates).
    rewrite Hrates, xml_rates_writes, lookup_empty. by destruct (last _).
Qed.

(** The columns "usd" and " USD " of the sample both give the code USD;
    the rate is that of the second one. *)
Lemma X8_last_entry_wins_witness :
  ∃ snap, _parse_ecb_daily_csv Feeds.duplicate_records = Ok snap ∧
          rates snap !! "USD" = Some (PyFloat.lit "1.2") ∧
          rates snap !! "JPY" = None.
Proof.
  destruct (_parse_ecb_daily_csv Feeds.duplicate_records) as [snap|e] eqn:Hparse;
    [|by vm_compute in Hparse].
  exists snap. split; [done|].
  split.
  - destruct (proj1 X8_last_entry_wins Feeds.duplicate_records snap "USD" Hparse)
      as (row & rest & Hrows & ->).
    vm_compute in Hrows. injection Hrows as <- _. reflexivity.
  - destruct (proj1 X8_last_entry_wins Feeds.duplicate_records snap "JPY" Hparse)
      as (row & rest & Hrows & ->).
    vm_compute in Hrows. injection Hrows as <- _. reflexivity.
Defined.

(** ** The name of the date column *)

Lemma row_get_absent (fieldnames fields : list string) (k : string) :
  k ∉ fieldnames → row_get (dict_row fieldnames fields) k = None.
Proof.
  intros Hk. unfold row_get.
  destruct (dict_get k (cells (dict_row fieldnames fields))) as [v|] eqn:Hget; [|done].
  exfalso. apply Hk. apply (dict_row_keys k fieldnames fields). by eexists.
Qed.

Lemma date_text_absent (fieldnames fields : list string) :
  "Date" ∉ fieldnames → "DATE" ∉ fieldnames →
  date_text (dict_row fieldnames fields) = None.
Proof.
  intros H1 H2. unfold date_text. by rewrite !row_get_absent.
Qed.

(** X9. The date column is found under the two exact names "Date" and
    "DATE" only.  With a header that has neither (a column named "date",
    say, which is still kept out of the rates), the single-row parser
    raises "Daily CSV missing 'Date' column." for any first row, and the
    multi-row parser passes over every row and returns no snapshot at
    all, without an error. *)
Theorem X9_date_column_names (header : list string) (data : list (list string)) :
  "Date" ∉ header → "DATE" ∉ header →
  _parse_ecb_hist_csv (header :: data) = Ok [] ∧
  (filter (fun row => row ≠ []) data ≠ [] →
   _parse_ecb_daily_csv (header :: data)
   = Raise (ValueError "Daily CSV missing 'Date' column.")).
Proof.
  intros H1 H2. split.
  - unfold _parse_ecb_hist_csv, DictReader.
    assert (∀ rows acc, hist_snapshots (map (dict_row header) rows) acc = Ok acc) as Hskip.
    { induction rows as [|r rows IH]; intros acc; [done|].
      cbn [map]. rewrite hist_snapshots_cons, date_text_absent by done. apply IH. }
    by rewrite Hskip.
  - intros Hrows. rewrite _parse_ecb_daily_csv_unfold. unfold DictReader.
    destruct (filter (fun row => row ≠ []) data) as [|first others]; [done|].
    cbn [map]. by rewrite date_text_absent.
Qed.

Lemma X9_date_column_names_witness :
  _parse_ecb_hist_csv [ [ "date"; "USD" ]; [ "2024-01-02"; "1.1" ] ] = Ok [] ∧
  _parse_ecb_daily_csv [ [ "date"; "USD" ]; [ "2024-01-02"; "1.1" ] ]
    = Raise (ValueError "Daily CSV missing 'Date' column.").
Proof.
  assert ("Date" ∉ [ "date"; "USD" ]) as H1.
  { rewrite !not_elem_of_cons. repeat split; try discriminate. apply not_elem_of_nil. }
  assert ("DATE" ∉ [ "date"; "USD" ]) as H2.
  { rewrite !not_elem_of_cons. repeat split; try discriminate. apply not_elem_of_nil. }
  destruct (X9_date_column_names [ "date"; "USD" ] [ [ "2024-01-02"; "1.1" ] ] H1 H2)
    as [Hhist Hdaily].
  split; [exact Hhist|]. apply Hdaily. discriminate.
Defined.

(** ** The loaders after the inspector *)

Lemma _parse_ecb_daily_csv_Raise (records : list (list string)) (e : exn) :
  _parse_ecb_daily_csv records = Raise e →
  e = ValueError "Daily CSV has no rows." ∨
  e = ValueError "Daily CSV missing 'Date' column." ∨
  e = DateValueError ∨ e = AttributeError.
Proof.
  rewrite _parse_ecb_daily_csv_unfold.
  destruct (DictReader records) as [|row rest]; [intros [= <-]; auto|].
  destruct (date_text row) as [t|]; [|intros [= <-]; auto].
  destruct (parse_ecb_date t) as [d|e'] eqn:Hp; cbn [mbind result_bind].
  - unfold csv_rates. destruct (surplus row); cbn [mbind result_bind]; [|done].
    intros [= <-]. auto.
  - intros [= <-]. rewrite (parse_ecb_date_raise t e' Hp). auto.
Qed.

Lemma read_single_file_Ok_name {Content : Type} (zf : zipfile Content)
    (name : string) (content : Content) :
  read_single_file_from_zip zf = Ok (name, content) →
  PyStr.endswith (PyStr.lower name) ".xml" = true ∨
  PyStr.endswith (PyStr.lower name) ".csv" = true.
Proof.
  unfold read_single_file_from_zip.
  destruct (choose_name (namelist zf)) as [chosen|e] eqn:Hchoose; [|done].
  cbn [mbind result_bind]. destruct (zip_read zf chosen); [|done]. intros [= <- _].
  apply choose_name_Ok in Hchoose as [_ Hdata].
  unfold is_data_file in Hdata. by apply orb_true_iff in Hdata.
Qed.

Lemma read_single_file_Raise {Content : Type} (zf : zipfile Content) (e : exn) :
  read_single_file_from_zip zf = Raise e →
  e = ValueError "ZIP contains no files." ∨
  e = ValueError ("No supported data file found in ZIP. Entries: "
                  +:+ PyStr.repr_list (namelist zf)).
Proof.
  unfold read_single_file_from_zip.
  destruct (choose_name (namelist zf)) as [chosen|e0] eqn:Hchoose; cbn [mbind result_bind].
  - destruct (choose_name_Ok _ _ Hchoose) as [Hin _].
    by destruct (zip_read_Some zf chosen Hin) as (c & -> & _).
  - intros [= <-]. apply choose_name_Raise in Hchoose as [[_ ->]|(_ & _ & ->)]; auto.
Qed.

Lemma _parse_ecb_xml_Raise (root : Element) (e : exn) :
  _parse_ecb_xml root = Raise e → e = DateValueError.
Proof.
  unfold _parse_ecb_xml.
  destruct (xml_snapshots (findall_time root) []) as [l|e'] eqn:Hl; [done|].
  cbn [mbind result_bind]. intros [= <-]. by apply xml_snapshots_Raise in Hl as [-> _].
Qed.

(** X10. [load_daily_snapshot] never takes its last branch: the name that
    the inspector returns ends in [.xml] or [.csv], so the error
    "Unsupported daily file format in ZIP" is never raised, whatever the
    archive; the loader returns a snapshot or raises an error of the
    inspector, of a decoder or of one of the two parsers. *)
Theorem X10_daily_never_unsupported (daily_zip : zipfile payload) :
  (∀ filename,
      load_daily_snapshot daily_zip
      ≠ Raise (ValueError ("Unsupported daily file format in ZIP: " +:+ filename))) ∧
  (∀ e, load_daily_snapshot daily_zip = Raise e →
      e = ValueError "ZIP contains no files." ∨
      e = ValueError ("No supported data file found in ZIP. Entries: "
                      +:+ PyStr.repr_list (namelist daily_zip)) ∨
      e = DecodeError ∨
      e = ValueError "No daily rates found in ECB daily XML." ∨
      e = ValueError "Daily CSV has no rows." ∨
      e = ValueError "Daily CSV missing 'Date' column." ∨
      e = DateValueError ∨ e = AttributeError).
Proof.
  assert (∀ e, load_daily_snapshot daily_zip = Raise e →
      e = ValueError "ZIP contains no files." ∨
      e = ValueError ("No supported data file found in ZIP. Entries: "
                      +:+ PyStr.repr_list (namelist daily_zip)) ∨
      e = DecodeError ∨
      e = ValueError "No daily rates found in ECB daily XML." ∨
      e = ValueError "Daily CSV has no rows." ∨
      e = ValueError "Daily CSV missing 'Date' column." ∨
      e = DateValueError ∨ e = AttributeError) as Herrors.
  { intros e. unfold load_daily_snapshot.
    destruct (read_single_file_from_zip daily_zip) as [[name content]|e0] eqn:Hread;
      cbn [mbind result_bind].
    - apply read_single_file_Ok_name in Hread as Hext.
      unfold load_daily_entry.
      destruct (PyStr.endswith (PyStr.lower name) ".xml") eqn:Hxml.
      + destruct (xml_tree content) as [root|]; [|intros [= <-]; auto].
        destruct (_parse_ecb_xml root) as [snapshots|e1] eqn:Hparse;
          cbn [mbind result_bind].
        * destruct (last snapshots); [done|]. intros [= <-]. auto 10.
        * intros [= <-]. apply _parse_ecb_xml_Raise in Hparse as ->. auto 10.
      + destruct Hext as [Hxml'|Hcsv]; [congruence|]. rewrite Hcsv.
        destruct (csv_records content) as [records|]; [|intros [= <-]; auto].
        intros H. apply _parse_ecb_daily_csv_Raise in H.
        destruct H as [->|[->|[->| ->]]]; auto 10.
    - intros [= <-]. apply read_single_file_Raise in Hread as [->| ->]; auto. }
  split; [|exact Herrors].
  intros filename Hraise. apply Herrors in Hraise.
  destruct Hraise as [H|[H|[H|[H|[H|[H|[H|H]]]]]]]; discriminate H.
Qed.

Lemma X10_daily_never_unsupported_witness :
  load_daily_snapshot Feeds.odd_name_zip
  ≠ Raise (ValueError ("Unsupported daily file format in ZIP: " +:+ "RATES.CSV")) ∧
  (ValueError "ZIP contains no files." = ValueError "ZIP contains no files." ∨
   ValueError "ZIP contains no files."
     = ValueError ("No supported data file found in ZIP. Entries: "
                   +:+ PyStr.repr_list (namelist ([] : zipfile payload))) ∨
   ValueError "ZIP contains no files." = DecodeError ∨
   ValueError "ZIP contains no files."
     = ValueError "No daily rates found in ECB daily XML." ∨
   ValueError "ZIP contains no files." = ValueError "Daily CSV has no rows." ∨
   ValueError "ZIP contains no files."
     = ValueError "Daily CSV missing 'Date' column." ∨
   ValueError "ZIP contains no files." = DateValueError ∨
   ValueError "ZIP contains no files." = AttributeError).
Proof.
  split.
  - apply (proj1 (X10_daily_never_unsupported Feeds.odd_name_zip)).
  - apply (proj2 (X10_daily_never_unsupported [])). reflexivity.
Defined.

Lemma _parse_ecb_hist_csv_ascending (records : list (list string))
    (snapshots : list RatesSnapshot) :
  _parse_ecb_hist_csv records = Ok snapshots → ascending snapshots.
Proof.
  intros H. apply _parse_ecb_hist_csv_Ok in H as ->. apply sort_by_as_of_ascending.
Qed.

(** X11. Whatever the archive, a series that [load_historical_snapshots]
    returns is not empty and is in ascending order of date; it is the
    whole result of the XML parser or of the multi-row parser on the entry
    that the inspector chose.  The error "Unsupported historical file
    format in ZIP" is never raised. *)
Theorem X11_historical_series (hist_zip : zipfile payload) :
  (∀ series, load_historical_snapshots hist_zip = Ok series →
     series ≠ [] ∧ ascending series ∧
     ∃ name content,
       read_single_file_from_zip hist_zip = Ok (name, content) ∧
       ((PyStr.endswith (PyStr.lower name) ".xml" = true ∧
         ∃ root, xml_tree content = Some root ∧ _parse_ecb_xml root = Ok series) ∨
        (PyStr.endswith (PyStr.lower name) ".xml" = false ∧
         PyStr.endswith (PyStr.lower name) ".csv" = true ∧
         ∃ records, csv_records content = Some records ∧
                    _parse_ecb_hist_csv records = Ok series))) ∧
  (∀ filename,
     load_historical_snapshots hist_zip
     ≠ Raise (ValueError ("Unsupported historical file format in ZIP: " +:+ filename))).
Proof.
  unfold load_historical_snapshots.
  destruct (read_single_file_from_zip hist_zip) as [[name content]|e0] eqn:Hread;
    cbn [mbind result_bind].
  2:{ split; [done|]. intros filename [= ->].
      apply read_single_file_Raise in Hread as [H|H]; discriminate H. }
  pose proof (read_single_file_Ok_name _ _ _ Hread) as Hext.
  unfold load_historical_entry.
  destruct (PyStr.endswith (PyStr.lower name) ".xml") eqn:Hxml.
  - destruct (xml_tree content) as [root|] eqn:Hroot; [|split; done].
    destruct (_parse_ecb_xml root) as [snapshots|e1] eqn:Hparse; cbn [mbind result_bind].
    + destruct snapshots as [|s l]; [split; done|]. split; [|done].
      intros series [= <-]. split; [done|].
      split; [by apply (_parse_ecb_xml_ascending root)|].
      exists name, content. split; [done|]. left. split; [done|]. by exists root.
    + split; [done|]. intros filename [= ->].
      apply _parse_ecb_xml_Raise in Hparse. discriminate Hparse.
  - destruct Hext as [Hxml'|Hcsv]; [congruence|]. rewrite Hcsv.
    destruct (csv_records content) as [records|] eqn:Hrecords; [|split; done].
    destruct (_parse_ecb_hist_csv records) as [snapshots|e1] eqn:Hparse;
      cbn [mbind result_bind].
    + destruct snapshots as [|s l]; [split; done|]. split; [|done].
      intros series [= <-]. split; [done|].
      split; [by apply (_parse_ecb_hist_csv_ascending records)|].
      exists name, content. split; [done|]. right. do 2 (split; [done|]).
      by exists records.
    + split; [done|]. intros filename [= ->].
      unfold _parse_ecb_hist_csv in Hparse.
      destruct (hist_snapshots (DictReader records) []) as [l|e'] eqn:Hl; [done|].
      cbn [mbind result_bind] in Hparse. injection Hparse as ->.
      apply hist_snapshots_Raise in Hl as (row & t & _ & _ & [[H _]|[H _]]);
        discriminate H.
Qed.

Lemma X11_historical_series_witness :
  ∃ s1 s2, load_historical_snapshots Feeds.hist_zip = Ok [s1; s2] ∧
           as_of s1 = Date 2024 1 2 ∧ as_of s2 = Date 2024 1 3 ∧
           ascending [s1; s2].
Proof.
  destruct (load_historical_snapshots Feeds.hist_zip) as [[|s1 [|s2 [|s3 l]]]|e] eqn:Hload;
    try by vm_compute in Hload.
  exists s1, s2. split; [done|].
  destruct (proj1 (X11_historical_series Feeds.hist_zip) [s1; s2] Hload) as (_ & Hasc & _).
  vm_compute in Hload. injection Hload as <- <-. done.
Defined.

(** ** The renderer and [main] *)

Lemma render_agree (daily daily' : RatesSnapshot)
    (means means' : gmap string PyFloat.float) (currencies : list string) :
  as_of daily = as_of daily' →
  (∀ c, c ∈ currencies → rates daily !! c = rates daily' !! c) →
  (∀ c, c ∈ currencies → means !! c = means' !! c) →
  render_markdown_table daily means currencies
  = render_markdown_table daily' means' currencies.
Proof.
  intros Hdate Hrates Hmeans. unfold render_markdown_table, render_lines.
  rewrite Hdate. do 3 f_equal. apply map_ext_in. intros c Hc%list_elem_of_In.
  unfold table_row. by rewrite Hrates, Hmeans.
Qed.

(** X12. The rendered text depends on the daily snapshot and on the means
    only through the date and through the entries of the listed codes:
    two snapshots of the same date and two mappings of means that agree on
    the listed codes give the same text, whatever else they hold.  Codes
    that are not listed never show in the table. *)
Theorem X12_render_listed_codes_only (daily daily' : RatesSnapshot)
    (means means' : gmap string PyFloat.float) (currencies : list string) :
  as_of daily = as_of daily' →
  (∀ c, c ∈ currencies → rates daily !! c = rates daily' !! c) →
  (∀ c, c ∈ currencies → means !! c = means' !! c) →
  render_markdown_table daily means currencies
  = render_markdown_table daily' means' currencies.
Proof. apply render_agree. Qed.

(** The currency CHF of the feed and a mean for it do not show when only
    USD is listed. *)
Lemma X12_render_listed_codes_only_witness :
  render_markdown_table
    (Snapshot (Date 2024 1 3) {[ "USD" := PyFloat.lit "1.1"; "CHF" := PyFloat.lit "0.9" ]})
    {[ "CHF" := PyFloat.lit "0.9" ]} [ "USD" ]
  = render_markdown_table
      (Snapshot (Date 2024 1 3) {[ "USD" := PyFloat.lit "1.1" ]}) ∅ [ "USD" ].
Proof.
  apply X12_render_listed_codes_only.
  - reflexivity.
  - intros c Hc. apply elem_of_cons in Hc as [->|Hc]; [reflexivity|].
    by apply elem_of_nil in Hc.
  - intros c Hc. apply elem_of_cons in Hc as [->|Hc]; [reflexivity|].
    by apply elem_of_nil in Hc.
Defined.

Lemma select_currencies_lookup (rates0 : gmap string PyFloat.float)
    (currencies : list string) (c : string) :
  c ∈ currencies → select_currencies rates0 currencies !! c = rates0 !! c.
Proof.
  intros Hc. unfold select_currencies. rewrite select_currencies_fold, lookup_empty.
  rewrite decide_True by done. by destruct (rates0 !! c).
Qed.

Lemma compute_historical_means_agree (historical historical' : list RatesSnapshot)
    (currencies : list string) :
  (∀ c, c ∈ currencies → values_for historical c = values_for historical' c) →
  compute_historical_means historical currencies
  = compute_historical_means historical' currencies.
Proof.
  intros Hvalues. unfold compute_historical_means. rewrite !buckets_of_series.
  f_equal. apply map_ext_in. intros c Hc%list_elem_of_In.
  apply (proj1 (empty_buckets_spec currencies)) in Hc. by rewrite Hvalues.
Qed.

Lemma values_for_select (historical : list RatesSnapshot) (c : string) :
  c ∈ TARGET_CURRENCIES →
  values_for (map select_snapshot historical) c = values_for historical c.
Proof.
  intros Hc. unfold values_for.
  induction historical as [|snap historical IH]; [done|].
  cbn [map omap list_omap]. rewrite IH. unfold select_snapshot at 1. cbn [rates].
  by rewrite select_currencies_lookup.
Qed.

(** X13. In [main] the two passes of [select_currencies] over the daily
    snapshot and over the historical series change nothing in the report:
    the text is the rendering, for the four target codes USD, SEK, GBP and
    JPY in this order, of the daily snapshot as loaded with the means of
    the series as loaded.  The exit status is 0 with that text written when
    every step succeeds, and 1 with nothing written when a step raises. *)
Theorem X13_main_report (daily_zip hist_zip : zipfile payload) :
  build_report daily_zip hist_zip
  = (daily ← load_daily_snapshot daily_zip;
     historical ← load_historical_snapshots hist_zip;
     means ← compute_historical_means historical [ "USD"; "SEK"; "GBP"; "JPY" ];
     Ok (render_markdown_table daily means [ "USD"; "SEK"; "GBP"; "JPY" ])) ∧
  (∀ md, main daily_zip hist_zip = (0, Some md) ↔ build_report daily_zip hist_zip = Ok md) ∧
  (main daily_zip hist_zip = (1, None) ↔ ∃ e, build_report daily_zip hist_zip = Raise e).
Proof.
  split; [|split].
  - unfold build_report.
    destruct (load_daily_snapshot daily_zip) as [daily|]; [|done].
    destruct (load_historical_snapshots hist_zip) as [historical|]; [|done].
    cbn [mbind result_bind]. fold TARGET_CURRENCIES.
    rewrite (compute_historical_means_agree (map select_snapshot historical) historical)
      by (intros c Hc; by apply values_for_select).
    destruct (compute_historical_means historical TARGET_CURRENCIES) as [means|]; [|done].
    cbn [mbind result_bind]. f_equal. apply render_agree; [done| |done].
    intros c Hc. unfold select_snapshot. cbn [rates].
    by apply select_currencies_lookup.
  - intros md. unfold main. destruct (build_report daily_zip hist_zip).
    + split; [by intros [= ->]|by intros [= ->]].
    + split; [done|done].
  - unfold main. destruct (build_report daily_zip hist_zip) as [md|e].
    + split; [done|]. by intros [? [=]].
    + split; [|done]. intros _. by exists e.
Qed.

Lemma X13_main_report_witness :
  ∃ md, main Feeds.daily_zip Feeds.hist_zip = (0, Some md) ∧
        build_report Feeds.daily_zip Feeds.hist_zip = Ok md.
Proof.
  destruct (build_report Feeds.daily_zip Feeds.hist_zip) as [md|e] eqn:Hreport;
    [|by vm_compute in Hreport].
  exists md. split; [|done].
  by apply (proj1 (proj2 (X13_main_report Feeds.daily_zip Feeds.hist_zip)) md).
Defined.

(** ** Dates that do not exist *)

Lemma strip_isoformat (d : date) : PyStr.strip (isoformat d) = isoformat d.
Proof.
  unfold PyStr.strip. rewrite <- (of_chars_chars (isoformat d)) at 2. f_equal.
  rewrite isoformat_chars, fixed_digits_4, (fixed_digits_2 (day d)). simpl app.
  match goal with
  | |- PyStr.strip_chars (?a :: ?b :: ?c :: ?e :: ?f :: ?g :: ?h :: ?i :: ?j :: [?k]) = _ =>
      apply (strip_by_id PyStr.isspace a k [b; c; e; f; g; h; i; j])
  end; apply digit_char_not_space.
Qed.

Lemma after_day_nonspace (c : ascii) (l : list ascii) :
  PyStr.isspace c = false → Strptime.after_day (c :: l) = None.
Proof. intros Hc. unfold Strptime.after_day, Strptime.spaces1. by rewrite Hc. Qed.

(** The pattern of the long form does not match a text whose second and
    third characters are not white space. *)
Lemma first_match_no_space (a b c : ascii) (rest : list ascii) :
  PyStr.isspace b = false → PyStr.isspace c = false →
  Strptime.first_match (Strptime.day_alternatives (a :: b :: c :: rest)) = None.
Proof.
  intros Hb Hc. unfold Strptime.day_alternatives.
  repeat match goal with
         | |- context [if ?x then [_] else []] => destruct x
         end;
    cbn [app Strptime.first_match];
    rewrite ?(after_day_nonspace c rest Hc), ?(after_day_nonspace b (c :: rest) Hb);
    reflexivity.
Qed.

(** X14. A text of the ISO form whose year, month and day do not make a
    calendar date (a thirtieth of February, a month 13 or 00, a day 00, the
    year 0000, the 29th of February of a year that is not a leap year) is
    rejected with the ValueError of the date parser: the second attempt,
    with the long form, does not accept it either, and no other date is
    returned in its place. *)
Theorem X14_impossible_dates_rejected (y m d : Z) :
  0 ≤ y < 10000 → 0 ≤ m < 100 → 0 ≤ d < 100 →
  valid_date y m d = false →
  parse_ecb_date (isoformat (Date y m d)) = Raise DateValueError.
Proof.
  intros Hy Hm Hd Hinvalid. unfold parse_ecb_date. rewrite strip_isoformat.
  assert (date_fromisoformat (isoformat (Date y m d)) = None) as ->.
  { unfold date_fromisoformat. rewrite isoformat_chars.
    simpl year; simpl month; simpl day.
    rewrite fixed_digits_4, !fixed_digits_2. simpl app. cbv iota beta.
    destruct (ascii_dec "-" "-") as [_|Hne]; [|done].
    rewrite <- fixed_digits_4, <- !fixed_digits_2.
    rewrite !digits_val_fixed_digits. cbn [mbind option_bind].
    replace (0 * 10 ^ Z.of_nat 4 + y mod 10 ^ Z.of_nat 4) with y.
    2:{ change (10 ^ Z.of_nat 4) with 10000. rewrite Z.mod_small; lia. }
    replace (0 * 10 ^ Z.of_nat 2 + m mod 10 ^ Z.of_nat 2) with m.
    2:{ change (10 ^ Z.of_nat 2) with 100. rewrite Z.mod_small; lia. }
    replace (0 * 10 ^ Z.of_nat 2 + d mod 10 ^ Z.of_nat 2) with d.
    2:{ change (10 ^ Z.of_nat 2) with 100. rewrite Z.mod_small; lia. }
    unfold make_date. by rewrite Hinvalid. }
  assert (Strptime.strptime_dBY (isoformat (Date y m d)) = None) as ->; [|done].
  unfold Strptime.strptime_dBY. rewrite isoformat_chars.
  simpl year; simpl month; simpl day. rewrite fixed_digits_4. simpl app.
  by rewrite first_match_no_space by apply digit_char_not_space.
Qed.

(** 2023 is not a leap year: "2023-02-29" is rejected. *)
Lemma X14_impossible_dates_rejected_witness :
  parse_ecb_date "2023-02-29" = Raise DateValueError.
Proof.
  apply (X14_impossible_dates_rejected 2023 2 29); [lia|lia|lia|reflexivity].
Defined.

(** ** The latest snapshot of the daily XML feed *)


(** ** The date cell of the single-row parser *)

Lemma truthy_nonempty (t : string) : t ≠ "" → truthy (Some t) = true.
Proof. intros Hne. unfold truthy. by rewrite bool_decide_eq_false_2. Qed.

(** X16. In the single-row parser a cell under "Date" that is not empty
    is the date text, and the cell under "DATE" is not looked at, even when
    the first cannot be read as a date and the second could; the cell under
    "DATE" is the date text when there is no "Date" column or its cell is
    empty.  The snapshot, if any, carries the date read from that text. *)
Theorem X16_date_cell_choice (records : list (list string)) (row : csv_row)
    (rest : list csv_row) :
  DictReader records = row :: rest →
  (∀ t, row_get row "Date" = Some t → t ≠ "" →
        _parse_ecb_daily_csv records
        = (as_of ← parse_ecb_date t; rates ← csv_rates row; Ok (Snapshot as_of rates))) ∧
  (∀ t, truthy (row_get row "Date") = false →
        row_get row "DATE" = Some t → t ≠ "" →
        _parse_ecb_daily_csv records
        = (as_of ← parse_ecb_date t; rates ← csv_rates row; Ok (Snapshot as_of rates))).
Proof.
  intros Hrows. split.
  - intros t Ht Hne. rewrite _parse_ecb_daily_csv_unfold, Hrows. unfold date_text.
    by rewrite Ht, !truthy_nonempty.
  - intros t Hdate Ht Hne. rewrite _parse_ecb_daily_csv_unfold, Hrows. unfold date_text.
    by rewrite Hdate, Ht, !truthy_nonempty.
Qed.

(** The "Date" cell is not a date and the "DATE" cell is one: the parse
    fails. *)
Lemma X16_date_cell_choice_witness :
  _parse_ecb_daily_csv [ [ "Date"; "DATE"; "USD" ]; [ "today"; "2024-01-02"; "1.1" ] ]
  = Raise DateValueError.
Proof.
  destruct (X16_date_cell_choice
              [ [ "Date"; "DATE"; "USD" ]; [ "today"; "2024-01-02"; "1.1" ] ]
              (dict_row [ "Date"; "DATE"; "USD" ] [ "today"; "2024-01-02"; "1.1" ]) []
              eq_refl) as [Hfirst _].
  rewrite (Hfirst "today" eq_refl); [reflexivity|discriminate].
Defined.


(** ** The requested codes as a set *)

Lemma compute_historical_means_lookup (historical : list RatesSnapshot)
    (currencies : list string) (means : gmap string PyFloat.float) :
  compute_historical_means historical currencies = Ok means →
  (∀ c, c ∈ currencies → values_for historical c ≠ [] →
        is_Ok (PyFloat.fmean (values_for historical c))) ∧
  ∀ c, means !! c =
         if decide (c ∈ currencies ∧ values_for historical c ≠ [])
         then match PyFloat.fmean (values_for historical c) with
              | Ok x => Some x
              | Raise _ => None
              end
         else None.
Proof.
  unfold compute_historical_means. rewrite buckets_of_series. intros Hok.
  destruct (empty_buckets_spec currencies) as [Hkeys _].
  assert (∀ c, c ∈ currencies → values_for historical c ≠ [] →
               is_Ok (PyFloat.fmean (values_for historical c))) as Hall.
  { intros c Hc Hne.
    destruct (PyFloat.fmean (values_for historical c)) as [x|e] eqn:Hmean; [by eexists|].
    destruct (bucket_means_Raise (values_for historical) (empty_buckets currencies).*1
                ∅ c e) as [e' He']; [by apply Hkeys|done|done|]. congruence. }
  split; [exact Hall|].
  destruct (bucket_means_Ok (values_for historical) (empty_buckets currencies).*1 ∅)
    as (means' & Hmeans' & Hlook).
  { intros c Hc. apply Hall. by apply Hkeys. }
  rewrite Hmeans' in Hok. injection Hok as <-. intros c. rewrite Hlook, lookup_empty.
  destruct (decide (c ∈ (empty_buckets currencies).*1 ∧ values_for historical c ≠ []))
    as [[H1 H2]|Hn], (decide (c ∈ currencies ∧ values_for historical c ≠ []))
    as [[H3 H4]|Hn']; try done; exfalso.
  - apply Hn'. split; [by apply Hkeys|done].
  - apply Hn. split; [by apply Hkeys|done].
Qed.

(** X17. When [compute_historical_means] returns, the result depends on
    the requested codes as a set only: listing them in another order or
    listing a code twice gives the same mapping.  On a series without any
    snapshot the result is the empty mapping. *)
Theorem X17_means_codes_as_set (historical : list RatesSnapshot)
    (currencies currencies' : list string) (means : gmap string PyFloat.float) :
  (∀ c, c ∈ currencies ↔ c ∈ currencies') →
  compute_historical_means historical currencies = Ok means →
  compute_historical_means historical currencies' = Ok means ∧
  compute_historical_means [] currencies = Ok ∅.
Proof.
  intros Hsame Hok. split.
  - apply compute_historical_means_lookup in Hok as [Hall Hlook].
    unfold compute_historical_means. rewrite buckets_of_series.
    destruct (empty_buckets_spec currencies') as [Hkeys _].
    destruct (bucket_means_Ok (values_for historical) (empty_buckets currencies').*1 ∅)
      as (means' & -> & Hlook').
    { intros c Hc. apply Hall. by apply Hsame, Hkeys. }
    f_equal. apply map_eq. intros c. rewrite Hlook, Hlook', lookup_empty.
    destruct (decide (c ∈ (empty_buckets currencies').*1 ∧ values_for historical c ≠ []))
      as [[H1 H2]|Hn], (decide (c ∈ currencies ∧ values_for historical c ≠ []))
      as [[H3 H4]|Hn']; try done; exfalso.
    + apply Hn'. split; [by apply Hsame, Hkeys|done].
    + apply Hn. split; [by apply Hkeys, Hsame|done].
  - unfold compute_historical_means. rewrite buckets_of_series.
    destruct (bucket_means_Ok (values_for []) (empty_buckets currencies).*1 ∅)
      as (means' & -> & Hlook'); [done|].
    f_equal. apply map_eq. intros c. rewrite Hlook', !lookup_empty.
    destruct (decide _) as [[_ Hne]|]; done.
Qed.

Lemma X17_means_codes_as_set_witness :
  compute_historical_means Samples.example_series [ "JPY"; "USD"; "JPY" ]
    = Ok {[ "USD" := PyFloat.lit "2.0"; "JPY" := PyFloat.lit "5.0" ]} ∧
  compute_historical_means [] [ "USD"; "JPY" ] = Ok ∅.
Proof.
  apply (X17_means_codes_as_set Samples.example_series [ "USD"; "JPY" ]).
  - intros c. rewrite !elem_of_cons, !elem_of_nil. tauto.
  - vm_compute. reflexivity.
Defined.


(** ** The long form, as [strptime] takes it *)

Lemma isspace_lower_char (c : ascii) : PyStr.isspace c = true → PyStr.lower_char c = c.
Proof.
  unfold PyStr.lower_char, PyStr.isupper_ascii, PyStr.isspace.
  generalize (PyStr.code c). intros n H.
  destruct ((65 <=? n) && (n <=? 90)) eqn:Hup; [|done]. exfalso.
  apply andb_true_iff in Hup as [H1 H2]. apply Z.leb_le in H1. apply Z.leb_le in H2.
  rewrite !orb_true_iff, !andb_true_iff, !Z.leb_le, Z.eqb_eq in H. lia.
Qed.

Lemma isspace_not_in_range (lo hi c : ascii) :
  PyStr.isspace c = true → 48 ≤ PyStr.code lo → Strptime.in_range lo hi c = false.
Proof.
  unfold Strptime.in_range, PyStr.isspace. generalize (PyStr.code c). intros n H Hlo.
  rewrite !orb_true_iff, !andb_true_iff, !Z.leb_le, Z.eqb_eq in H.
  apply andb_false_iff. left. apply Z.leb_gt. lia.
Qed.

Lemma isspace_not_isdigit (c : ascii) : PyStr.isspace c = true → PyStr.isdigit c = false.
Proof.
  intros H. destruct (PyStr.isdigit c) eqn:Hd; [|done].
  apply isdigit_not_isspace in Hd. congruence.
Qed.


Lemma match_ci_prefix (name rest : list ascii) :
  Strptime.match_ci (map PyStr.lower_char name) (name ++ rest) = Some rest.
Proof.
  induction name as [|c name IH]; [done|]. cbn [map app Strptime.match_ci].
  by rewrite Ascii.eqb_refl.
Qed.

Lemma match_ci_mismatch (nm name rest : list ascii) :
  take (length nm `min` length name) nm
  ≠ take (length nm `min` length name) (map PyStr.lower_char name) →
  Strptime.match_ci nm (name ++ rest) = None.
Proof.
  revert name. induction nm as [|a nm IH]; intros name Hne; [done|].
  destruct name as [|b name]; [done|]. cbn [app Strptime.match_ci].
  destruct (Ascii.eqb (PyStr.lower_char b) a) eqn:Hab; [|done].
  apply Ascii.eqb_eq in Hab. apply IH. intros Heq. apply Hne.
  cbn [length map Nat.min take]. by rewrite Hab, Heq.
Qed.

(** The month group on a name given by its lower-case image [image]: the
    names of the table before the right one differ from the image within
    its length. *)
Lemma month_alternatives_image (names : list (string * Z)) (m : Z)
    (image name rest : list ascii) :
  map PyStr.lower_char name = image →
  forallb (fun p : string * Z =>
             bool_decide (PyStr.chars p.1 = image ∧ p.2 = m)
             || bool_decide (take (length (PyStr.chars p.1) `min` length image)
                                  (PyStr.chars p.1)
                             ≠ take (length (PyStr.chars p.1) `min` length image) image))
          names = true →
  existsb (fun p : string * Z => bool_decide (PyStr.chars p.1 = image ∧ p.2 = m))
          names = true →
  Strptime.month_alternatives names (name ++ rest) = Some (m, rest).
Proof.
  intros <-. induction names as [|[nm m'] names IH]; [done|].
  cbn [forallb existsb Strptime.month_alternatives fst snd].
  intros [Hhead Hall]%andb_true_iff Hex.
  destruct (bool_decide (PyStr.chars nm = map PyStr.lower_char name ∧ m' = m)) eqn:Hthis.
  - apply bool_decide_eq_true in Hthis as [-> ->]. by rewrite match_ci_prefix.
  - rewrite orb_false_l in Hhead, Hex. apply bool_decide_eq_true in Hhead.
    rewrite match_ci_mismatch; [by apply IH|].
    by rewrite length_map in Hhead.
Qed.

Lemma month_alternatives_any_case (m : Z) (name rest : list ascii) :
  1 ≤ m ≤ 12 →
  map PyStr.lower_char name = PyStr.chars (PyStr.lower (month_name m)) →
  Strptime.month_alternatives Strptime.month_names (name ++ rest) = Some (m, rest).
Proof.
  intros Hm Hname.
  assert (m = 1 ∨ m = 2 ∨ m = 3 ∨ m = 4 ∨ m = 5 ∨ m = 6 ∨ m = 7 ∨ m = 8 ∨
          m = 9 ∨ m = 10 ∨ m = 11 ∨ m = 12) as Hcases by lia.
  destruct Hcases as [->|[->|[->|[->|[->|[->|[->|[->|[->|[->|[->| ->]]]]]]]]]]];
    (eapply month_alternatives_image; [exact Hname|vm_compute; reflexivity..]).
Qed.

(** A character whose lower-case image is a lower-case letter is neither
    white space nor a dash. *)
Lemma letter_image (c : ascii) :
  PyStr.islower_ascii (PyStr.lower_char c) = true →
  PyStr.isspace c = false ∧ c ≠ "-"%char.
Proof.
  intros Hlow. split.
  - destruct (PyStr.isspace c) eqn:Hs; [|done].
    rewrite (isspace_lower_char c Hs) in Hlow.
    unfold PyStr.islower_ascii, PyStr.isspace in *. revert Hlow Hs.
    generalize (PyStr.code c). intros n.
    rewrite !orb_true_iff, !andb_true_iff, !Z.leb_le, Z.eqb_eq. lia.
  - intros ->. by vm_compute in Hlow.
Qed.

Lemma month_name_letters (m : Z) :
  1 ≤ m ≤ 12 →
  forallb PyStr.islower_ascii (PyStr.chars (PyStr.lower (month_name m))) = true ∧
  PyStr.chars (PyStr.lower (month_name m)) ≠ [].
Proof.
  intros Hm.
  assert (m = 1 ∨ m = 2 ∨ m = 3 ∨ m = 4 ∨ m = 5 ∨ m = 6 ∨ m = 7 ∨ m = 8 ∨
          m = 9 ∨ m = 10 ∨ m = 11 ∨ m = 12) as Hcases by lia.
  destruct Hcases as [->|[->|[->|[->|[->|[->|[->|[->|[->|[->|[->| ->]]]]]]]]]]];
    (split; [vm_compute; reflexivity|discriminate]).
Qed.

Lemma any_case_letters (m : Z) (name : list ascii) :
  1 ≤ m ≤ 12 →
  map PyStr.lower_char name = PyStr.chars (PyStr.lower (month_name m)) →
  name ≠ [] ∧ Forall (fun c => PyStr.isspace c = false ∧ c ≠ "-"%char) name.
Proof.
  intros Hm Hname. destruct (month_name_letters m Hm) as [Hletters Hne].
  rewrite <- Hname in Hletters, Hne. split.
  - by destruct name.
  - apply Forall_forall. intros c Hc. apply letter_image.
    rewrite forallb_forall in Hletters. apply Hletters.
    apply in_map, list_elem_of_In, Hc.
Qed.
Lemma spaces1_run (ws rest : list ascii) (c : ascii) :
  ws ≠ [] → Forall (fun c => PyStr.isspace c = true) ws → PyStr.isspace c = false →
  Strptime.spaces1 (ws ++ c :: rest) = Some (c :: rest).
Proof.
  intros Hne Hws Hc. destruct ws as [|w ws]; [done|].
  apply Forall_cons in Hws as [Hw Hws]. cbn [app Strptime.spaces1]. rewrite Hw.
  unfold PyStr.lstrip_chars. rewrite lstrip_by_blank by done.
  cbn [PyStr.lstrip_by]. by rewrite Hc.
Qed.

(** What follows the day: runs of white space and a month name in any
    letter case. *)
Lemma after_day_any_case (m y : Z) (ws1 name ws2 : list ascii) :
  1 ≤ m ≤ 12 → 0 ≤ y < 10000 →
  ws1 ≠ [] → Forall (fun c => PyStr.isspace c = true) ws1 →
  ws2 ≠ [] → Forall (fun c => PyStr.isspace c = true) ws2 →
  map PyStr.lower_char name = PyStr.chars (PyStr.lower (month_name m)) →
  Strptime.after_day (ws1 ++ name ++ ws2 ++ PyStr.fixed_digits 4 y) = Some (m, y, []).
Proof.
  intros Hm Hy Hne1 Hws1 Hne2 Hws2 Hname.
  destruct (any_case_letters m name Hm Hname) as [Hne Hletters].
  unfold Strptime.after_day.
  destruct name as [|c name'] eqn:Hn; [done|].
  apply Forall_cons in Hletters as [[Hc _] _].
  cbn [app]. rewrite spaces1_run by done. cbn [mbind option_bind].
  change (c :: name' ++ ws2 ++ PyStr.fixed_digits 4 y)
    with ((c :: name') ++ ws2 ++ PyStr.fixed_digits 4 y).
  rewrite (month_alternatives_any_case m) by done. cbn [mbind option_bind].
  rewrite fixed_digits_4.
  rewrite spaces1_run by (done || apply digit_char_not_space).
  cbn [mbind option_bind]. unfold Strptime.year4.
  rewrite <- fixed_digits_4, digits_val_fixed_digits. cbn [mbind option_bind].
  change (10 ^ Z.of_nat 4) with 10000. rewrite Z.mod_small by lia.
  by replace (0 * 10000 + y) with y by lia.
Qed.

(** The day group on a day written with one digit. *)
Lemma first_match_one_digit (d : Z) (b : ascii) (rest : list ascii) (m y : Z)
    (tail : list ascii) :
  1 ≤ d ≤ 9 → PyStr.isspace b = true →
  Strptime.after_day (b :: rest) = Some (m, y, tail) →
  Strptime.first_match (Strptime.day_alternatives (PyStr.digit_char d :: b :: rest))
  = Some (d, m, y, tail).
Proof.
  intros Hd Hb Hafter.
  pose proof (isspace_not_isdigit b Hb) as Hdigit.
  pose proof (isspace_not_in_range "0" "1" b Hb ltac:(by vm_compute)) as H01.
  assert (d = 1 ∨ d = 2 ∨ d = 3 ∨ d = 4 ∨ d = 5 ∨ d = 6 ∨ d = 7 ∨ d = 8 ∨ d = 9)
    as Hcases by lia.
  destruct Hcases as [->|[->|[->|[->|[->|[->|[->|[->| ->]]]]]]]];
    match goal with
    | |- context [PyStr.digit_char ?z] =>
        let digit := eval vm_compute in (PyStr.digit_char z) in
        change (PyStr.digit_char z) with digit
    end;
    cbn [Strptime.day_alternatives];
    rewrite ?Hdigit, ?H01, ?andb_false_r;
    match goal with
    | |- context [Ascii.eqb ?a ?b] =>
        let v := eval vm_compute in (Ascii.eqb a b) in change (Ascii.eqb a b) with v
    end;
    simpl; rewrite ?Hdigit, ?H01, ?andb_false_r; simpl; rewrite Hafter; reflexivity.
Qed.

(** A text without a dash is no ISO date. *)
Lemma fromisoformat_needs_dash (s : string) :
  Forall (fun c => c ≠ "-"%char) (PyStr.chars s) → date_fromisoformat s = None.
Proof.
  intros Hall. unfold date_fromisoformat.
  destruct (PyStr.chars s) as [|y1 [|y2 [|y3 [|y4 [|s1 [|m1 [|m2 [|s2 [|d1 [|d2 [|? ?]]]]]]]]]]];
    try done.
  destruct (ascii_dec s1 "-") as [->|]; [|done].
  exfalso. rewrite !Forall_cons in Hall. tauto.
Qed.

Lemma isspace_not_dash (c : ascii) : PyStr.isspace c = true → c ≠ "-"%char.
Proof. intros H ->. by vm_compute in H. Qed.

Lemma isdigit_not_dash (c : ascii) : PyStr.isdigit c = true → c ≠ "-"%char.
Proof. intros H ->. by vm_compute in H. Qed.

(** X18. [parse_ecb_date] reads the long form of a calendar date however it
    is spelled within what [strptime] allows: the day with two digits or,
    below ten, with one; the month name in any mix of upper and lower
    case; any non-empty runs of white space (spaces, tabs, line breaks)
    between the three fields. *)
Theorem X18_long_form_spellings (y m d : Z) (day_text ws1 name ws2 : list ascii) :
  valid_date y m d = true →
  day_text = PyStr.fixed_digits 2 d ∨ (d < 10 ∧ day_text = [PyStr.digit_char d]) →
  ws1 ≠ [] → Forall (fun c => PyStr.isspace c = true) ws1 →
  ws2 ≠ [] → Forall (fun c => PyStr.isspace c = true) ws2 →
  map PyStr.lower_char name = PyStr.chars (PyStr.lower (month_name m)) →
  parse_ecb_date
    (PyStr.of_chars (day_text ++ ws1 ++ name ++ ws2 ++ PyStr.fixed_digits 4 y))
  = Ok (Date y m d).
Proof.
  intros Hv Hday Hne1 Hws1 Hne2 Hws2 Hname.
  pose proof (valid_date_bounds _ _ _ Hv) as (Hy & Hm & Hd).
  destruct (any_case_letters m name Hm Hname) as [_ Hletters].
  set (text := day_text ++ ws1 ++ name ++ ws2 ++ PyStr.fixed_digits 4 y).
  assert (∃ a day_rest, day_text = a :: day_rest ∧ PyStr.isspace a = false ∧
            Forall (fun c => PyStr.isdigit c = true) day_text) as (a & day_rest & Hshape & Ha & Hdigits).
  { destruct Hday as [->|[Hlt ->]].
    - rewrite fixed_digits_2. eexists _, _. split; [done|]. split.
      + apply digit_char_not_space.
      + rewrite <- fixed_digits_2. apply fixed_digits_isdigit.
    - eexists _, _. split; [done|].
      assert (PyStr.isdigit (PyStr.digit_char d) = true) as Hdig
        by (apply isdigit_digit_char; lia).
      split; [by apply isdigit_not_isspace|]. by repeat constructor. }
  assert (PyStr.strip (PyStr.of_chars text) = PyStr.of_chars text) as Hstrip.
  { unfold PyStr.strip. rewrite chars_of_chars. f_equal. unfold text.
    rewrite Hshape, fixed_digits_4.
    replace ((a :: day_rest) ++ ws1 ++ name ++ ws2 ++
             [PyStr.digit_char (y / 10 / 10 / 10 mod 10);
              PyStr.digit_char (y / 10 / 10 mod 10);
              PyStr.digit_char (y / 10 mod 10); PyStr.digit_char (y mod 10)])
      with (a :: (day_rest ++ ws1 ++ name ++ ws2 ++
                  [PyStr.digit_char (y / 10 / 10 / 10 mod 10);
                   PyStr.digit_char (y / 10 / 10 mod 10);
                   PyStr.digit_char (y / 10 mod 10)])
              ++ [PyStr.digit_char (y mod 10)]).
    2:{ cbn [app]. rewrite <- !app_assoc. reflexivity. }
    apply strip_by_id; [exact Ha|apply digit_char_not_space]. }
  assert (date_fromisoformat (PyStr.of_chars text) = None) as Hiso.
  { apply fromisoformat_needs_dash. rewrite chars_of_chars. unfold text.
    rewrite !Forall_app. repeat split.
    - eapply Forall_impl; [exact Hdigits|]. intros c. apply isdigit_not_dash.
    - eapply Forall_impl; [exact Hws1|]. intros c. apply isspace_not_dash.
    - eapply Forall_impl; [exact Hletters|]. by intros c [_ ?].
    - eapply Forall_impl; [exact Hws2|]. intros c. apply isspace_not_dash.
    - eapply Forall_impl; [apply fixed_digits_isdigit|]. intros c. apply isdigit_not_dash. }
  assert (Strptime.after_day (ws1 ++ name ++ ws2 ++ PyStr.fixed_digits 4 y)
          = Some (m, y, [])) as Hafter by (apply after_day_any_case; done || lia).
  unfold parse_ecb_date. cbv zeta. rewrite Hstrip, Hiso.
  unfold Strptime.strptime_dBY. rewrite chars_of_chars. unfold text.
  assert (Strptime.first_match
            (Strptime.day_alternatives (day_text ++ ws1 ++ name ++ ws2 ++ PyStr.fixed_digits 4 y))
          = Some (d, m, y, [])) as ->.
  { destruct Hday as [->|[Hlt ->]].
    - apply first_match_two_digits; [lia|exact Hafter].
    - destruct ws1 as [|b ws1']; [done|]. apply Forall_cons in Hws1 as [Hb _].
      cbn [app]. apply first_match_one_digit; [lia|exact Hb|exact Hafter]. }
  unfold make_date. by rewrite Hv.
Qed.

Lemma X18_long_form_spellings_witness :
  parse_ecb_date
    (PyStr.of_chars (PyStr.chars "5" ++ PyStr.chars "  " ++ PyStr.chars "mArCh"
                     ++ [PyStr.chr 9; PyStr.chr 10] ++ PyStr.fixed_digits 4 2024))
  = Ok (Date 2024 3 5).
Proof.
  apply (X18_long_form_spellings 2024 3 5).
  - reflexivity.
  - right. split; [lia|reflexivity].
  - discriminate.
  - repeat constructor.
  - discriminate.
  - repeat constructor.
  - reflexivity.
Defined.

(** ** The two loaders on one archive *)

Lemma row_snapshot_of_daily (records : list (list string)) (snap : RatesSnapshot) :
  _parse_ecb_daily_csv records = Ok snap →
  ∃ row rest, DictReader records = row :: rest ∧ row_snapshot_of row = Some snap.
Proof.
  intros Hok.
  apply _parse_ecb_daily_csv_Ok in Hok as (row & rest & text & Hrows & Htext & Hdate & _ & Hrates).
  exists row, rest. split; [done|]. unfold row_snapshot_of. rewrite Htext, Hdate.
  destruct snap as [d r]. simpl in *. by rewrite Hrates.
Qed.

(** X19. When both loaders succeed on the same archive, the snapshot of the
    daily loader is one of the snapshots of the historical series.  For an
    XML entry it is the last snapshot of the series; for a tabular entry it
    is the snapshot of the first data row, whatever the dates of the rows
    after it. *)
Theorem X19_daily_within_series (archive : zipfile payload) (snap : RatesSnapshot)
    (series : list RatesSnapshot) :
  load_daily_snapshot archive = Ok snap →
  load_historical_snapshots archive = Ok series →
  snap ∈ series ∧
  ∃ filename content,
    read_single_file_from_zip archive = Ok (filename, content) ∧
    if PyStr.endswith (PyStr.lower filename) ".xml" then last series = Some snap
    else ∃ records row rest,
           csv_records content = Some records ∧
           DictReader records = row :: rest ∧ row_snapshot_of row = Some snap.
Proof.
  unfold load_daily_snapshot, load_historical_snapshots.
  destruct (read_single_file_from_zip archive) as [[filename content]|e]; [|done].
  cbn [mbind result_bind]. unfold load_daily_entry, load_historical_entry.
  destruct (PyStr.endswith (PyStr.lower filename) ".xml") eqn:Hxml.
  - destruct (xml_tree content) as [root|]; [|done].
    destruct (_parse_ecb_xml root) as [snapshots|e]; [|done]. cbn [mbind result_bind].
    destruct (last snapshots) as [latest|] eqn:Hlast; [|done]. intros [= <-].
    destruct snapshots as [|first others] eqn:Hs; [done|]. intros [= <-].
    split.
    + apply last_Some in Hlast as [l' ->]. apply elem_of_app. right. by left.
    + exists filename, content. by rewrite Hxml.
  - destruct (PyStr.endswith (PyStr.lower filename) ".csv"); [|done].
    destruct (csv_records content) as [records|] eqn:Hrec; [|done].
    intros (row & rest & Hrows & Hsnap)%row_snapshot_of_daily.
    destruct (_parse_ecb_hist_csv records) as [snapshots|e] eqn:Hhist; [|done].
    cbn [mbind result_bind]. destruct snapshots as [|first others] eqn:Hs; [done|].
    intros [= <-]. apply _parse_ecb_hist_csv_Ok in Hhist. split.
    + rewrite Hhist. unfold hist_skipping_bad_dates. rewrite sort_by_as_of_perm.
      apply list_elem_of_omap. exists row. split; [|done]. rewrite Hrows. by left.
    + exists filename, content. rewrite Hxml. split; [done|]. by exists records, row, rest.
Qed.

Lemma X19_daily_within_series_witness :
  Snapshot (Date 2024 1 3)
    {[ "USD" := PyFloat.lit "1.0919"; "JPY" := PyFloat.lit "156.16";
       "CHF" := PyFloat.lit "0.9304" ]}
  ∈ [ Snapshot (Date 2024 1 2)
        {[ "USD" := PyFloat.lit "1.0956"; "CHF" := PyFloat.lit "0.9300" ]};
      Snapshot (Date 2024 1 3)
        {[ "USD" := PyFloat.lit "1.0919"; "JPY" := PyFloat.lit "156.16";
           "CHF" := PyFloat.lit "0.9304" ]} ] ∧
  ∃ filename content,
    read_single_file_from_zip Feeds.hist_zip = Ok (filename, content) ∧
    if PyStr.endswith (PyStr.lower filename) ".xml"
    then last [ Snapshot (Date 2024 1 2)
                  {[ "USD" := PyFloat.lit "1.0956"; "CHF" := PyFloat.lit "0.9300" ]};
                Snapshot (Date 2024 1 3)
                  {[ "USD" := PyFloat.lit "1.0919"; "JPY" := PyFloat.lit "156.16";
                     "CHF" := PyFloat.lit "0.9304" ]} ]
         = Some (Snapshot (Date 2024 1 3)
                   {[ "USD" := PyFloat.lit "1.0919"; "JPY" := PyFloat.lit "156.16";
                      "CHF" := PyFloat.lit "0.9304" ]})
    else ∃ records row rest,
           csv_records content = Some records ∧
           DictReader records = row :: rest ∧
           row_snapshot_of row
           = Some (Snapshot (Date 2024 1 3)
                     {[ "USD" := PyFloat.lit "1.0919"; "JPY" := PyFloat.lit "156.16";
                        "CHF" := PyFloat.lit "0.9304" ]}).
Proof.
  apply (X19_daily_within_series Feeds.hist_zip); vm_compute; reflexivity.
Defined.

(** ** Short rows *)

Lemma dict_set_alike (k : string) (v v' : option string)
    (d d' : list (string * option string)) :
  v = v' ∨ (v = None ∧ v' = Some "") →
  Forall2 alike d d' → Forall2 alike (dict_set k v d) (dict_set k v' d').
Proof.
  intros Hv. induction 1 as [|[k1 v1] [k2 v2] d d' [Hk Hval] Hrest IH]; cbn [dict_set].
  - constructor; [by split|constructor].
  - simpl in Hk. subst k2. destruct (decide (k1 = k)).
    + constructor; [by split|done].
    + constructor; [by split|done].
Qed.

Lemma dict_zip_nil (fieldnames : list string) (d : list (string * option string)) :
  dict_zip fieldnames [] d = d.
Proof. by destruct fieldnames. Qed.

Lemma dict_zip_padded (fieldnames fields : list string)
    (d d' : list (string * option string)) :
  (length fields ≤ length fieldnames)%nat →
  Forall2 alike d d' →
  Forall2 alike
    (foldl (fun d key => dict_set key None d) (dict_zip fieldnames fields d)
           (drop (length fields) fieldnames))
    (dict_zip fieldnames
       (fields ++ replicate (length fieldnames - length fields) "") d').
Proof.
  revert fields d d'. induction fieldnames as [|k fieldnames IH]; intros fields d d' Hlen Hd.
  - destruct fields; [done|simpl in Hlen; lia].
  - destruct fields as [|v fields].
    + cbn [length drop app Nat.sub replicate dict_zip foldl].
      specialize (IH [] (dict_set k None d) (dict_set k (Some "") d')).
      rewrite dict_zip_nil in IH. cbn [length drop app] in IH.
      rewrite Nat.sub_0_r in IH. apply IH; [lia|].
      apply dict_set_alike; [by right|done].
    + cbn [length drop app Nat.sub dict_zip]. apply IH; [simpl in Hlen; lia|].
      apply dict_set_alike; [by left|done].
Qed.

Lemma csv_cells_alike (d d' : list (string * option string))
    (rates0 : gmap string PyFloat.float) :
  Forall2 alike d d' → csv_cells d rates0 = csv_cells d' rates0.
Proof.
  intros H. revert rates0.
  induction H as [|[k1 v1] [k2 v2] d d' [Hk Hval] _ IH]; intros rates0; [done|].
  simpl in Hk, Hval. subst k2. cbn [csv_cells].
  destruct Hval as [->|[-> ->]].
  - destruct v2 as [text|]; [|apply IH].
    destruct (_ || _); [apply IH|]. destruct (PyFloat.float_of_string text); apply IH.
  - change (PyStr.strip "") with "".
    rewrite (bool_decide_eq_true_2 (@eq string "" "")) by done.
    rewrite orb_true_r. apply IH.
Qed.

Lemma dict_get_alike (key : string) (d d' : list (string * option string)) :
  Forall2 alike d d' →
  truthy (mjoin (dict_get key d)) = truthy (mjoin (dict_get key d')) ∧
  (truthy (mjoin (dict_get key d)) = true →
   mjoin (dict_get key d) = mjoin (dict_get key d')).
Proof.
  induction 1 as [|[k1 v1] [k2 v2] d d' [Hk Hval] _ IH]; [done|].
  simpl in Hk, Hval. subst k2. cbn [dict_get].
  destruct (decide (k1 = key)); [|exact IH].
  destruct Hval as [->|[-> ->]]; [done|]. by split.
Qed.

Lemma date_text_alike (row row' : csv_row) :
  Forall2 alike (cells row) (cells row') → date_text row = date_text row'.
Proof.
  intros H. unfold date_text, row_get.
  destruct (dict_get_alike "Date" _ _ H) as [H1 H1'].
  destruct (dict_get_alike "DATE" _ _ H) as [H2 H2'].
  rewrite <- H1.
  destruct (truthy (mjoin (dict_get "Date" (cells row)))) eqn:Ht1.
  - rewrite <- H1' by done. done.
  - rewrite <- H2.
    destruct (truthy (mjoin (dict_get "DATE" (cells row)))) eqn:Ht2; [|done].
    by rewrite <- H2'.
Qed.

Lemma dict_row_padded (fieldnames fields : list string) :
  (length fields ≤ length fieldnames)%nat →
  surplus (dict_row fieldnames fields) = None ∧
  surplus (dict_row fieldnames
             (fields ++ replicate (length fieldnames - length fields) "")) = None ∧
  Forall2 alike
    (cells (dict_row fieldnames fields))
    (cells (dict_row fieldnames
              (fields ++ replicate (length fieldnames - length fields) ""))).
Proof.
  intros Hlen. unfold dict_row.
  assert (length (fields ++ replicate (length fieldnames - length fields) "")
          = length fieldnames) as Hpad.
  { rewrite length_app, length_replicate. lia. }
  rewrite Hpad.
  destruct (length fieldnames <? length fields)%nat eqn:Hlt;
    [apply Nat.ltb_lt in Hlt; lia|].
  rewrite Nat.ltb_irrefl. cbn [surplus cells]. split; [done|]. split; [done|].
  rewrite drop_all. cbn [foldl]. apply dict_zip_padded; [done|constructor].
Qed.

(** X20. A data row with fewer fields than the header is no error: both
    tabular parsers read it as the row filled up with empty fields.  The
    date text and the rates taken from it are those of the filled row, so
    a code whose field is missing has no rate, and a row too short to
    reach its date column counts as a row without date. *)
Theorem X20_short_rows (fieldnames fields : list string) :
  (length fields ≤ length fieldnames)%nat →
  let filled := fields ++ replicate (length fieldnames - length fields) "" in
  date_text (dict_row fieldnames fields) = date_text (dict_row fieldnames filled) ∧
  csv_rates (dict_row fieldnames fields) = csv_rates (dict_row fieldnames filled) ∧
  is_Ok (csv_rates (dict_row fieldnames fields)) ∧
  (fields ≠ [] →
   _parse_ecb_daily_csv [fieldnames; fields] = _parse_ecb_daily_csv [fieldnames; filled] ∧
   _parse_ecb_hist_csv [fieldnames; fields] = _parse_ecb_hist_csv [fieldnames; filled]).
Proof.
  intros Hlen filled.
  destruct (dict_row_padded fieldnames fields Hlen) as (Hs & Hs' & Hcells).
  fold filled in Hs', Hcells.
  assert (date_text (dict_row fieldnames fields) = date_text (dict_row fieldnames filled))
    as Hdate by (by apply date_text_alike).
  assert (csv_rates (dict_row fieldnames fields) = csv_rates (dict_row fieldnames filled))
    as Hrates.
  { unfold csv_rates. rewrite Hs, Hs'. f_equal. by apply csv_cells_alike. }
  split; [done|]. split; [done|]. split.
  - unfold csv_rates. rewrite Hs. by eexists.
  - intros Hne.
    assert (filled ≠ []) as Hne'.
    { unfold filled. destruct fields; [done|discriminate]. }
    split.
    + rewrite !_parse_ecb_daily_csv_unfold. unfold DictReader.
      rewrite !filter_cons_True by done. cbn [filter list_filter map].
      by rewrite Hdate, Hrates.
    + unfold _parse_ecb_hist_csv, DictReader.
      rewrite !filter_cons_True by done. cbn [filter list_filter map].
      rewrite !hist_snapshots_cons. by rewrite Hdate, Hrates.
Qed.

Lemma X20_short_rows_witness :
  let fieldnames := [ "Date"; "USD"; "JPY" ] in
  let fields := [ "2024-01-02"; "1.1" ] in
  let filled := [ "2024-01-02"; "1.1"; "" ] in
  date_text (dict_row fieldnames fields) = date_text (dict_row fieldnames filled) ∧
  csv_rates (dict_row fieldnames fields) = csv_rates (dict_row fieldnames filled) ∧
  is_Ok (csv_rates (dict_row fieldnames fields)) ∧
  (fields ≠ [] →
   _parse_ecb_daily_csv [fieldnames; fields] = _parse_ecb_daily_csv [fieldnames; filled] ∧
   _parse_ecb_hist_csv [fieldnames; fields] = _parse_ecb_hist_csv [fieldnames; filled]).
Proof.
  apply (X20_short_rows [ "Date"; "USD"; "JPY" ] [ "2024-01-02"; "1.1" ]). simpl. lia.
Defined.

(** ** The errors of the aggregator *)

Lemma fsum_item_cases (st : PyFloat.fsum_state) (x : PyFloat.float) :
  PyFloat.fsum_item st x = Raise FsumOverflowError ∨
  (∃ st', PyFloat.fsum_item st x = Ok st' ∧
          (PyFloat.isfinite x = true →
           PyFloat.special_sum st' = PyFloat.special_sum st)).
Proof.
  unfold PyFloat.fsum_item. destruct (PyFloat.fsum_pass x (PyFloat.partials st)) as [top ps].
  destruct (PyFloat.eqb top PyFloat.zero); [right; by eexists|].
  destruct (PyFloat.isfinite top); [right; by eexists|].
  destruct (PyFloat.isfinite x); [by left|]. right. by eexists.
Qed.

Lemma fsum_items_Raise (st : PyFloat.fsum_state) (data : list PyFloat.float) (e : exn) :
  PyFloat.fsum_items st data = Raise e → e = FsumOverflowError.
Proof.
  revert st. induction data as [|x data IH]; intros st; [done|].
  cbn [PyFloat.fsum_items].
  destruct (fsum_item_cases st x) as [->|(st' & -> & _)]; cbn [mbind result_bind].
  - by intros [= <-].
  - apply IH.
Qed.

Lemma fsum_items_finite (st st' : PyFloat.fsum_state) (data : list PyFloat.float) :
  Forall (fun x => PyFloat.isfinite x = true) data →
  PyFloat.fsum_items st data = Ok st' →
  PyFloat.special_sum st' = PyFloat.special_sum st.
Proof.
  intros Hfin. revert st. induction Hfin as [|x data Hx _ IH]; intros st.
  - by intros [= <-].
  - cbn [PyFloat.fsum_items].
    destruct (fsum_item_cases st x) as [->|(st1 & -> & Hsame)]; [done|].
    cbn [mbind result_bind]. intros H%IH. by rewrite H, Hsame.
Qed.

(** [fmean] on values that are there raises the two errors of [fsum]
    only, and ValueError only when a value is not finite. *)
Lemma fmean_Raise (values : list PyFloat.float) (e : exn) :
  values ≠ [] → PyFloat.fmean values = Raise e →
  e = FsumOverflowError ∨
  (e = FsumValueError ∧ ∃ x, x ∈ values ∧ PyFloat.isfinite x = false).
Proof.
  intros Hne. unfold PyFloat.fmean, PyFloat.fsum.
  destruct (PyFloat.fsum_items _ values) as [st|e0] eqn:Hitems; cbn [mbind result_bind].
  - destruct (PyFloat.eqb (PyFloat.special_sum st) PyFloat.zero) eqn:Hspecial.
    { cbn [mbind result_bind]. by destruct values. }
    destruct (PyFloat.isnan (PyFloat.inf_sum st)); cbn [mbind result_bind];
      [|by destruct values].
    intros [= <-]. right. split; [done|].
    destruct (decide (Forall (fun x => PyFloat.isfinite x = true) values)) as [Hfin|Hnot].
    + apply (fsum_items_finite _ _ _ Hfin) in Hitems. simpl in Hitems.
      rewrite Hitems in Hspecial. discriminate Hspecial.
    + apply not_Forall_Exists in Hnot; [|apply _].
      apply Exists_exists in Hnot as (x & Hx & Hnf). exists x. split; [done|].
      by apply not_true_is_false.
  - intros [= <-]. left. by apply fsum_items_Raise in Hitems.
Qed.

Lemma bucket_means_Raise_inv (F : string → list PyFloat.float) (keys : list string)
    (means0 : gmap string PyFloat.float) (e : exn) :
  bucket_means (map (fun c => (c, F c)) keys) means0 = Raise e →
  ∃ c, c ∈ keys ∧ F c ≠ [] ∧ PyFloat.fmean (F c) = Raise e.
Proof.
  revert means0. induction keys as [|k keys IH]; intros means0; [done|].
  cbn [map bucket_means]. destruct (F k) as [|x vals] eqn:HF.
  - intros (c & Hc & Hne & He)%IH. exists c. split; [by right|done].
  - destruct (PyFloat.fmean (x :: vals)) as [mean|e0] eqn:Hmean; cbn [mbind result_bind].
    + intros (c & Hc & Hne & He)%IH. exists c. split; [by right|done].
    + intros [= <-]. exists k. split; [by left|]. rewrite HF. by split.
Qed.

(** X21. When [compute_historical_means] raises, the error is one of the
    two that [fsum] raises for the values of some requested code that has
    values: OverflowError, or ValueError, and the latter only when one of
    these values is not finite.  The StatisticsError of [fmean] on an empty
    list never escapes, since a code without values is passed over. *)
Theorem X21_means_errors (historical : list RatesSnapshot) (currencies : list string)
    (e : exn) :
  compute_historical_means historical currencies = Raise e →
  e ≠ StatisticsError ∧
  ∃ c, c ∈ currencies ∧ values_for historical c ≠ [] ∧
       PyFloat.fmean (values_for historical c) = Raise e ∧
       (e = FsumOverflowError ∨
        (e = FsumValueError ∧
         ∃ x, x ∈ values_for historical c ∧ PyFloat.isfinite x = false)).
Proof.
  unfold compute_historical_means. rewrite buckets_of_series.
  intros (c & Hc & Hne & He)%bucket_means_Raise_inv.
  apply (proj1 (empty_buckets_spec currencies)) in Hc.
  pose proof (fmean_Raise _ _ Hne He) as Hcases. split.
  - destruct Hcases as [->|[-> _]]; discriminate.
  - by exists c.
Qed.

Lemma X21_means_errors_witness :
  FsumValueError ≠ StatisticsError ∧
  ∃ c, c ∈ [ "USD" ] ∧ values_for Samples.infinite_series c ≠ [] ∧
       PyFloat.fmean (values_for Samples.infinite_series c) = Raise FsumValueError ∧
       (FsumValueError = FsumOverflowError ∨
        (FsumValueError = FsumValueError ∧
         ∃ x, x ∈ values_for Samples.infinite_series c ∧ PyFloat.isfinite x = false)).
Proof.
  apply (X21_means_errors Samples.infinite_series [ "USD" ]). vm_compute. reflexivity.
Defined.
